(** * KGSL core: memory lifecycle, contexts, power state and dispatch

    A shallow embedding of [drivers/gpu/msm/kgsl.c] and the properties of
    its deferred-free queue, region registry, context table, suspend path
    and ioctl dispatcher.

    Conventions of the embedding.
    - The driver is built for 32-bit ARM ([arch/arm/mach-msm]): pointers are
      cast to [unsigned int] in the source, so [unsigned int],
      [unsigned long] and [size_t] are all 32 bits wide.  Unsigned values
      are integers in [0, 2^32) and every unsigned operation wraps through
      [u32].
    - Kernel objects reached through pointers are records; a pointer that
      the source compares or tests against [NULL] is an integer handle with
      [0] for [NULL].
    - Calls that leave the file (the Device Operation Table [ftbl], the MMU,
      the allocator, timers, completions, the log) are recorded, in program
      order, in the trace of the world; the ones that return values are
      supplied by a [platform].
    - A function is the run of one thread.  A mutex is the flag that
      [BUG_ON(!mutex_is_locked(...))] tests; a completion is its [done]
      count; what other threads did while the thread slept on the suspend
      gate is supplied by the platform. *)

From Stdlib Require Import ZArith List Bool Lia String.
Import ListNotations.
Local Open Scope Z_scope.

(** ** Machine integers and kernel constants *)

Definition UINT_MAX : Z := 4294967295.

Definition u32 (z : Z) : Z := z mod 4294967296.

Arguments u32 z : simpl never.

Definition is_u32 (z : Z) : Prop := 0 <= z <= UINT_MAX.

(* include/asm-generic/errno-base.h *)
Definition ENOMEM : Z := 12.
Definition EFAULT : Z := 14.
Definition EINVAL : Z := 22.

(* include/linux/time.h *)
Definition MSEC_PER_SEC : Z := 1000.

(* arch/arm/include/asm/page.h: PAGE_SHIFT is 12, PAGE_MASK is
   ~(PAGE_SIZE - 1) *)
Definition PAGE_MASK : Z := 4294963200.

(** ** Data model *)

(* struct kgsl_memdesc *)
Record kgsl_memdesc := mk_memdesc {
  md_pagetable : Z;
  md_hostptr : Z;
  md_gpuaddr : Z;
  md_physaddr : Z;
  md_size : Z;
  md_priv : Z
}.

(* struct kgsl_mem_entry; [priv] identifies the owning
   kgsl_process_private *)
Record kgsl_mem_entry := mk_mem_entry {
  memdesc : kgsl_memdesc;
  file_ptr : Z;
  free_timestamp : Z;
  priv : Z
}.

(* struct kgsl_context; [ctx_dev_priv] identifies the owning
   kgsl_device_private (the open file handle), [devctxt] is the
   device-side payload, 0 when absent *)
Record kgsl_context := mk_context {
  ctx_id : Z;
  ctx_dev_priv : Z;
  devctxt : Z
}.

(* struct kgsl_ibdesc *)
Record kgsl_ibdesc := mk_ibdesc {
  ib_gpuaddr : Z;
  ib_sizedwords : Z
}.

(* The KGSL_STATE_ values this file names.  They are one-hot bit masks in
   the header, so the test [state & KGSL_STATE_ACTIVE] is equality. *)
Inductive kgsl_state :=
| KGSL_STATE_NONE
| KGSL_STATE_INIT
| KGSL_STATE_ACTIVE
| KGSL_STATE_NAP
| KGSL_STATE_SLEEP
| KGSL_STATE_SUSPEND.

Definition kgsl_state_eqb (a b : kgsl_state) : bool :=
  match a, b with
  | KGSL_STATE_NONE, KGSL_STATE_NONE
  | KGSL_STATE_INIT, KGSL_STATE_INIT
  | KGSL_STATE_ACTIVE, KGSL_STATE_ACTIVE
  | KGSL_STATE_NAP, KGSL_STATE_NAP
  | KGSL_STATE_SLEEP, KGSL_STATE_SLEEP
  | KGSL_STATE_SUSPEND, KGSL_STATE_SUSPEND => true
  | _, _ => false
  end.

(* enum kgsl_timestamp_type *)
Inductive kgsl_timestamp_type :=
| KGSL_TIMESTAMP_CONSUMED
| KGSL_TIMESTAMP_RETIRED.

(* struct kgsl_device, the fields this file reads or writes.
   [context_idr] is the IDR as an array of slots indexed by id;
   a completion is its [done] count. *)
Record kgsl_device := mk_device {
  dev_id : Z;
  state : kgsl_state;
  requested_state : kgsl_state;
  active_cnt : Z;
  open_count : Z;
  nap_allowed : bool;
  interval_timeout : Z;
  memqueue : list kgsl_mem_entry;
  context_idr : list (option kgsl_context);
  mutex : bool;
  suspend_gate : Z;
  hwaccess_gate : Z
}.

(* struct kgsl_process_private *)
Record kgsl_process_private := mk_process {
  pid : Z;
  refcnt : Z;
  pagetable : Z;
  mem_list : list kgsl_mem_entry
}.

(** ** Calls that leave the file *)

Inductive gate := SUSPEND_GATE | HWACCESS_GATE.

Inductive ftbl_call :=
| DEVICE_START (start_flag : Z)
| DEVICE_STOP
| DEVICE_IDLE (timeout : Z)
| DEVICE_SUSPEND_CONTEXT
| DEVICE_RESUME_CONTEXT
| DEVICE_WAITTIMESTAMP (timestamp timeout : Z)
| DEVICE_ISSUEIBCMDS (context : kgsl_context) (ibdesc : list kgsl_ibdesc)
                     (numibs flags : Z)
| DEVICE_DRAWCTXT_CREATE (flags : Z) (context : kgsl_context)
| DEVICE_DRAWCTXT_DESTROY (context : kgsl_context)
| DEVICE_IOCTL (cmd : Z).

Inductive stat_counter :=
| PROC_VMALLOC (proc : Z)
| PROC_EXMEM (proc : Z)
| DRIVER_VMALLOC.

Inductive event :=
| EvLog (fmt : string) (args : list Z)
| EvFtbl (c : ftbl_call)
| EvMmuUnmap (pt gpuaddr size : Z)
| EvVfree (addr : Z)
| EvPutAshmemFile (file : Z)
| EvPutPmemFile (file : Z)
| EvStatSub (c : stat_counter) (size : Z)
| EvKfreeEntry (e : kgsl_mem_entry)
| EvKfreeContext (c : kgsl_context)
| EvKfreeIbdesc
| EvKfreeDevPriv (dev_priv : Z)
| EvKfreeProcess (proc : Z)
| EvKfreeUptr
| EvCacheRangeOp (addr size flags : Z)
| EvGpuMemFlush (to_dev : bool)
| EvDelTimer
| EvModTimer (timeout : Z)
| EvInitCompletion (g : gate)
| EvComplete (g : gate)
| EvWaitForCompletion (g : gate)
| EvProcessUninitSysfs (proc : Z)
| EvProcessListDel (proc : Z)
| EvMmuPutPagetable (pt : Z)
| EvPmRuntimePut
| EvCopyToUser (addr size : Z).

(* device->ftbl: the operations return the new backend state and their
   result; the drawctxt operations also return the context, whose payload
   they own. *)
Record kgsl_functable (hw : Type) := mk_functable {
  device_start : hw -> Z -> hw * Z;
  device_stop : hw -> hw * Z;
  device_idle : hw -> Z -> hw * Z;
  device_suspend_context : hw -> hw * Z;
  device_resume_context : hw -> hw * Z;
  device_cmdstream_readtimestamp : hw -> kgsl_timestamp_type -> Z;
  device_waittimestamp : hw -> Z -> Z -> hw * Z;
  device_issueibcmds :
    hw -> Z -> kgsl_context -> list kgsl_ibdesc -> Z -> Z -> Z ->
    hw * Z * Z;
  device_drawctxt_create :
    hw -> Z -> Z -> kgsl_context -> hw * kgsl_context * Z;
  device_drawctxt_destroy : hw -> kgsl_context -> hw * kgsl_context * Z;
  device_ioctl : hw -> Z -> Z -> option (list Z) -> hw * option (list Z) * Z
}.

Arguments device_start {hw}.
Arguments device_stop {hw}.
Arguments device_idle {hw}.
Arguments device_suspend_context {hw}.
Arguments device_resume_context {hw}.
Arguments device_cmdstream_readtimestamp {hw}.
Arguments device_waittimestamp {hw}.
Arguments device_issueibcmds {hw}.
Arguments device_drawctxt_create {hw}.
Arguments device_drawctxt_destroy {hw}.
Arguments device_ioctl {hw}.

(* User memory: a partial map from addresses to bytes; an unmapped address
   faults. *)
Definition umem := Z -> option Z.

(* What the file takes from its headers and from the other compilation
   units of the driver: the backend, the timestamp comparison of kgsl.h,
   the helpers [kgsl_check_suspended] and [kgsl_pwrctrl_sleep], which get
   the device and may change it, the CFF-dump parser, the flag values of
   the user header and the build configuration.  [suspend_gate_wakeup] is the
   device as the suspending thread finds it when [wait_for_completion] on
   the suspend gate has put it to sleep and it has been woken.
   [read_ibdescs m addr n] is what copy_from_user reads as an array of
   [n] struct kgsl_ibdesc at [addr], [None] when the copy faults. *)
Record platform := mk_platform {
  hw : Type;
  ftbl : kgsl_functable hw;
  timestamp_cmp : Z -> Z -> bool;
  kgsl_check_suspended : kgsl_device -> kgsl_device;
  kgsl_pwrctrl_sleep : kgsl_device -> kgsl_device * Z;
  suspend_gate_wakeup : kgsl_device -> kgsl_device;
  kgsl_cffdump_parse_ibs : Z -> kgsl_memdesc -> Z -> Z -> bool;
  read_ibdescs : umem -> Z -> Z -> option (list kgsl_ibdesc);
  KGSL_MEMFLAGS_VMALLOC_MEM : Z;
  KGSL_MEMFLAGS_HOSTADDR : Z;
  KGSL_MEMFLAGS_CACHE_MASK : Z;
  KGSL_CONTEXT_SUBMIT_IB_LIST : Z;
  KGSL_TIMEOUT_DEFAULT : Z;
  IOCTL_KGSL_CMDSTREAM_FREEMEMONTIMESTAMP : Z;
  IOCTL_KGSL_CMDSTREAM_FREEMEMONTIMESTAMP_OLD : Z;
  CONFIG_MSM_KGSL_MMU : bool;
  CONFIG_MSM_KGSL_DRM : bool;
  kgsl_cache_enable : bool
}.

(* One device with its backend, the calling process, user memory, the
   answers kzalloc will give to the next requests (oldest first, [true]
   for success; when the list is exhausted the allocation succeeds) and
   the trace of calls made so far. *)
Record world (P : platform) := mk_world {
  w_dev : kgsl_device;
  w_hw : hw P;
  w_proc : kgsl_process_private;
  w_user : umem;
  w_kzalloc : list bool;
  w_trace : list event
}.

Arguments mk_world {P}.
Arguments w_dev {P}.
Arguments w_hw {P}.
Arguments w_proc {P}.
Arguments w_user {P}.
Arguments w_kzalloc {P}.
Arguments w_trace {P}.

(** ** The monad of driver code: state passing, with [BUG_ON] *)

Inductive outcome (S A : Type) :=
| Ok (a : A) (s : S)
| Bug (s : S).

Arguments Ok {S A}.
Arguments Bug {S A}.

Definition K (P : platform) (A : Type) := world P -> outcome (world P) A.

Definition ret {P A} (a : A) : K P A := fun w => Ok a w.

Definition bind {P A B} (c : K P A) (f : A -> K P B) : K P B :=
  fun w => match c w with
           | Ok a w' => f a w'
           | Bug w' => Bug w'
           end.

Declare Scope kgsl_scope.
Delimit Scope kgsl_scope with kgsl.
Notation "x <- c ;; k" := (bind c (fun x => k))
  (at level 61, c at next level, right associativity) : kgsl_scope.
Notation "c ;;; k" := (bind c (fun _ => k))
  (at level 61, right associativity) : kgsl_scope.
Local Open Scope kgsl_scope.

Definition BUG_ON {P} (b : bool) : K P unit :=
  fun w => if b then Bug w else Ok tt w.

Definition emit {P} (e : event) : K P unit :=
  fun w => Ok tt (mk_world (w_dev w) (w_hw w) (w_proc w) (w_user w)
                           (w_kzalloc w) (w_trace w ++ [e])).

Definition emit_all {P} (es : list event) : K P unit :=
  fun w => Ok tt (mk_world (w_dev w) (w_hw w) (w_proc w) (w_user w)
                           (w_kzalloc w) (w_trace w ++ es)).

Definition get_dev {P} : K P kgsl_device := fun w => Ok (w_dev w) w.

Definition put_dev {P} (d : kgsl_device) : K P unit :=
  fun w => Ok tt (mk_world d (w_hw w) (w_proc w) (w_user w) (w_kzalloc w)
                           (w_trace w)).

Definition get_proc {P} : K P kgsl_process_private :=
  fun w => Ok (w_proc w) w.

Definition put_proc {P} (p : kgsl_process_private) : K P unit :=
  fun w => Ok tt (mk_world (w_dev w) (w_hw w) p (w_user w) (w_kzalloc w)
                           (w_trace w)).

Definition get_hw {P} : K P (hw P) := fun w => Ok (w_hw w) w.

Definition put_hw {P} (h : hw P) : K P unit :=
  fun w => Ok tt (mk_world (w_dev w) h (w_proc w) (w_user w) (w_kzalloc w)
                           (w_trace w)).

(* Field updates of struct kgsl_device *)
Definition set_state (s : kgsl_state) (d : kgsl_device) : kgsl_device :=
  mk_device (dev_id d) s (requested_state d) (active_cnt d) (open_count d)
    (nap_allowed d) (interval_timeout d) (memqueue d) (context_idr d)
    (mutex d) (suspend_gate d) (hwaccess_gate d).

Definition set_requested_state (s : kgsl_state) (d : kgsl_device)
  : kgsl_device :=
  mk_device (dev_id d) (state d) s (active_cnt d) (open_count d)
    (nap_allowed d) (interval_timeout d) (memqueue d) (context_idr d)
    (mutex d) (suspend_gate d) (hwaccess_gate d).

Definition set_active_cnt (n : Z) (d : kgsl_device) : kgsl_device :=
  mk_device (dev_id d) (state d) (requested_state d) n (open_count d)
    (nap_allowed d) (interval_timeout d) (memqueue d) (context_idr d)
    (mutex d) (suspend_gate d) (hwaccess_gate d).

Definition set_open_count (n : Z) (d : kgsl_device) : kgsl_device :=
  mk_device (dev_id d) (state d) (requested_state d) (active_cnt d) n
    (nap_allowed d) (interval_timeout d) (memqueue d) (context_idr d)
    (mutex d) (suspend_gate d) (hwaccess_gate d).

Definition set_nap_allowed (b : bool) (d : kgsl_device) : kgsl_device :=
  mk_device (dev_id d) (state d) (requested_state d) (active_cnt d)
    (open_count d) b (interval_timeout d) (memqueue d) (context_idr d)
    (mutex d) (suspend_gate d) (hwaccess_gate d).

Definition set_memqueue (q : list kgsl_mem_entry) (d : kgsl_device)
  : kgsl_device :=
  mk_device (dev_id d) (state d) (requested_state d) (active_cnt d)
    (open_count d) (nap_allowed d) (interval_timeout d) q (context_idr d)
    (mutex d) (suspend_gate d) (hwaccess_gate d).

Definition set_context_idr (t : list (option kgsl_context))
  (d : kgsl_device) : kgsl_device :=
  mk_device (dev_id d) (state d) (requested_state d) (active_cnt d)
    (open_count d) (nap_allowed d) (interval_timeout d) (memqueue d) t
    (mutex d) (suspend_gate d) (hwaccess_gate d).

Definition set_mutex (b : bool) (d : kgsl_device) : kgsl_device :=
  mk_device (dev_id d) (state d) (requested_state d) (active_cnt d)
    (open_count d) (nap_allowed d) (interval_timeout d) (memqueue d)
    (context_idr d) b (suspend_gate d) (hwaccess_gate d).

Definition set_suspend_gate (n : Z) (d : kgsl_device) : kgsl_device :=
  mk_device (dev_id d) (state d) (requested_state d) (active_cnt d)
    (open_count d) (nap_allowed d) (interval_timeout d) (memqueue d)
    (context_idr d) (mutex d) n (hwaccess_gate d).

Definition set_hwaccess_gate (n : Z) (d : kgsl_device) : kgsl_device :=
  mk_device (dev_id d) (state d) (requested_state d) (active_cnt d)
    (open_count d) (nap_allowed d) (interval_timeout d) (memqueue d)
    (context_idr d) (mutex d) (suspend_gate d) n.

Definition modify_dev {P} (f : kgsl_device -> kgsl_device) : K P unit :=
  fun w => Ok tt (mk_world (f (w_dev w)) (w_hw w) (w_proc w) (w_user w)
                           (w_kzalloc w) (w_trace w)).

Definition put_user {P} (m : umem) : K P unit :=
  fun w => Ok tt (mk_world (w_dev w) (w_hw w) (w_proc w) m (w_kzalloc w)
                           (w_trace w)).

(* kzalloc: true when the allocation succeeds *)
Definition kzalloc {P} : K P bool :=
  fun w => match w_kzalloc w with
           | [] => Ok true w
           | b :: rest =>
               Ok b (mk_world (w_dev w) (w_hw w) (w_proc w) (w_user w) rest
                              (w_trace w))
           end.

(* A call through device->ftbl that returns an int *)
Definition call_ftbl {P} (c : ftbl_call) (op : hw P -> hw P * Z) : K P Z :=
  emit (EvFtbl c) ;;;
  h <- get_hw ;;
  let (h', r) := op h in
  put_hw h' ;;;
  ret r.

Definition mutex_lock {P} : K P unit := modify_dev (set_mutex true).
Definition mutex_unlock {P} : K P unit := modify_dev (set_mutex false).

(* copy_from_user of [n] bytes: [None] when an address faults *)
Fixpoint copy_from_user (m : umem) (addr : Z) (n : nat)
  : option (list Z) :=
  match n with
  | O => Some []
  | S n' =>
      match m addr with
      | None => None
      | Some b =>
          match copy_from_user m (addr + 1) n' with
          | None => None
          | Some bs => Some (b :: bs)
          end
      end
  end.

(** ** The driver *)

Section Model.

Context (P : platform).

Definition flag_set (flags mask : Z) : bool :=
  negb (Z.land flags mask =? 0).

(** *** Destroying a region *)

(* kgsl_put_phys_file *)
Definition kgsl_put_phys_file (file : Z) : list event :=
  if file =? 0 then [] else [EvPutPmemFile file].

(* kgsl_destroy_mem_entry: the calls it makes, in order *)
Definition kgsl_destroy_mem_entry (entry : kgsl_mem_entry) : list event :=
  let md := memdesc entry in
  let vmalloc := flag_set (md_priv md) (KGSL_MEMFLAGS_VMALLOC_MEM P) in
  [EvMmuUnmap (md_pagetable md) (Z.land (md_gpuaddr md) PAGE_MASK)
              (md_size md)]
  ++ (if vmalloc then [EvVfree (md_physaddr md)]
      else if flag_set (md_priv md) (KGSL_MEMFLAGS_HOSTADDR P)
              && negb (file_ptr entry =? 0)
      then [EvPutAshmemFile (file_ptr entry)]
      else kgsl_put_phys_file (file_ptr entry))
  ++ (if vmalloc
      then [EvStatSub (PROC_VMALLOC (priv entry)) (md_size md);
            EvStatSub DRIVER_VMALLOC (md_size md)]
      else [EvStatSub (PROC_EXMEM (priv entry)) (md_size md)])
  ++ [EvKfreeEntry entry].

(** *** The deferred-free queue *)

(* kgsl_memqueue_cleanup: list_for_each_entry_safe over the queue,
   unlinking and destroying the entries of [private] *)
Fixpoint memqueue_cleanup_loop (private : Z) (q : list kgsl_mem_entry)
  : list event * list kgsl_mem_entry :=
  match q with
  | [] => ([], [])
  | entry :: rest =>
      let (evs, q') := memqueue_cleanup_loop private rest in
      if priv entry =? private
      then (kgsl_destroy_mem_entry entry ++ evs, q')
      else (evs, entry :: q')
  end.

Definition kgsl_memqueue_cleanup (private : Z) : K P unit :=
  d <- get_dev ;;
  BUG_ON (negb (mutex d)) ;;;
  let (evs, q) := memqueue_cleanup_loop private (memqueue d) in
  emit_all evs ;;;
  put_dev (set_memqueue q d).

Definition set_free_timestamp (ts : Z) (e : kgsl_mem_entry)
  : kgsl_mem_entry :=
  mk_mem_entry (memdesc e) (file_ptr e) ts (priv e).

(* kgsl_memqueue_freememontimestamp *)
Definition kgsl_memqueue_freememontimestamp (entry : kgsl_mem_entry)
  (timestamp : Z) (type : kgsl_timestamp_type) : K P unit :=
  d <- get_dev ;;
  BUG_ON (negb (mutex d)) ;;;
  put_dev (set_memqueue (memqueue d ++ [set_free_timestamp timestamp entry])
                        d).

Definition memqueue_log (ts_processed : Z) (entry : kgsl_mem_entry)
  : event :=
  EvLog "ts_processed %d ts_free %d gpuaddr %x)"
        [ts_processed; free_timestamp entry; md_gpuaddr (memdesc entry)].

(* The loop of kgsl_memqueue_drain: the calls made and the queue left *)
Fixpoint memqueue_drain_loop (ts_processed : Z) (q : list kgsl_mem_entry)
  : list event * list kgsl_mem_entry :=
  match q with
  | [] => ([], [])
  | entry :: rest =>
      if negb (timestamp_cmp P ts_processed (free_timestamp entry))
      then ([memqueue_log ts_processed entry], q)
      else
        let (evs, q') := memqueue_drain_loop ts_processed rest in
        (memqueue_log ts_processed entry
           :: kgsl_destroy_mem_entry entry ++ evs, q')
  end.

(* kgsl_memqueue_drain *)
Definition kgsl_memqueue_drain : K P unit :=
  d <- get_dev ;;
  BUG_ON (negb (mutex d)) ;;;
  h <- get_hw ;;
  let ts_processed :=
    device_cmdstream_readtimestamp (ftbl P) h KGSL_TIMESTAMP_RETIRED in
  let (evs, q) := memqueue_drain_loop ts_processed (memqueue d) in
  emit_all evs ;;;
  put_dev (set_memqueue q d).

(* kgsl_memqueue_drain_unlocked *)
Definition kgsl_memqueue_drain_unlocked : K P unit :=
  mutex_lock ;;;
  modify_dev (kgsl_check_suspended P) ;;;
  kgsl_memqueue_drain ;;;
  mutex_unlock.

(** *** Idle check *)

(* kgsl_check_idle_locked *)
Definition kgsl_check_idle_locked : K P unit :=
  d <- get_dev ;;
  if nap_allowed d && kgsl_state_eqb (state d) KGSL_STATE_ACTIVE then
    let (d', r) :=
      kgsl_pwrctrl_sleep P (set_requested_state KGSL_STATE_NAP d) in
    put_dev d' ;;;
    if negb (r =? 0) then emit (EvModTimer (interval_timeout d'))
    else ret tt
  else ret tt.

(* kgsl_check_idle *)
Definition kgsl_check_idle : K P unit :=
  mutex_lock ;;;
  kgsl_check_idle_locked ;;;
  mutex_unlock.

(** *** The region registry of a process *)

(* kgsl_sharedmem_find *)
Definition kgsl_sharedmem_find (private : kgsl_process_private)
  (gpuaddr : Z) : option kgsl_mem_entry :=
  find (fun entry => md_gpuaddr (memdesc entry) =? gpuaddr)
       (mem_list private).

(* The test of kgsl_sharedmem_find_region; both sums are unsigned *)
Definition region_test (gpuaddr size : Z) (entry : kgsl_mem_entry) : bool :=
  (md_gpuaddr (memdesc entry) <=? gpuaddr)
  && (u32 (gpuaddr + size)
      <=? u32 (md_gpuaddr (memdesc entry) + md_size (memdesc entry))).

(* kgsl_sharedmem_find_region *)
Definition kgsl_sharedmem_find_region (private : kgsl_process_private)
  (gpuaddr size : Z) : option kgsl_mem_entry :=
  find (region_test gpuaddr size) (mem_list private).

(* list_del of the entry kgsl_sharedmem_find returned: the first node
   with that address *)
Fixpoint mem_list_del (gpuaddr : Z) (l : list kgsl_mem_entry)
  : list kgsl_mem_entry :=
  match l with
  | [] => []
  | entry :: rest =>
      if md_gpuaddr (memdesc entry) =? gpuaddr then rest
      else entry :: mem_list_del gpuaddr rest
  end.

Definition set_mem_list (l : list kgsl_mem_entry)
  (p : kgsl_process_private) : kgsl_process_private :=
  mk_process (pid p) (refcnt p) (pagetable p) l.

(** *** The context table *)

(* idr_find *)
Definition idr_find (t : list (option kgsl_context)) (id : Z)
  : option kgsl_context :=
  if id <? 0 then None
  else match nth_error t (Z.to_nat id) with
       | Some slot => slot
       | None => None
       end.

Fixpoint idr_set (t : list (option kgsl_context)) (n : nat)
  (v : option kgsl_context) : list (option kgsl_context) :=
  match t, n with
  | [], _ => []
  | _ :: rest, O => v :: rest
  | slot :: rest, S n' => slot :: idr_set rest n' v
  end.

(* idr_remove *)
Definition idr_remove (t : list (option kgsl_context)) (id : Z)
  : list (option kgsl_context) :=
  if id <? 0 then t else idr_set t (Z.to_nat id) None.

(* idr_get_next: the entry with the smallest id >= next, with its id *)
Fixpoint idr_get_next_from (i : Z) (t : list (option kgsl_context))
  (next : Z) : option (Z * kgsl_context) :=
  match t with
  | [] => None
  | slot :: rest =>
      match slot with
      | Some c =>
          if next <=? i then Some (i, c)
          else idr_get_next_from (i + 1) rest next
      | None => idr_get_next_from (i + 1) rest next
      end
  end.

Definition idr_get_next (t : list (option kgsl_context)) (next : Z)
  : option (Z * kgsl_context) :=
  idr_get_next_from 0 t next.

(* idr_get_new: the smallest free id, and the table with the pointer
   stored there *)
Fixpoint idr_get_new_from (i : Z) (t : list (option kgsl_context))
  (mk : Z -> kgsl_context) : list (option kgsl_context) * Z :=
  match t with
  | [] => ([Some (mk i)], i)
  | None :: rest => (Some (mk i) :: rest, i)
  | Some c :: rest =>
      let (t', id) := idr_get_new_from (i + 1) rest mk in
      (Some c :: t', id)
  end.

(** Modelled from the spec: [kgsl_find_context] is defined in kgsl.h,
    which is not part of this file.  The Context Table offers
    [find(process_handle, id) -> Context | NotFound], and a context id is
    invalid for a request when it is "unknown to caller": the context
    stored under [id], provided the calling handle owns it. *)
Definition kgsl_find_context (d : kgsl_device) (dev_priv : Z) (id : Z)
  : option kgsl_context :=
  match idr_find (context_idr d) id with
  | Some c => if ctx_dev_priv c =? dev_priv then Some c else None
  | None => None
  end.

(* kgsl_create_context.  In one thread idr_get_new does not answer
   -EAGAIN after a successful idr_pre_get, so the retry loop runs once;
   idr_pre_get fails when its allocation does. *)
Definition kgsl_create_context (dev_priv : Z) : K P (option kgsl_context) :=
  ok <- kzalloc ;;
  if negb ok then ret None
  else
    pre <- kzalloc ;;
    if negb pre then
      emit (EvKfreeContext (mk_context 0 0 0)) ;;;
      ret None
    else
      d <- get_dev ;;
      let (t, id) :=
        idr_get_new_from 0 (context_idr d)
                         (fun id => mk_context id dev_priv 0) in
      put_dev (set_context_idr t d) ;;;
      ret (Some (mk_context id dev_priv 0)).

(* kgsl_destroy_context *)
Definition kgsl_destroy_context (dev_priv : Z)
  (context : option kgsl_context) : K P unit :=
  match context with
  | None => ret tt
  | Some c =>
      (* Fire a bug if the devctxt hasn't been freed *)
      BUG_ON (negb (devctxt c =? 0)) ;;;
      let id := ctx_id c in
      emit (EvKfreeContext c) ;;;
      modify_dev (fun d => set_context_idr (idr_remove (context_idr d) id) d)
  end.

(* A call of a drawctxt operation of the backend on the context stored
   in [slot]: the object is the one the table points to, so what the
   backend does to it shows through the table. *)
Definition call_drawctxt (c : ftbl_call) (slot : Z)
  (op : hw P -> hw P * kgsl_context * Z) : K P (kgsl_context * Z) :=
  emit (EvFtbl c) ;;;
  h <- get_hw ;;
  let '(h', context', r) := op h in
  put_hw h' ;;;
  modify_dev (fun d =>
    set_context_idr
      (if slot <? 0 then context_idr d
       else idr_set (context_idr d) (Z.to_nat slot) (Some context')) d) ;;;
  ret (context', r).

(** *** Suspend *)

(* wait_for_completion(&device->suspend_gate) *)
Definition wait_for_suspend_gate : K P unit :=
  emit (EvWaitForCompletion SUSPEND_GATE) ;;;
  d <- get_dev ;;
  if 0 <? suspend_gate d
  then put_dev (set_suspend_gate (suspend_gate d - 1) d)
  else put_dev (suspend_gate_wakeup P d).

(* The NAP and SLEEP cases of the switch in kgsl_suspend, which ACTIVE
   falls through to *)
Definition suspend_stop : K P unit :=
  (* Get the completion ready to be waited upon. *)
  emit (EvInitCompletion HWACCESS_GATE) ;;;
  modify_dev (set_hwaccess_gate 0) ;;;
  _ <- call_ftbl DEVICE_SUSPEND_CONTEXT (device_suspend_context (ftbl P)) ;;
  _ <- call_ftbl DEVICE_STOP (device_stop (ftbl P)) ;;
  modify_dev (set_state KGSL_STATE_SUSPEND) ;;;
  d <- get_dev ;;
  emit (EvLog "state -> SUSPEND, device %d" [dev_id d]).

(* The body of the loop of kgsl_suspend for one registered device:
   [Some r] when the function returns [r] from inside the loop, [None]
   when the loop goes on *)
Definition kgsl_suspend_device : K P (option Z) :=
  emit (EvLog "suspend start" []) ;;;
  mutex_lock ;;;
  d <- get_dev ;;
  let nap_allowed_saved := nap_allowed d in
  modify_dev (set_nap_allowed false) ;;;
  modify_dev (set_requested_state KGSL_STATE_SUSPEND) ;;;
  (* Make sure no user process is waiting for a timestamp before
     supending *)
  (if negb (active_cnt d =? 0) then
     mutex_unlock ;;;
     wait_for_suspend_gate ;;;
     mutex_lock
   else ret tt) ;;;
  (* Don't let the timer wake us during suspended sleep. *)
  emit EvDelTimer ;;;
  d <- get_dev ;;
  failed <-
    match state d with
    | KGSL_STATE_INIT => ret false
    | KGSL_STATE_ACTIVE =>
        (* Wait for the device to become idle *)
        _ <- call_ftbl (DEVICE_IDLE (KGSL_TIMEOUT_DEFAULT P))
               (fun h => device_idle (ftbl P) h (KGSL_TIMEOUT_DEFAULT P)) ;;
        suspend_stop ;;;
        ret false
    | KGSL_STATE_NAP
    | KGSL_STATE_SLEEP =>
        suspend_stop ;;;
        ret false
    | _ =>
        emit (EvLog "suspend fail, device %d" [dev_id d]) ;;;
        mutex_unlock ;;;
        ret true
    end ;;
  if failed : bool then ret (Some (- EINVAL))
  else
    modify_dev (set_requested_state KGSL_STATE_NONE) ;;;
    modify_dev (set_nap_allowed nap_allowed_saved) ;;;
    mutex_unlock ;;;
    emit (EvLog "suspend end" []) ;;;
    ret None.

(* kgsl_suspend: the loop over kgsl_driver.devp, one world per
   registered device *)
Fixpoint kgsl_suspend (devp : list (option (world P)))
  : outcome (list (option (world P))) Z :=
  match devp with
  | [] => Ok 0 []
  | None :: rest =>
      match kgsl_suspend rest with
      | Ok r rest' => Ok r (None :: rest')
      | Bug rest' => Bug (None :: rest')
      end
  | Some w :: rest =>
      match kgsl_suspend_device w with
      | Ok (Some r) w' => Ok r (Some w' :: rest)
      | Ok None w' =>
          match kgsl_suspend rest with
          | Ok r rest' => Ok r (Some w' :: rest')
          | Bug rest' => Bug (Some w' :: rest')
          end
      | Bug w' => Bug (Some w' :: rest)
      end
  end.

(** *** Closing a handle *)

(* kgsl_put_process_private; the counter is unsigned *)
Definition kgsl_put_process_private : K P unit :=
  p <- get_proc ;;
  let p :=
    mk_process (pid p) (u32 (refcnt p - 1)) (pagetable p) (mem_list p) in
  put_proc p ;;;
  if negb (refcnt p =? 0) then ret tt
  else
    emit (EvLog "Memory usage: vmalloc (%d/%d) exmem (%d/%d)" []) ;;;
    emit (EvProcessUninitSysfs (pid p)) ;;;
    emit (EvProcessListDel (pid p)) ;;;
    emit_all (flat_map kgsl_destroy_mem_entry (mem_list p)) ;;;
    put_proc (set_mem_list [] p) ;;;
    (if CONFIG_MSM_KGSL_MMU P && negb (pagetable p =? 0)
     then emit (EvMmuPutPagetable (pagetable p))
     else ret tt) ;;;
    emit (EvKfreeProcess (pid p)).

(* The while (1) loop of kgsl_release over the context table; the answer
   is [false] when [fuel] iterations did not reach the end of the table *)
Fixpoint release_contexts (fuel : nat) (dev_priv : Z) (next : Z)
  : K P bool :=
  match fuel with
  | O => ret false
  | S fuel' =>
      d <- get_dev ;;
      match idr_get_next (context_idr d) next with
      | None => ret true
      | Some (next, context) =>
          (if ctx_dev_priv context =? dev_priv then
             r <- call_drawctxt (DEVICE_DRAWCTXT_DESTROY context) next
                    (fun h => device_drawctxt_destroy (ftbl P) h context) ;;
             kgsl_destroy_context dev_priv (Some (fst r))
           else ret tt) ;;;
          release_contexts fuel' dev_priv (next + 1)
      end
  end.

(* kgsl_release for the handle [dev_priv] of the process of the world.
   One iteration of the context loop visits at least one slot, so the
   table length bounds the iterations before idr_get_next answers NULL;
   [None] stands for a loop that did not end within that bound. *)
Definition kgsl_release (dev_priv : Z) : K P (option Z) :=
  mutex_lock ;;;
  modify_dev (kgsl_check_suspended P) ;;;
  d <- get_dev ;;
  finished <-
    release_contexts (S (List.length (context_idr d))) dev_priv 0 ;;
  if negb finished then ret None
  else
    d <- get_dev ;;
    put_dev (set_open_count (open_count d - 1) d) ;;;
    result <-
      (if open_count d - 1 =? -1 then
         r <- call_ftbl DEVICE_STOP (device_stop (ftbl P)) ;;
         modify_dev (set_state KGSL_STATE_INIT) ;;;
         emit (EvLog "state -> INIT, device %d" [dev_id d]) ;;;
         ret r
       else ret 0) ;;
    (* clean up any to-be-freed entries that belong to this process and
       this device *)
    p <- get_proc ;;
    kgsl_memqueue_cleanup (pid p) ;;;
    mutex_unlock ;;;
    emit (EvKfreeDevPriv dev_priv) ;;;
    kgsl_put_process_private ;;;
    emit EvPmRuntimePut ;;;
    ret (Some result).

(** *** Request handlers *)

(* struct kgsl_device_waittimestamp *)
Record kgsl_device_waittimestamp := mk_waittimestamp {
  wt_timestamp : Z;
  wt_timeout : Z
}.

(* kgsl_ioctl_device_waittimestamp *)
Definition kgsl_ioctl_device_waittimestamp (dev_priv : Z)
  (param : kgsl_device_waittimestamp)
  : K P (Z * kgsl_device_waittimestamp) :=
  (* Set the active count so that suspend doesn't do the wrong thing *)
  modify_dev (fun d => set_active_cnt (u32 (active_cnt d + 1)) d) ;;;
  (* Don't wait forever, set a max value for now *)
  let param :=
    if wt_timeout param =? u32 (-1)
    then mk_waittimestamp (wt_timestamp param) (10 * MSEC_PER_SEC)
    else param in
  result <- call_ftbl
              (DEVICE_WAITTIMESTAMP (wt_timestamp param) (wt_timeout param))
              (fun h => device_waittimestamp (ftbl P) h (wt_timestamp param)
                                             (wt_timeout param)) ;;
  kgsl_memqueue_drain ;;;
  (* Fire off any pending suspend operations that are in flight *)
  emit (EvInitCompletion SUSPEND_GATE) ;;;
  modify_dev (set_suspend_gate 0) ;;;
  modify_dev (fun d => set_active_cnt (u32 (active_cnt d - 1)) d) ;;;
  emit (EvComplete SUSPEND_GATE) ;;;
  modify_dev (fun d => set_suspend_gate (suspend_gate d + 1) d) ;;;
  ret (result, param).

(* check_ibdesc on the descriptor array, [i] being the index of its first
   element; sizeof(uint) is 4 and the product is a size_t *)
Fixpoint check_ibdesc_from (private : kgsl_process_private) (dev_priv : Z)
  (parse : bool) (numibs i : Z) (ibdesc : list kgsl_ibdesc)
  : list event * bool :=
  match ibdesc with
  | [] => ([], true)
  | ib :: rest =>
      match kgsl_sharedmem_find_region private (ib_gpuaddr ib)
                                       (u32 (ib_sizedwords ib * 4)) with
      | None =>
          ([EvLog "invalid cmd buffer gpuaddr %08x sizedwords %d"
                  [ib_gpuaddr ib; ib_sizedwords ib]], false)
      | Some entry =>
          if parse && negb (kgsl_cffdump_parse_ibs P dev_priv (memdesc entry)
                              (ib_gpuaddr ib) (ib_sizedwords ib))
          then
            ([EvLog "invalid cmd buffer gpuaddr %08x sizedwords %d numibs %d/%d"
                    [ib_gpuaddr ib; ib_sizedwords ib; i + 1; numibs]], false)
          else check_ibdesc_from private dev_priv parse numibs (i + 1) rest
      end
  end.

Definition check_ibdesc (dev_priv : Z) (ibdesc : list kgsl_ibdesc)
  (numibs : Z) (parse : bool) : K P bool :=
  p <- get_proc ;;
  let (evs, result) := check_ibdesc_from p dev_priv parse numibs 0 ibdesc in
  emit_all evs ;;;
  ret result.

(* kgsl_clean_cache_all *)
Definition kgsl_clean_cache_all : K P unit :=
  p <- get_proc ;;
  emit_all
    (flat_map
       (fun entry =>
          if flag_set (md_priv (memdesc entry)) (KGSL_MEMFLAGS_CACHE_MASK P)
          then [EvCacheRangeOp (md_hostptr (memdesc entry))
                               (md_size (memdesc entry))
                               (md_priv (memdesc entry))]
          else [])
       (mem_list p)).

(* struct kgsl_ringbuffer_issueibcmds *)
Record kgsl_ringbuffer_issueibcmds := mk_issueibcmds {
  ii_drawctxt_id : Z;
  ii_ibdesc_addr : Z;
  ii_numibs : Z;
  ii_timestamp : Z;
  ii_flags : Z
}.

(* The label done: of kgsl_ioctl_rb_issueibcmds *)
Definition issueibcmds_done (result : Z)
  (param : kgsl_ringbuffer_issueibcmds)
  : K P (Z * kgsl_ringbuffer_issueibcmds) :=
  (if CONFIG_MSM_KGSL_DRM P then emit (EvGpuMemFlush false) else ret tt) ;;;
  ret (result, param).

(* The label free_ibdesc: *)
Definition issueibcmds_free_ibdesc (result : Z)
  (param : kgsl_ringbuffer_issueibcmds)
  : K P (Z * kgsl_ringbuffer_issueibcmds) :=
  emit EvKfreeIbdesc ;;;
  issueibcmds_done result param.

(* From the first check_ibdesc on *)
Definition issueibcmds_submit (dev_priv : Z) (context : kgsl_context)
  (ibdesc : list kgsl_ibdesc) (param : kgsl_ringbuffer_issueibcmds)
  : K P (Z * kgsl_ringbuffer_issueibcmds) :=
  valid <- check_ibdesc dev_priv ibdesc (ii_numibs param) true ;;
  if negb valid then
    emit (EvLog "bad ibdesc" []) ;;;
    issueibcmds_free_ibdesc (- EINVAL) param
  else
    emit (EvFtbl (DEVICE_ISSUEIBCMDS context ibdesc (ii_numibs param)
                                     (ii_flags param))) ;;;
    h <- get_hw ;;
    let '(h', result, timestamp) :=
      device_issueibcmds (ftbl P) h dev_priv context ibdesc
                         (ii_numibs param) (ii_timestamp param)
                         (ii_flags param) in
    put_hw h' ;;;
    let param :=
      mk_issueibcmds (ii_drawctxt_id param) (ii_ibdesc_addr param)
                     (ii_numibs param) timestamp (ii_flags param) in
    if negb (result =? 0) then issueibcmds_free_ibdesc result param
    else
      (* this is a check to try to detect if a command buffer was freed
         during issueibcmds(). *)
      valid <- check_ibdesc dev_priv ibdesc (ii_numibs param) false ;;
      if negb valid then
        emit (EvLog "bad ibdesc AFTER issue" []) ;;;
        issueibcmds_free_ibdesc (- EINVAL) param
      else issueibcmds_free_ibdesc result param.

(* include/linux/msm_kgsl.h: struct kgsl_ibdesc has three 32-bit fields *)
Definition sizeof_kgsl_ibdesc : Z := 12.

(* The list form when sizeof(struct kgsl_ibdesc) * numibs does not fit 32
   bits: the array allocated and copied has [bytes] bytes, fewer than
   [numibs] descriptors, while check_ibdesc walks [numibs] entries.  The
   whole descriptors of the array are checked as usual and the first one
   that fails ends the request; when all of them pass, the walk reads
   behind the end of the array, which C leaves undefined: the run stops
   there, as at a BUG_ON. *)
Definition issueibcmds_short_array (dev_priv : Z) (bytes : Z)
  (param : kgsl_ringbuffer_issueibcmds)
  : K P (Z * kgsl_ringbuffer_issueibcmds) :=
  fun w =>
    let whole := bytes / sizeof_kgsl_ibdesc in
    match read_ibdescs P (w_user w) (ii_ibdesc_addr param) whole,
          copy_from_user (w_user w)
            (ii_ibdesc_addr param + sizeof_kgsl_ibdesc * whole)
            (Z.to_nat (bytes mod sizeof_kgsl_ibdesc)) with
    | Some ibdesc, Some _ =>
        (valid <- check_ibdesc dev_priv ibdesc (ii_numibs param) true ;;
         if negb valid then
           emit (EvLog "bad ibdesc" []) ;;;
           issueibcmds_free_ibdesc (- EINVAL) param
         else fun w' => Bug w') w
    | _, _ =>
        (emit (EvLog "copy_from_user failed" []) ;;;
         issueibcmds_free_ibdesc (- EFAULT) param) w
    end.

(* kgsl_ioctl_rb_issueibcmds.  The array of the list form has
   sizeof(struct kgsl_ibdesc) * numibs bytes, a 32-bit product. *)
Definition kgsl_ioctl_rb_issueibcmds (dev_priv : Z)
  (param : kgsl_ringbuffer_issueibcmds)
  : K P (Z * kgsl_ringbuffer_issueibcmds) :=
  (if CONFIG_MSM_KGSL_MMU P && kgsl_cache_enable P
   then kgsl_clean_cache_all else ret tt) ;;;
  (if CONFIG_MSM_KGSL_DRM P then emit (EvGpuMemFlush true) else ret tt) ;;;
  d <- get_dev ;;
  match kgsl_find_context d dev_priv (ii_drawctxt_id param) with
  | None =>
      emit (EvLog "invalid drawctxt drawctxt_id %d"
                  [ii_drawctxt_id param]) ;;;
      issueibcmds_done (- EINVAL) param
  | Some context =>
      if flag_set (ii_flags param) (KGSL_CONTEXT_SUBMIT_IB_LIST P) then
        emit (EvLog "Using IB list mode for ib submission, numibs: %d"
                    [ii_numibs param]) ;;;
        if ii_numibs param =? 0 then
          emit (EvLog "Invalid numibs as parameter: %d"
                      [ii_numibs param]) ;;;
          issueibcmds_done (- EINVAL) param
        else
          let bytes := u32 (sizeof_kgsl_ibdesc * ii_numibs param) in
          ok <- kzalloc ;;
          if negb ok then
            emit (EvLog "kzalloc(%d) failed" []) ;;;
            issueibcmds_done (- ENOMEM) param
          else if negb (bytes =? sizeof_kgsl_ibdesc * ii_numibs param) then
            issueibcmds_short_array dev_priv bytes param
          else
            fun w =>
              match read_ibdescs P (w_user w) (ii_ibdesc_addr param)
                                 (ii_numibs param) with
              | None =>
                  (emit (EvLog "copy_from_user failed" []) ;;;
                   issueibcmds_free_ibdesc (- EFAULT) param) w
              | Some ibdesc =>
                  issueibcmds_submit dev_priv context ibdesc param w
              end
      else
        emit (EvLog "Using single IB submission mode for ib submission"
                    []) ;;;
        (* If user space driver is still using the old mode of submitting
           single ib then we need to support that as well *)
        ok <- kzalloc ;;
        if negb ok then
          emit (EvLog "kzalloc(%d) failed" []) ;;;
          issueibcmds_done (- ENOMEM) param
        else
          let ibdesc := [mk_ibdesc (ii_ibdesc_addr param) (ii_numibs param)] in
          let param :=
            mk_issueibcmds (ii_drawctxt_id param) (ii_ibdesc_addr param) 1
                           (ii_timestamp param) (ii_flags param) in
          issueibcmds_submit dev_priv context ibdesc param
  end.

(* struct kgsl_cmdstream_freememontimestamp *)
Record kgsl_cmdstream_freememontimestamp := mk_freememontimestamp {
  fm_gpuaddr : Z;
  fm_type : kgsl_timestamp_type;
  fm_timestamp : Z
}.

Definition clear_cache_flags (e : kgsl_mem_entry) : kgsl_mem_entry :=
  let md := memdesc e in
  mk_mem_entry
    (mk_memdesc (md_pagetable md) (md_hostptr md) (md_gpuaddr md)
       (md_physaddr md) (md_size md)
       (Z.land (md_priv md)
               (Z.lxor UINT_MAX (KGSL_MEMFLAGS_CACHE_MASK P))))
    (file_ptr e) (free_timestamp e) (priv e).

(* kgsl_ioctl_cmdstream_freememontimestamp *)
Definition kgsl_ioctl_cmdstream_freememontimestamp (dev_priv : Z)
  (param : kgsl_cmdstream_freememontimestamp) : K P Z :=
  p <- get_proc ;;
  match kgsl_sharedmem_find p (fm_gpuaddr param) with
  | Some entry =>
      put_proc (set_mem_list (mem_list_del (fm_gpuaddr param) (mem_list p))
                             p) ;;;
      let entry :=
        if CONFIG_MSM_KGSL_MMU P
           && flag_set (md_priv (memdesc entry)) (KGSL_MEMFLAGS_VMALLOC_MEM P)
        then clear_cache_flags entry else entry in
      kgsl_memqueue_freememontimestamp entry (fm_timestamp param)
                                       (fm_type param) ;;;
      kgsl_memqueue_drain ;;;
      ret 0
  | None =>
      emit (EvLog "invalid gpuaddr %08x" [fm_gpuaddr param]) ;;;
      ret (- EINVAL)
  end.

(* struct kgsl_drawctxt_create *)
Record kgsl_drawctxt_create := mk_drawctxt_create {
  dc_flags : Z;
  dc_drawctxt_id : Z
}.

(* kgsl_ioctl_drawctxt_create *)
Definition kgsl_ioctl_drawctxt_create (dev_priv : Z)
  (param : kgsl_drawctxt_create) : K P (Z * kgsl_drawctxt_create) :=
  created <- kgsl_create_context dev_priv ;;
  match created with
  | None => ret (- ENOMEM, param)
  | Some context =>
      r <- call_drawctxt (DEVICE_DRAWCTXT_CREATE (dc_flags param) context)
             (ctx_id context)
             (fun h => device_drawctxt_create (ftbl P) h dev_priv
                                              (dc_flags param) context) ;;
      let (context, result) := r : kgsl_context * Z in
      let param := mk_drawctxt_create (dc_flags param) (ctx_id context) in
      (if negb (result =? 0)
       then kgsl_destroy_context dev_priv (Some context)
       else ret tt) ;;;
      ret (result, param)
  end.

(* struct kgsl_drawctxt_destroy *)
Record kgsl_drawctxt_destroy := mk_drawctxt_destroy {
  dd_drawctxt_id : Z
}.

(* kgsl_ioctl_drawctxt_destroy *)
Definition kgsl_ioctl_drawctxt_destroy (dev_priv : Z)
  (param : kgsl_drawctxt_destroy) : K P Z :=
  d <- get_dev ;;
  match kgsl_find_context d dev_priv (dd_drawctxt_id param) with
  | None => ret (- EINVAL)
  | Some context =>
      r <- call_drawctxt (DEVICE_DRAWCTXT_DESTROY context)
             (dd_drawctxt_id param)
             (fun h => device_drawctxt_destroy (ftbl P) h context) ;;
      kgsl_destroy_context dev_priv (Some (fst r)) ;;;
      ret (snd r)
  end.

(* struct kgsl_sharedmem_free *)
Record kgsl_sharedmem_free := mk_sharedmem_free {
  sf_gpuaddr : Z
}.

(* kgsl_ioctl_sharedmem_free *)
Definition kgsl_ioctl_sharedmem_free (dev_priv : Z)
  (param : kgsl_sharedmem_free) : K P Z :=
  private <- get_proc ;;
  match kgsl_sharedmem_find private (sf_gpuaddr param) with
  | Some entry =>
      put_proc (set_mem_list
                  (mem_list_del (sf_gpuaddr param) (mem_list private))
                  private) ;;;
      emit_all (kgsl_destroy_mem_entry entry) ;;;
      ret 0
  | None =>
      emit (EvLog "invalid gpuaddr %08x" [sf_gpuaddr param]) ;;;
      ret (- EINVAL)
  end.

End Model.

(** ** The request dispatcher *)

(* include/asm-generic/ioctl.h: a command is dir:2 size:14 type:8 nr:8 *)
Definition IOC_IN : Z := 1073741824.
Definition IOC_OUT : Z := 2147483648.
Definition _IOC_NR (cmd : Z) : Z := Z.land cmd 255.
Definition _IOC_SIZE (cmd : Z) : Z := Z.land (Z.shiftr cmd 16) 16383.

Arguments _IOC_NR cmd : simpl never.
Arguments _IOC_SIZE cmd : simpl never.

(* copy_to_user: the memory afterwards and the number of bytes that could
   not be copied *)
Fixpoint copy_to_user (m : umem) (addr : Z) (data : list Z) : umem * Z :=
  match data with
  | [] => (m, 0)
  | b :: rest =>
      match m addr with
      | None => (m, Z.of_nat (List.length data))
      | Some _ =>
          copy_to_user (fun a => if a =? addr then Some b else m a)
                       (addr + 1) rest
      end
  end.

Section Dispatch.

Context (P : platform).

(* kgsl_ioctl_func_t: a handler gets the kernel copy of the payload
   ([None] for a NULL uptr) and answers its result and the contents of
   that buffer when it returns *)
Definition kgsl_ioctl_func_t : Type :=
  Z -> Z -> option (list Z) -> K P (Z * list Z).

(* kgsl_ioctl_funcs as indexed by _IOC_NR: the handler and its lock flag,
   [None] past the end of the array and in its holes.  The command
   numbers and the layout of the payloads come from the user header, so
   the table is taken as laid out there. *)
Context (kgsl_ioctl_funcs : Z -> option (kgsl_ioctl_func_t * bool)).

Definition ftbl_device_ioctl : kgsl_ioctl_func_t :=
  fun dev_priv cmd data =>
    emit (EvFtbl (DEVICE_IOCTL cmd)) ;;;
    h <- get_hw ;;
    let '(h', data', r) := device_ioctl (ftbl P) h dev_priv cmd data in
    put_hw h' ;;;
    ret (r, match data' with Some b => b | None => [] end).

(* sizeof(ustack) *)
Definition USTACK_SIZE : Z := 64.

(* The label done: of kgsl_ioctl *)
Definition kgsl_ioctl_done (cmd ret_ : Z) : K P Z :=
  (if USTACK_SIZE <=? _IOC_SIZE cmd then emit EvKfreeUptr else ret tt) ;;;
  ret ret_.

(* kgsl_ioctl up to the choice of the handler: the kernel copy of the
   payload, or the error with which control goes to done: *)
Definition kgsl_ioctl_copy_in (cmd arg : Z)
  : K P (Z + option (list Z)) :=
  if negb (Z.land cmd (Z.lor IOC_IN IOC_OUT) =? 0) then
    ok <- (if _IOC_SIZE cmd <? USTACK_SIZE then ret true else kzalloc) ;;
    if negb ok then
      emit (EvLog "kzalloc(%d) failed" [_IOC_SIZE cmd]) ;;;
      ret (inl (- ENOMEM))
    else if negb (Z.land cmd IOC_IN =? 0) then
      fun w =>
        match copy_from_user (w_user w) arg (Z.to_nat (_IOC_SIZE cmd)) with
        | None => Ok (inl (- EFAULT)) w
        | Some buf => Ok (inr (Some buf)) w
        end
    else ret (inr (Some (repeat 0 (Z.to_nat (_IOC_SIZE cmd)))))
  else ret (inr None).

Definition kgsl_ioctl_select (nr : Z) : kgsl_ioctl_func_t * bool :=
  match kgsl_ioctl_funcs nr with
  | Some fl => fl
  | None => (ftbl_device_ioctl, true)
  end.

(* kgsl_ioctl from the return of the handler on *)
Definition kgsl_ioctl_finish (lock : bool) (cmd arg : Z) (ret_ : Z)
  (uptr : list Z) : K P Z :=
  (if lock then kgsl_check_idle_locked P ;;; mutex_unlock
   else ret tt) ;;;
  r <- (if (ret_ =? 0) && negb (Z.land cmd IOC_OUT =? 0) then
          emit (EvCopyToUser arg (_IOC_SIZE cmd)) ;;;
          fun w =>
            let (m, left) :=
              copy_to_user (w_user w) arg
                           (firstn (Z.to_nat (_IOC_SIZE cmd)) uptr) in
            (put_user m ;;;
             ret (if negb (left =? 0) then - EFAULT else ret_)) w
        else ret ret_) ;;
  kgsl_ioctl_done cmd r.

(* kgsl_ioctl *)
Definition kgsl_ioctl (dev_priv : Z) (cmd arg : Z) : K P Z :=
  let nr := _IOC_NR cmd in
  (* Workaround for an previously incorrectly defined ioctl code.  This
     helps ensure binary compatability *)
  let cmd :=
    if cmd =? IOCTL_KGSL_CMDSTREAM_FREEMEMONTIMESTAMP_OLD P
    then IOCTL_KGSL_CMDSTREAM_FREEMEMONTIMESTAMP P else cmd in
  copied <- kgsl_ioctl_copy_in cmd arg ;;
  match copied with
  | inl err => kgsl_ioctl_done cmd err
  | inr uptr =>
      let (func, lock) := kgsl_ioctl_select nr in
      (if lock then mutex_lock ;;; modify_dev (kgsl_check_suspended P)
       else ret tt) ;;;
      r <- func dev_priv cmd uptr ;;
      kgsl_ioctl_finish lock cmd arg (fst r) (snd r)
  end.

End Dispatch.

(** ** A reference platform and sample states

    A backend whose state is the pair of the retired and the consumed
    timestamp, with the flag values of the user header; it instantiates
    the general results below on concrete runs.  Its draw contexts get
    the payload 1, and creating one with the flags 99 fails. *)

Record sample_hw := mk_sample_hw {
  hw_retired : Z;
  hw_consumed : Z
}.

Definition sample_ftbl : kgsl_functable sample_hw :=
  mk_functable sample_hw
    (fun h _ => (h, 0))
    (fun h => (h, 0))
    (fun h _ => (mk_sample_hw (hw_consumed h) (hw_consumed h), 0))
    (fun h => (h, 0))
    (fun h => (h, 0))
    (fun h type =>
       match type with
       | KGSL_TIMESTAMP_RETIRED => hw_retired h
       | KGSL_TIMESTAMP_CONSUMED => hw_consumed h
       end)
    (fun h timestamp _ => (mk_sample_hw timestamp (hw_consumed h), 0))
    (fun h _ _ _ _ _ _ =>
       (mk_sample_hw (hw_retired h) (hw_consumed h + 1), 0,
        hw_consumed h + 1))
    (fun h _ flags c =>
       if flags =? 99
       then (h, mk_context (ctx_id c) (ctx_dev_priv c) 0, - ENOMEM)
       else (h, mk_context (ctx_id c) (ctx_dev_priv c) 1, 0))
    (fun h c => (h, mk_context (ctx_id c) (ctx_dev_priv c) 0, 0))
    (fun h _ _ data => (h, data, - EINVAL)).

(* The samples keep their timestamps far from the wrap of the counter,
   where the circular comparison is the plain order *)
Definition sample_timestamp_cmp (new old : Z) : bool :=
  old <=? new.

(* Descriptors stored as consecutive (gpuaddr, sizedwords) cells *)
Fixpoint sample_read_ibdescs_nat (m : umem) (addr : Z) (n : nat)
  : option (list kgsl_ibdesc) :=
  match n with
  | O => Some []
  | S n' =>
      match m addr, m (addr + 1),
            sample_read_ibdescs_nat m (addr + 2) n' with
      | Some g, Some s, Some rest => Some (mk_ibdesc g s :: rest)
      | _, _, _ => None
      end
  end.

Definition sample_platform : platform :=
  mk_platform sample_hw sample_ftbl sample_timestamp_cmp
    (fun d => d)
    (fun d => (d, 0))
    (fun d => set_active_cnt 0 d)
    (fun _ _ _ _ => true)
    (fun m addr n => sample_read_ibdescs_nat m addr (Z.to_nat n))
    8192 16384 251658240 1 4294967295
    1074530578 2148272402
    true false false.

(* The same platform with a backend that leaves a payload on the draw
   context it fails to create *)
Definition leaky_ftbl : kgsl_functable sample_hw :=
  mk_functable sample_hw
    (device_start sample_ftbl) (device_stop sample_ftbl)
    (device_idle sample_ftbl) (device_suspend_context sample_ftbl)
    (device_resume_context sample_ftbl)
    (device_cmdstream_readtimestamp sample_ftbl)
    (device_waittimestamp sample_ftbl) (device_issueibcmds sample_ftbl)
    (fun h _ flags c =>
       (h, mk_context (ctx_id c) (ctx_dev_priv c) 1,
        if flags =? 99 then - ENOMEM else 0))
    (device_drawctxt_destroy sample_ftbl) (device_ioctl sample_ftbl).

Definition leaky_platform : platform :=
  mk_platform sample_hw leaky_ftbl sample_timestamp_cmp
    (fun d => d)
    (fun d => (d, 0))
    (fun d => set_active_cnt 0 d)
    (fun _ _ _ _ => true)
    (fun m addr n => sample_read_ibdescs_nat m addr (Z.to_nat n))
    8192 16384 251658240 1 4294967295
    1074530578 2148272402
    true false false.

Definition sample_entry (gpuaddr size ts proc : Z) : kgsl_mem_entry :=
  mk_mem_entry (mk_memdesc 1 0 gpuaddr gpuaddr size 0) 0 ts proc.

Definition sample_device (q : list kgsl_mem_entry)
  (t : list (option kgsl_context)) : kgsl_device :=
  mk_device 0 KGSL_STATE_ACTIVE KGSL_STATE_NONE 0 0 false 0 q t true 0 0.

Definition sample_process (l : list kgsl_mem_entry)
  : kgsl_process_private :=
  mk_process 7 1 1 l.

Definition no_umem : umem := fun _ => None.

Definition sample_world (d : kgsl_device) (retired consumed : Z)
  (l : list kgsl_mem_entry) : world sample_platform :=
  mk_world d (mk_sample_hw retired consumed : hw sample_platform)
           (sample_process l) no_umem [] [].

(* A world whose user memory holds one descriptor at address 100, as
   sample_read_ibdescs_nat reads it: the buffer at 5000 of 16 words *)
Definition sample_list_world (d : kgsl_device) (l : list kgsl_mem_entry)
  : world sample_platform :=
  mk_world d (mk_sample_hw 0 0 : hw sample_platform) (sample_process l)
           (fun a => if a =? 100 then Some 5000
                     else if a =? 101 then Some 16 else None)
           [] [].

Definition leaky_world (d : kgsl_device) : world leaky_platform :=
  mk_world d (mk_sample_hw 0 0 : hw leaky_platform) (sample_process [])
           no_umem [] [].

(* A dispatch table with two handlers under the numbers 16 and 17: the
   first fails after filling the payload, the second succeeds *)
Definition sample_ioctl_funcs (nr : Z)
  : option (kgsl_ioctl_func_t sample_platform * bool) :=
  if nr =? 16 then Some (fun _ _ _ => ret (- EINVAL, [1; 2; 3; 4]), true)
  else if nr =? 17 then Some (fun _ _ _ => ret (0, [1; 2; 3; 4]), true)
  else None.

(* Four mapped bytes of user memory at address 100 *)
Definition sample_umem : umem :=
  fun a => if (100 <=? a) && (a <? 104) then Some 0 else None.

Definition sample_user_world : world sample_platform :=
  mk_world (set_mutex false (sample_device [] []))
           (mk_sample_hw 0 0 : hw sample_platform)
           (sample_process []) sample_umem [] [].

(** ** Reading a trace *)

Definition destroyed_entries (evs : list event) : list kgsl_mem_entry :=
  flat_map (fun ev => match ev with
                      | EvKfreeEntry e => [e]
                      | _ => []
                      end) evs.

(* The calls by which a region is destroyed: on the MMU, on the backing
   store, on the usage counters and on the allocator *)
Definition is_destroy_call (ev : event) : bool :=
  match ev with
  | EvMmuUnmap _ _ _ | EvVfree _ | EvPutAshmemFile _ | EvPutPmemFile _
  | EvStatSub _ _ | EvKfreeEntry _ => true
  | _ => false
  end.

Definition destroy_calls (evs : list event) : list event :=
  filter is_destroy_call evs.

Definition is_log (ev : event) : bool :=
  match ev with
  | EvLog _ _ => true
  | _ => false
  end.

Definition log_lines (evs : list event) : list event := filter is_log evs.

Definition ftbl_calls (evs : list event) : list ftbl_call :=
  flat_map (fun ev => match ev with
                      | EvFtbl c => [c]
                      | _ => []
                      end) evs.

Definition context_frees (evs : list event) : list kgsl_context :=
  flat_map (fun ev => match ev with
                      | EvKfreeContext c => [c]
                      | _ => []
                      end) evs.

(** Modelled from the spec: the wait of the backend.
    [device_waittimestamp] is an operation of the Device Operation Table,
    whose implementations are not in this file.  The specification has
    it block the calling thread until the timestamp is reached or the
    timeout it is handed, in milliseconds, has run out, whichever comes
    first.  [reached_after] is the time after which the timestamp is
    reached, when it ever is. *)
Definition wait_duration (reached_after : option Z) (msecs : Z) : Z :=
  match reached_after with
  | Some t => Z.min t msecs
  | None => msecs
  end.

(* The time the backend waits of a trace block for, [reached_after]
   telling for each timestamp when it is reached *)
Definition wait_time (reached_after : Z -> option Z) (c : ftbl_call) : Z :=
  match c with
  | DEVICE_WAITTIMESTAMP timestamp msecs =>
      wait_duration (reached_after timestamp) msecs
  | _ => 0
  end.

Definition blocked_for (reached_after : Z -> option Z) (evs : list event)
  : Z :=
  fold_right Z.add 0 (map (wait_time reached_after) (ftbl_calls evs)).

(* A trace made of pairs: the backend destroys the payload of a context,
   then the context, its payload gone, is freed *)
Inductive payload_then_entry : list event -> Prop :=
| pte_nil : payload_then_entry []
| pte_pair (c c' : kgsl_context) (rest : list event) :
    devctxt c' = 0 ->
    payload_then_entry rest ->
    payload_then_entry
      (EvFtbl (DEVICE_DRAWCTXT_DESTROY c) :: EvKfreeContext c' :: rest).

(** The reading of the specification: the byte extent
    [[address, address + length)] lies within the mapped range of the
    entry. *)
Definition spec_range_contains (entry : kgsl_mem_entry)
  (address length : Z) : Prop :=
  md_gpuaddr (memdesc entry) <= address /\
  address + length
  <= md_gpuaddr (memdesc entry) + md_size (memdesc entry).

(** ** The vocabulary of the statements *)

Section Vocabulary.

Context (P : platform).

Definition gpuaddr_of (entry : kgsl_mem_entry) : Z :=
  md_gpuaddr (memdesc entry).

(** The reading of the specification: a region is destroyed by unmapping
    its device address range, releasing its backing-store resource and
    decrementing the usage accounting; its record is freed last.  The
    backing store is released by its kind: memory from vmalloc is freed,
    a file is put back as an ashmem or as a pmem file, and a region
    without a file holds nothing to put back. *)
Definition backing_store_release (entry : kgsl_mem_entry) : list event :=
  if flag_set (md_priv (memdesc entry)) (KGSL_MEMFLAGS_VMALLOC_MEM P)
  then [EvVfree (md_physaddr (memdesc entry))]
  else if file_ptr entry =? 0 then []
  else if flag_set (md_priv (memdesc entry)) (KGSL_MEMFLAGS_HOSTADDR P)
  then [EvPutAshmemFile (file_ptr entry)]
  else [EvPutPmemFile (file_ptr entry)].

Definition accounting_decrement (entry : kgsl_mem_entry) : list event :=
  if flag_set (md_priv (memdesc entry)) (KGSL_MEMFLAGS_VMALLOC_MEM P)
  then [EvStatSub (PROC_VMALLOC (priv entry)) (md_size (memdesc entry));
        EvStatSub DRIVER_VMALLOC (md_size (memdesc entry))]
  else [EvStatSub (PROC_EXMEM (priv entry)) (md_size (memdesc entry))].

Definition region_destroyed (entry : kgsl_mem_entry) : list event :=
  EvMmuUnmap (md_pagetable (memdesc entry))
             (Z.land (md_gpuaddr (memdesc entry)) PAGE_MASK)
             (md_size (memdesc entry))
  :: backing_store_release entry ++ accounting_decrement entry
  ++ [EvKfreeEntry entry].

(* The regions [l] are destroyed in the trace [evs], each once and in the
   order of [l], and no call of the trace destroys anything else *)
Definition regions_destroyed (evs : list event) (l : list kgsl_mem_entry)
  : Prop :=
  destroy_calls evs = flat_map region_destroyed l.

(* The world after a successful free-memory request *)
Definition world_after_free (w : world P) (gpuaddr : Z)
  (entry : kgsl_mem_entry) : world P :=
  mk_world (w_dev w) (w_hw w)
    (set_mem_list (mem_list_del gpuaddr (mem_list (w_proc w))) (w_proc w))
    (w_user w) (w_kzalloc w)
    (w_trace w ++ kgsl_destroy_mem_entry P entry).

(* The world after a rejected one: only the log line is added *)
Definition world_after_bad_free (w : world P) (gpuaddr : Z) : world P :=
  mk_world (w_dev w) (w_hw w) (w_proc w) (w_user w) (w_kzalloc w)
    (w_trace w ++ [EvLog "invalid gpuaddr %08x" [gpuaddr]]).

Definition reached (ts : Z) (entry : kgsl_mem_entry) : Prop :=
  timestamp_cmp P ts (free_timestamp entry) = true.

(* The device as the switch of kgsl_suspend finds it: flagged for
   suspend and, when operations were outstanding, as it is after the wait
   on the suspend gate. *)
Definition device_at_switch (d : kgsl_device) : kgsl_device :=
  let d1 :=
    set_requested_state KGSL_STATE_SUSPEND
      (set_nap_allowed false (set_mutex true d)) in
  if negb (active_cnt d =? 0) then
    let d2 := set_mutex false d1 in
    set_mutex true
      (if 0 <? suspend_gate d2
       then set_suspend_gate (suspend_gate d2 - 1) d2
       else suspend_gate_wakeup P d2)
  else d1.

(* The timeout handed to the backend *)
Definition clamped_timeout (timeout : Z) : Z :=
  if timeout =? UINT_MAX then 10 * MSEC_PER_SEC else timeout.

(* The world in which the drain of the handler runs: the counter raised,
   the backend after the wait *)
Definition world_after_wait (w : world P)
  (param : kgsl_device_waittimestamp) : world P :=
  let timeout := clamped_timeout (wt_timeout param) in
  mk_world
    (set_active_cnt (u32 (active_cnt (w_dev w) + 1)) (w_dev w))
    (fst (device_waittimestamp (ftbl P) (w_hw w) (wt_timestamp param)
                               timeout))
    (w_proc w) (w_user w) (w_kzalloc w)
    (w_trace w
       ++ [EvFtbl (DEVICE_WAITTIMESTAMP (wt_timestamp param) timeout)]).

Definition is_copy_to_user (ev : event) : bool :=
  match ev with
  | EvCopyToUser _ _ => true
  | _ => false
  end.

(* The command as dispatched: the legacy code is remapped *)
Definition dispatched_cmd (cmd : Z) : Z :=
  if cmd =? IOCTL_KGSL_CMDSTREAM_FREEMEMONTIMESTAMP_OLD P
  then IOCTL_KGSL_CMDSTREAM_FREEMEMONTIMESTAMP P else cmd.

(* The world in which the handler runs *)
Definition world_for_handler (lock : bool) (w : world P) : world P :=
  if lock then
    mk_world (kgsl_check_suspended P (set_mutex true (w_dev w)))
             (w_hw w) (w_proc w) (w_user w) (w_kzalloc w) (w_trace w)
  else w.

Definition owned_by (dev_priv : Z) (slot : option kgsl_context) : bool :=
  match slot with
  | Some c => ctx_dev_priv c =? dev_priv
  | None => false
  end.

(* The table once the contexts of a handle are gone *)
Definition release_table (dev_priv : Z) (t : list (option kgsl_context))
  : list (option kgsl_context) :=
  map (fun slot => if owned_by dev_priv slot then None else slot) t.

(* Every context is stored under its own id. *)
Definition idr_wf (t : list (option kgsl_context)) : Prop :=
  forall j c, nth_error t j = Some (Some c) -> ctx_id c = Z.of_nat j.

(* The contract of the backend: destroying a draw context releases its
   payload and leaves its id alone. *)
Definition drawctxt_destroy_frees : Prop :=
  forall h c,
    devctxt (snd (fst (device_drawctxt_destroy (ftbl P) h c))) = 0 /\
    ctx_id (snd (fst (device_drawctxt_destroy (ftbl P) h c))) = ctx_id c.

(* And a draw context that it failed to create has no payload. *)
Definition drawctxt_create_cleans_up : Prop :=
  forall h dev_priv flags c,
    snd (device_drawctxt_create (ftbl P) h dev_priv flags c) <> 0 ->
    devctxt (snd (fst (device_drawctxt_create (ftbl P) h dev_priv flags c)))
    = 0.

(* The backend state and the calls made while the slots [post] are
   visited *)
Fixpoint release_effects (dev_priv : Z) (h : hw P)
  (post : list (option kgsl_context)) : hw P * list event :=
  match post with
  | [] => (h, [])
  | None :: rest => release_effects dev_priv h rest
  | Some c :: rest =>
      if ctx_dev_priv c =? dev_priv then
        let r := device_drawctxt_destroy (ftbl P) h c in
        let (h', evs) := release_effects dev_priv (fst (fst r)) rest in
        (h', EvFtbl (DEVICE_DRAWCTXT_DESTROY c)
               :: EvKfreeContext (snd (fst r)) :: evs)
      else release_effects dev_priv h rest
  end.

End Vocabulary.

Section RequestVocabulary.

Context (P : platform).

(* The entry as kgsl_ioctl_cmdstream_freememontimestamp puts it on the
   queue *)
Definition entry_as_queued (entry : kgsl_mem_entry) (timestamp : Z)
  : kgsl_mem_entry :=
  set_free_timestamp timestamp
    (if CONFIG_MSM_KGSL_MMU P
        && flag_set (md_priv (memdesc entry)) (KGSL_MEMFLAGS_VMALLOC_MEM P)
     then clear_cache_flags P entry else entry).

(* No 32-bit sum of the registry wraps *)
Definition regions_fit (l : list kgsl_mem_entry) : Prop :=
  Forall (fun e => is_u32 (md_gpuaddr (memdesc e) + md_size (memdesc e))) l.

(* The descriptor array kgsl_ioctl_rb_issueibcmds puts together and the
   payload as it then stands.  In the list form the array is read from
   the caller: its size in bytes fits 32 bits and it holds the [numibs]
   descriptors that check_ibdesc walks.  In the single-buffer form it is
   made of the payload, whose count becomes 1. *)
Definition ibdesc_of_request (w : world P)
  (param : kgsl_ringbuffer_issueibcmds) (ibdesc : list kgsl_ibdesc)
  (param' : kgsl_ringbuffer_issueibcmds) : Prop :=
  if flag_set (ii_flags param) (KGSL_CONTEXT_SUBMIT_IB_LIST P)
  then 0 < ii_numibs param /\
       sizeof_kgsl_ibdesc * ii_numibs param <= UINT_MAX /\
       read_ibdescs P (w_user w) (ii_ibdesc_addr param) (ii_numibs param)
       = Some ibdesc /\
       Z.of_nat (List.length ibdesc) = ii_numibs param /\
       param' = param
  else ibdesc = [mk_ibdesc (ii_ibdesc_addr param) (ii_numibs param)] /\
       param' = mk_issueibcmds (ii_drawctxt_id param) (ii_ibdesc_addr param)
                               1 (ii_timestamp param) (ii_flags param).

(* A command buffer whose byte extent, computed without wrap-around, lies
   in no region of the process *)
Definition ib_outside (private : kgsl_process_private) (ib : kgsl_ibdesc)
  : Prop :=
  is_u32 (ib_sizedwords ib * 4) /\
  is_u32 (ib_gpuaddr ib + ib_sizedwords ib * 4) /\
  forall e, In e (mem_list private) ->
            ~ spec_range_contains e (ib_gpuaddr ib) (ib_sizedwords ib * 4).

(* A command buffer that both checks of check_ibdesc pass *)
Definition ib_accepted (private : kgsl_process_private) (dev_priv : Z)
  (ib : kgsl_ibdesc) : Prop :=
  exists entry,
    kgsl_sharedmem_find_region private (ib_gpuaddr ib)
                               (u32 (ib_sizedwords ib * 4)) = Some entry /\
    kgsl_cffdump_parse_ibs P dev_priv (memdesc entry) (ib_gpuaddr ib)
                           (ib_sizedwords ib) = true.

End RequestVocabulary.

(** ** Translating device addresses *)

Section Addresses.

Context (P : platform).

(* arch/arm/include/asm/memory.h: the kernel virtual address of a
   physical address *)
Variable __va : Z -> Z.

(* The pointer kgsl_gpuaddr_to_vaddr starts from: the address that backs
   the first byte of the region *)
Definition memdesc_ptr (memdesc : kgsl_memdesc) : Z :=
  if flag_set (md_priv memdesc) (KGSL_MEMFLAGS_VMALLOC_MEM P)
     && (negb (md_physaddr memdesc =? 0) || (md_hostptr memdesc =? 0))
  then md_physaddr memdesc
  else if md_hostptr memdesc =? 0 then __va (md_physaddr memdesc)
  else md_hostptr memdesc.

(* kgsl_gpuaddr_to_vaddr: the pointer returned and the value stored in
   [*size]; the difference of the two addresses is unsigned *)
Definition kgsl_gpuaddr_to_vaddr (memdesc : kgsl_memdesc) (gpuaddr : Z)
  : Z * Z :=
  let ptr := memdesc_ptr memdesc in
  let ptr :=
    if md_size memdesc <=? u32 (gpuaddr - md_gpuaddr memdesc) then 0
    else ptr in
  let size :=
    if negb (ptr =? 0)
    then u32 (md_size memdesc - u32 (gpuaddr - md_gpuaddr memdesc))
    else 0 in
  (if negb (ptr =? 0) then u32 (ptr + u32 (gpuaddr - md_gpuaddr memdesc))
   else 0,
   size).

End Addresses.

(** ** The device table of the driver *)

(* include/asm-generic/errno-base.h *)
Definition ENODEV : Z := 19.

(* include/linux/err.h: the top 4095 values of a pointer carry an errno *)
Definition MAX_ERRNO : Z := 4095.
Definition IS_ERR (ptr : Z) : bool := 4294967296 - MAX_ERRNO <=? ptr.
Definition PTR_ERR (ptr : Z) : Z := ptr - 4294967296.

(* include/linux/kdev_t.h: MINORBITS is 20 *)
Definition MAJOR (dev : Z) : Z := Z.shiftr dev 20.
Definition MKDEV (ma mi : Z) : Z := Z.lor (Z.shiftl ma 20) mi.

(* The calls of the registration functions that leave the file *)
Inductive registry_call :=
| RegLog (fmt : string) (args : list Z)
| RegDeviceCreate (dev device : Z)
| RegDeviceDestroy (dev : Z)
| RegDebugfsCreateDir (device : Z)
| RegDeviceLogInit (device : Z)
| RegPwrctrlInitSysfs (device : Z)
| RegPwrctrlUninitSysfs (device : Z).

(* struct kgsl_driver and the static kgsl_debugfs_dir, as the registration
   functions use them.  [devp] is the array of KGSL_DEVICE_MAX device
   pointers, 0 for NULL; [heap] gives the device a pointer refers to and
   [dev_of] the field dev of that device, a struct device pointer or an
   ERR_PTR; [devlock] is the state of the mutex of that name. *)
Record kgsl_driver_t := mk_driver {
  devp : list Z;
  major : Z;
  kgsl_debugfs_dir : Z;
  devlock : bool;
  heap : Z -> kgsl_device;
  dev_of : Z -> Z;
  reg_trace : list registry_call
}.

Definition set_devp (l : list Z) (drv : kgsl_driver_t) : kgsl_driver_t :=
  mk_driver l (major drv) (kgsl_debugfs_dir drv) (devlock drv) (heap drv)
            (dev_of drv) (reg_trace drv).

Definition set_devlock (b : bool) (drv : kgsl_driver_t) : kgsl_driver_t :=
  mk_driver (devp drv) (major drv) (kgsl_debugfs_dir drv) b (heap drv)
            (dev_of drv) (reg_trace drv).

Definition set_heap (device : Z) (d : kgsl_device) (drv : kgsl_driver_t)
  : kgsl_driver_t :=
  mk_driver (devp drv) (major drv) (kgsl_debugfs_dir drv) (devlock drv)
            (fun p => if p =? device then d else heap drv p)
            (dev_of drv) (reg_trace drv).

(* device->dev = dev *)
Definition set_dev_of (device dev : Z) (drv : kgsl_driver_t)
  : kgsl_driver_t :=
  mk_driver (devp drv) (major drv) (kgsl_debugfs_dir drv) (devlock drv)
            (heap drv)
            (fun p => if p =? device then dev else dev_of drv p)
            (reg_trace drv).

Definition reg_emit (c : registry_call) (drv : kgsl_driver_t)
  : kgsl_driver_t :=
  mk_driver (devp drv) (major drv) (kgsl_debugfs_dir drv) (devlock drv)
            (heap drv) (dev_of drv) (reg_trace drv ++ [c]).

(* The number of slots of the array *)
Definition KGSL_DEVICE_MAX (drv : kgsl_driver_t) : Z :=
  Z.of_nat (List.length (devp drv)).

(* devp[minor] = device *)
Fixpoint devp_store (l : list Z) (minor : nat) (device : Z) : list Z :=
  match l, minor with
  | [], _ => []
  | _ :: rest, O => device :: rest
  | slot :: rest, S m => slot :: devp_store rest m device
  end.

(* The loop of kgsl_get_device from the slot [l] starts at *)
Fixpoint get_device_loop (heap : Z -> kgsl_device) (dev_idx : Z)
  (l : list Z) : Z :=
  match l with
  | [] => 0
  | slot :: rest =>
      if negb (slot =? 0) && (dev_id (heap slot) =? dev_idx) then slot
      else get_device_loop heap dev_idx rest
  end.

(* kgsl_get_device *)
Definition kgsl_get_device (dev_idx : Z) (drv : kgsl_driver_t)
  : Z * kgsl_driver_t :=
  let drv := set_devlock true drv in
  let ret_ := get_device_loop (heap drv) dev_idx (devp drv) in
  (ret_, set_devlock false drv).

(* kgsl_get_minor *)
Definition kgsl_get_minor (minor : Z) (drv : kgsl_driver_t)
  : Z * kgsl_driver_t :=
  if (minor <? 0) || (KGSL_DEVICE_MAX drv <=? minor) then (0, drv)
  else
    let drv := set_devlock true drv in
    let ret_ := nth (Z.to_nat minor) (devp drv) 0 in
    (ret_, set_devlock false drv).

(* The loops of kgsl_register_device and kgsl_unregister_device: the value
   of [minor] when the loop over the slots from [minor] on is left,
   KGSL_DEVICE_MAX when it runs to the end.  The first looks for an empty
   slot, the second for the slot of the device. *)
Fixpoint find_slot (wanted : Z) (l : list Z) (minor : Z) : Z :=
  match l with
  | [] => minor
  | slot :: rest =>
      if slot =? wanted then minor else find_slot wanted rest (minor + 1)
  end.

Section Registration.

(* drivers/base/core.c: the struct device device_create answers for a
   device number and a kgsl device, or an ERR_PTR *)
Variable device_create : Z -> Z -> Z.

(* kgsl_register_device.  What device_create answers is stored in the
   field dev of the device before it is tested.  The directory that
   debugfs_create_dir answers goes to the field d_debugfs, which the file
   reads nowhere: the call is recorded. *)
Definition kgsl_register_device (device : Z) (drv : kgsl_driver_t)
  : Z * kgsl_driver_t :=
  (* Find a minor for the device *)
  let drv := set_devlock true drv in
  let minor := find_slot 0 (devp drv) 0 in
  let drv :=
    if minor <? KGSL_DEVICE_MAX drv
    then set_devp (devp_store (devp drv) (Z.to_nat minor) device) drv
    else drv in
  let drv := set_devlock false drv in
  if minor =? KGSL_DEVICE_MAX drv then
    (- ENODEV, reg_emit (RegLog "minor devices exhausted" []) drv)
  else
    (* Create the device *)
    let dev := MKDEV (MAJOR (major drv)) minor in
    let drv := reg_emit (RegDeviceCreate dev device) drv in
    let created := device_create dev device in
    let drv := set_dev_of device created drv in
    if IS_ERR created then
      let ret_ := PTR_ERR created in
      let drv := reg_emit (RegLog "device_create(%s): %d" [ret_]) drv in
      let drv := set_devlock true drv in
      let drv := set_devp (devp_store (devp drv) (Z.to_nat minor) 0) drv in
      (ret_, set_devlock false drv)
    else
      (* Generic device initialization *)
      let drv := set_heap device (set_open_count (-1) (heap drv device))
                          drv in
      let drv :=
        if negb (kgsl_debugfs_dir drv =? 0)
           && negb (IS_ERR (kgsl_debugfs_dir drv))
        then reg_emit (RegDebugfsCreateDir device) drv else drv in
      let drv := reg_emit (RegDeviceLogInit device) drv in
      let drv := reg_emit (RegPwrctrlInitSysfs device) drv in
      (0, drv).

End Registration.

(* kgsl_unregister_device *)
Definition kgsl_unregister_device (device : Z) (drv : kgsl_driver_t)
  : kgsl_driver_t :=
  let drv := set_devlock true drv in
  let minor := find_slot device (devp drv) 0 in
  let drv := set_devlock false drv in
  if minor =? KGSL_DEVICE_MAX drv then drv
  else
    let drv := reg_emit (RegPwrctrlUninitSysfs device) drv in
    let drv :=
      reg_emit (RegDeviceDestroy (MKDEV (MAJOR (major drv)) minor)) drv in
    let drv := set_devlock true drv in
    let drv := set_devp (devp_store (devp drv) (Z.to_nat minor) 0) drv in
    set_devlock false drv.

(* A driver with two slots, both empty, and two devices at the addresses
   100 and 200 *)
Definition sample_driver : kgsl_driver_t :=
  mk_driver [0; 0] 1048576 0 false
            (fun p => mk_device (if p =? 100 then 0 else 1) KGSL_STATE_INIT
                                KGSL_STATE_NONE 0 0 false 0 [] [] false 0 0)
            (fun _ => 0) [].

Definition sample_device_create (dev device : Z) : Z :=
  if device =? 300 then 4294967296 - ENOMEM else 5000 + device.

(** ** Page tables and the registered devices *)

Inductive pt_call :=
| SetupPt (device pt : Z)
| CleanupPt (device pt : Z).

Section Pagetables.

(* The state of the MMU code and the two operations of device->ftbl that
   kgsl_setup_pt and kgsl_cleanup_pt call, for the device at a pointer *)
Variable mmu : Type.
Variable device_setup_pt : Z -> Z -> mmu -> mmu * Z.
Variable device_cleanup_pt : Z -> Z -> mmu -> mmu * Z.

(* A loop that calls device_cleanup_pt for the devices of the slots
   [slots], in that order: the loop of kgsl_cleanup_pt, and the label
   error_pt: of kgsl_setup_pt *)
Fixpoint cleanup_pt_loop (pt : Z) (slots : list Z) (m : mmu)
  : mmu * list pt_call :=
  match slots with
  | [] => (m, [])
  | device :: rest =>
      if negb (device =? 0) then
        let (m, calls) :=
          cleanup_pt_loop pt rest (fst (device_cleanup_pt device pt m)) in
        (m, CleanupPt device pt :: calls)
      else cleanup_pt_loop pt rest m
  end.

(* The for loop of kgsl_setup_pt at the slot devp[i], the head of
   [slots]; [visited] holds devp[i-1], ..., devp[0] *)
Fixpoint setup_pt_loop (pt status : Z) (visited slots : list Z) (m : mmu)
  : Z * mmu * list pt_call :=
  match slots with
  | [] => (status, m, [])
  | device :: rest =>
      if negb (device =? 0) then
        let (m, status) := device_setup_pt device pt m in
        if negb (status =? 0) then
          (* error_pt: *)
          let (m, calls) := cleanup_pt_loop pt (device :: visited) m in
          (status, m, SetupPt device pt :: calls)
        else
          let '(status, m, calls) :=
            setup_pt_loop pt status (device :: visited) rest m in
          (status, m, SetupPt device pt :: calls)
      else setup_pt_loop pt status (device :: visited) rest m
  end.

(* kgsl_setup_pt *)
Definition kgsl_setup_pt (pt : Z) (devp : list Z) (m : mmu)
  : Z * mmu * list pt_call :=
  setup_pt_loop pt 0 [] devp m.

(* kgsl_cleanup_pt *)
Definition kgsl_cleanup_pt (pt : Z) (devp : list Z) (m : mmu)
  : Z * mmu * list pt_call :=
  let (m, calls) := cleanup_pt_loop pt devp m in
  (0, m, calls).

End Pagetables.

(* The registered devices among the slots *)
Definition registered (slots : list Z) : list Z :=
  filter (fun device => negb (device =? 0)) slots.

(* A backend that counts the page tables set up and refuses the device
   at 300 *)
Definition sample_setup_pt (device pt : Z) (m : Z) : Z * Z :=
  if device =? 300 then (m, - ENOMEM) else (m + 1, 0).

Definition sample_cleanup_pt (device pt : Z) (m : Z) : Z * Z :=
  (m - 1, 0).

(** ** Resume *)

Section Resume.

Context (P : platform).

(* complete_all(&device->hwaccess_gate): kernel/sched.c adds UINT_MAX/2
   to the count of the completion, which lets every waiter through *)
Definition complete_all_hwaccess_gate (d : kgsl_device) : kgsl_device :=
  set_hwaccess_gate (u32 (hwaccess_gate d + UINT_MAX / 2)) d.

(* The body of the loop of kgsl_resume for one registered device and the
   value [status] has when the body is entered: [inl r] when the function
   returns [r] from inside the loop, [inr status] when the loop goes on *)
Definition kgsl_resume_device (status : Z) : K P (Z + Z) :=
  emit (EvLog "resume start" []) ;;;
  mutex_lock ;;;
  d <- get_dev ;;
  r <-
    (if kgsl_state_eqb (state d) KGSL_STATE_SUSPEND then
       modify_dev (set_requested_state KGSL_STATE_ACTIVE) ;;;
       status <- call_ftbl (DEVICE_START 0)
                   (fun h => device_start (ftbl P) h 0) ;;
       if status =? 0 then
         modify_dev (set_state KGSL_STATE_ACTIVE) ;;;
         emit (EvLog "state -> ACTIVE, device %d" [dev_id d]) ;;;
         status <- call_ftbl DEVICE_RESUME_CONTEXT
                     (device_resume_context (ftbl P)) ;;
         modify_dev complete_all_hwaccess_gate ;;;
         ret (inr status)
       else
         emit (EvLog "resume failed, device %d" [dev_id d]) ;;;
         modify_dev (set_state KGSL_STATE_INIT) ;;;
         mutex_unlock ;;;
         ret (inl status)
     else ret (inr status)) ;;
  match r : Z + Z with
  | inl status => ret (inl status)
  | inr status =>
      modify_dev (set_requested_state KGSL_STATE_NONE) ;;;
      mutex_unlock ;;;
      emit (EvLog "resume end" []) ;;;
      ret (inr status)
  end.

(* The loop of kgsl_resume over kgsl_driver.devp, one world per
   registered device *)
Fixpoint kgsl_resume_loop (status : Z) (devp : list (option (world P)))
  : outcome (list (option (world P))) Z :=
  match devp with
  | [] => Ok status []
  | None :: rest =>
      match kgsl_resume_loop status rest with
      | Ok r rest' => Ok r (None :: rest')
      | Bug rest' => Bug (None :: rest')
      end
  | Some w :: rest =>
      match kgsl_resume_device status w with
      | Ok (inl r) w' => Ok r (Some w' :: rest)
      | Ok (inr status) w' =>
          match kgsl_resume_loop status rest with
          | Ok r rest' => Ok r (Some w' :: rest')
          | Bug rest' => Bug (Some w' :: rest')
          end
      | Bug w' => Bug (Some w' :: rest)
      end
  end.

(* kgsl_resume *)
Definition kgsl_resume (devp : list (option (world P)))
  : outcome (list (option (world P))) Z :=
  kgsl_resume_loop (- EINVAL) devp.

(* A device as kgsl_resume leaves it when it was not suspended *)
Definition passed_over (w : world P) : world P :=
  mk_world
    (set_mutex false (set_requested_state KGSL_STATE_NONE (w_dev w)))
    (w_hw w) (w_proc w) (w_user w) (w_kzalloc w)
    (w_trace w ++ [EvLog "resume start" []; EvLog "resume end" []]).

End Resume.

(** ** Flushing a region from the CPU cache *)

Section FlushCache.

Context (P : platform).

Variable __va : Z -> Z.

(* kgsl_sharedmem.h *)
Variable KGSL_MEMFLAGS_CACHE_CLEAN : Z.

(* What kgsl_ioctl_sharedmem_flush_cache uses besides the world of the
   other handlers: whether the MMU of the device is enabled
   (kgsl_mmu_isenabled), the spin lock mem_lock of the process and its
   counter stats.flushes, an unsigned int *)
Record flush_world := mk_flush_world {
  fw_world : world P;
  fw_mmu_enabled : bool;
  fw_mem_lock : bool;
  fw_flushes : Z
}.

Definition set_fw_world (w : world P) (s : flush_world) : flush_world :=
  mk_flush_world w (fw_mmu_enabled s) (fw_mem_lock s) (fw_flushes s).

Definition set_fw_mem_lock (b : bool) (s : flush_world) : flush_world :=
  mk_flush_world (fw_world s) (fw_mmu_enabled s) b (fw_flushes s).

Definition set_fw_flushes (n : Z) (s : flush_world) : flush_world :=
  mk_flush_world (fw_world s) (fw_mmu_enabled s) (fw_mem_lock s) n.

Definition fw_emit (e : event) (s : flush_world) : flush_world :=
  let w := fw_world s in
  set_fw_world (mk_world (w_dev w) (w_hw w) (w_proc w) (w_user w)
                         (w_kzalloc w) (w_trace w ++ [e])) s.

(* A store through the pointer kgsl_sharedmem_find returned: the first
   node with that address changes in the list *)
Fixpoint mem_list_update (gpuaddr : Z) (entry' : kgsl_mem_entry)
  (l : list kgsl_mem_entry) : list kgsl_mem_entry :=
  match l with
  | [] => []
  | entry :: rest =>
      if md_gpuaddr (memdesc entry) =? gpuaddr then entry' :: rest
      else entry :: mem_list_update gpuaddr entry' rest
  end.

Definition fw_store_entry (gpuaddr : Z) (entry' : kgsl_mem_entry)
  (s : flush_world) : flush_world :=
  let w := fw_world s in
  set_fw_world
    (mk_world (w_dev w) (w_hw w)
       (set_mem_list (mem_list_update gpuaddr entry' (mem_list (w_proc w)))
                     (w_proc w))
       (w_user w) (w_kzalloc w) (w_trace w)) s.

(* entry->memdesc.hostptr = kgsl_gpuaddr_to_vaddr(&entry->memdesc,
   gpuaddr, &entry->memdesc.size): the size of the region is the cell
   that [size] points to *)
Definition resolve_hostptr (gpuaddr : Z) (entry : kgsl_mem_entry)
  : kgsl_mem_entry :=
  let md := memdesc entry in
  let (ptr, size) := kgsl_gpuaddr_to_vaddr P __va md gpuaddr in
  mk_mem_entry
    (mk_memdesc (md_pagetable md) ptr (md_gpuaddr md) (md_physaddr md) size
                (md_priv md))
    (file_ptr entry) (free_timestamp entry) (priv entry).

(* kgsl_ioctl_sharedmem_flush_cache *)
Definition kgsl_ioctl_sharedmem_flush_cache (dev_priv : Z)
  (param : kgsl_sharedmem_free) (s : flush_world) : Z * flush_world :=
  if negb (fw_mmu_enabled s) then (- ENODEV, s)
  else
    let s := set_fw_mem_lock true s in
    match kgsl_sharedmem_find (w_proc (fw_world s)) (sf_gpuaddr param) with
    | None =>
        let s := fw_emit (EvLog "invalid gpuaddr %08x" [sf_gpuaddr param]) s in
        (- EINVAL, set_fw_mem_lock false s)
    | Some entry =>
        let entry :=
          if md_hostptr (memdesc entry) =? 0
          then resolve_hostptr (sf_gpuaddr param) entry else entry in
        let s := fw_store_entry (sf_gpuaddr param) entry s in
        if md_hostptr (memdesc entry) =? 0 then
          (* goto done *)
          (0, fw_emit (EvLog "invalid hostptr with gpuaddr %08x"
                             [sf_gpuaddr param]) s)
        else
          let s :=
            fw_emit (EvCacheRangeOp (md_hostptr (memdesc entry))
                       (md_size (memdesc entry))
                       (Z.lor KGSL_MEMFLAGS_CACHE_CLEAN
                              (KGSL_MEMFLAGS_HOSTADDR P))) s in
          (* Mark memory as being flushed so we don't flush it again *)
          let s := fw_store_entry (sf_gpuaddr param)
                                  (clear_cache_flags P entry) s in
          let s := set_fw_flushes (u32 (fw_flushes s + 1)) s in
          (0, set_fw_mem_lock false s)
    end.

End FlushCache.

(** ** Mapping the memstore *)

(* include/asm-generic/errno-base.h *)
Definition EPERM : Z := 1.

(* arch/arm/include/asm/page.h, include/linux/mm.h *)
Definition PAGE_SHIFT : Z := 12.
Definition VM_WRITE : Z := 2.

(* struct vm_area_struct, the fields kgsl_mmap uses *)
Record vm_area_struct := mk_vma {
  vm_start : Z;
  vm_end : Z;
  vm_pgoff : Z;
  vm_flags : Z;
  vm_page_prot : Z
}.

Inductive mmap_call :=
| MmapLog (fmt : string) (args : list Z)
| RemapPfnRange (vma : vm_area_struct) (addr pfn size prot : Z).

Section Mmap.

(* arch/arm/include/asm/pgtable.h and mm/memory.c *)
Variable pgprot_noncached : Z -> Z.
Variable remap_pfn_range : vm_area_struct -> Z -> Z -> Z -> Z -> Z.

(* kgsl_mmap on a registered device [d] whose memstore is [memstore]:
   the result, the area and the device as the function leaves them, and
   the calls made.  Sizes and offsets are unsigned long. *)
Definition kgsl_mmap (memstore : kgsl_memdesc) (d : kgsl_device)
  (vma : vm_area_struct)
  : Z * vm_area_struct * kgsl_device * list mmap_call :=
  let vma_size := u32 (vm_end vma - vm_start vma) in
  let vma_offset := u32 (Z.shiftl (vm_pgoff vma) PAGE_SHIFT) in
  let d := set_mutex true d in
  let '(result, vma, calls) :=
    (*allow device memstore to be mapped read only *)
    if vma_offset =? md_physaddr memstore then
      if negb (Z.land (vm_flags vma) VM_WRITE =? 0) then (- EPERM, vma, [])
      else if negb (md_size memstore =? vma_size) then
        (- EINVAL, vma,
         [MmapLog "file %p bad size %ld, should be %d"
                  [vma_size; md_size memstore]])
      else
        let vma :=
          mk_vma (vm_start vma) (vm_end vma) (vm_pgoff vma) (vm_flags vma)
                 (pgprot_noncached (vm_page_prot vma)) in
        let result :=
          remap_pfn_range vma (vm_start vma) (vm_pgoff vma) vma_size
                          (vm_page_prot vma) in
        let call :=
          RemapPfnRange vma (vm_start vma) (vm_pgoff vma) vma_size
                        (vm_page_prot vma) in
        if negb (result =? 0)
        then (result, vma,
              [call; MmapLog "remap_pfn_range returned %d" [result]])
        else (result, vma, [call])
    else (- EINVAL, vma, []) in
  (* done: *)
  (result, vma, set_mutex false d, calls).

End Mmap.

(* A region backed by the kernel pointer 3221225472 + gpuaddr *)
Definition sample_memdesc (gpuaddr size : Z) : kgsl_memdesc :=
  mk_memdesc 1 (3221225472 + gpuaddr) gpuaddr 0 size 0.

(* The kernel mapping of the samples *)
Definition sample_va (physaddr : Z) : Z := 3221225472 + physaddr.

(* A process with the MMU of its device enabled and [mem_lock] free *)
Definition sample_flush_world (l : list kgsl_mem_entry)
  : flush_world sample_platform :=
  mk_flush_world sample_platform
    (sample_world (sample_device [] []) 0 0 l) true false 0.

(** * Properties *)

(* Evaluate the left-hand side of an equation on closed terms *)
Ltac vm_lhs :=
  match goal with
  | |- ?l = _ =>
      let r := fresh "r" in
      let E := fresh "E" in
      remember l as r eqn:E; vm_compute in E; subst r
  end.

(** ** The region registry *)

Section RegistryFacts.

Lemma u32_id (z : Z) : is_u32 z -> u32 z = z.
Proof.
  unfold is_u32, u32, UINT_MAX. intros H. apply Z.mod_small. lia.
Qed.

(* Without wrap-around the test of the lookup is the containment of the
   specification. *)
Lemma region_test_no_wrap (entry : kgsl_mem_entry) (gpuaddr size : Z) :
  is_u32 (gpuaddr + size) ->
  is_u32 (md_gpuaddr (memdesc entry) + md_size (memdesc entry)) ->
  region_test gpuaddr size entry = true <->
  spec_range_contains entry gpuaddr size.
Proof.
  intros Ha He. unfold region_test, spec_range_contains.
  rewrite (u32_id _ Ha), (u32_id _ He).
  rewrite andb_true_iff, !Z.leb_le. tauto.
Qed.

Lemma find_region_found_no_wrap (private : kgsl_process_private)
  (gpuaddr size : Z) (entry : kgsl_mem_entry) :
  is_u32 (gpuaddr + size) ->
  Forall (fun e => is_u32 (md_gpuaddr (memdesc e) + md_size (memdesc e)))
         (mem_list private) ->
  kgsl_sharedmem_find_region private gpuaddr size = Some entry ->
  In entry (mem_list private) /\ spec_range_contains entry gpuaddr size.
Proof.
  intros Ha Hl Hf. unfold kgsl_sharedmem_find_region in Hf.
  apply find_some in Hf. destruct Hf as [Hin Ht]. split; [exact Hin|].
  rewrite Forall_forall in Hl.
  apply (region_test_no_wrap entry gpuaddr size Ha (Hl _ Hin)). exact Ht.
Qed.

Lemma find_region_none_no_wrap (private : kgsl_process_private)
  (gpuaddr size : Z) :
  is_u32 (gpuaddr + size) ->
  Forall (fun e => is_u32 (md_gpuaddr (memdesc e) + md_size (memdesc e)))
         (mem_list private) ->
  kgsl_sharedmem_find_region private gpuaddr size = None <->
  (forall entry, In entry (mem_list private) ->
                 ~ spec_range_contains entry gpuaddr size).
Proof.
  intros Ha Hl. rewrite Forall_forall in Hl.
  unfold kgsl_sharedmem_find_region. split.
  - intros Hn entry Hin Hc.
    pose proof (find_none _ _ Hn entry Hin) as Hf.
    apply (region_test_no_wrap entry gpuaddr size Ha (Hl _ Hin)) in Hc.
    congruence.
  - intros Hall.
    destruct (find (region_test gpuaddr size) (mem_list private)) eqn:E;
      [|reflexivity].
    apply find_some in E. destruct E as [Hin Ht].
    apply (region_test_no_wrap k gpuaddr size Ha (Hl _ Hin)) in Ht.
    exfalso. exact (Hall k Hin Ht).
Qed.

End RegistryFacts.

(** C7, at the input where the code departs from it.  A process has one
    region mapped at [0x1000] of [0x1000] bytes.  The lookup for the
    extent of [0xFFFFF000] bytes at [0x1800] returns that region: the
    sum [gpuaddr + size] wraps to [0x800], which is below the end of the
    region, although the extent reaches far beyond it. *)
Theorem kgsl_sharedmem_find_region_wraps :
  let entry := sample_entry 4096 4096 0 7 in
  let private := sample_process [entry] in
  is_u32 6144 /\ is_u32 4294963200 /\
  kgsl_sharedmem_find_region private 6144 4294963200 = Some entry /\
  ~ spec_range_contains entry 6144 4294963200.
Proof.
  cbv zeta. unfold is_u32, UINT_MAX. split; [lia|]. split; [lia|]. split.
  - vm_compute. reflexivity.
  - unfold spec_range_contains, sample_entry. simpl. lia.
Qed.

(** ** The deferred-free queue *)

Section QueueFacts.

Context (P : platform).

Local Abbreviation reached := (reached P).

Lemma destroyed_entries_app (a b : list event) :
  destroyed_entries (a ++ b) = destroyed_entries a ++ destroyed_entries b.
Proof. unfold destroyed_entries. apply flat_map_app. Qed.

Lemma log_lines_app (a b : list event) :
  log_lines (a ++ b) = log_lines a ++ log_lines b.
Proof. unfold log_lines. apply filter_app. Qed.

Lemma destroyed_entries_destroy (entry : kgsl_mem_entry) :
  destroyed_entries (kgsl_destroy_mem_entry P entry) = [entry].
Proof.
  unfold kgsl_destroy_mem_entry, kgsl_put_phys_file.
  destruct (flag_set _ (KGSL_MEMFLAGS_VMALLOC_MEM P));
    [reflexivity|].
  destruct (flag_set _ (KGSL_MEMFLAGS_HOSTADDR P) && _);
    [reflexivity|].
  destruct (file_ptr entry =? 0); reflexivity.
Qed.

Lemma destroy_calls_app (a b : list event) :
  destroy_calls (a ++ b) = destroy_calls a ++ destroy_calls b.
Proof. unfold destroy_calls. apply filter_app. Qed.

(* kgsl_destroy_mem_entry destroys the region as the specification
   reads it. *)
Lemma destroy_calls_destroy (entry : kgsl_mem_entry) :
  destroy_calls (kgsl_destroy_mem_entry P entry)
  = region_destroyed P entry.
Proof.
  unfold kgsl_destroy_mem_entry, kgsl_put_phys_file, region_destroyed,
    backing_store_release, accounting_decrement.
  destruct (flag_set _ (KGSL_MEMFLAGS_VMALLOC_MEM P));
    [reflexivity|].
  destruct (flag_set _ (KGSL_MEMFLAGS_HOSTADDR P));
    destruct (file_ptr entry =? 0); reflexivity.
Qed.

Lemma destroy_calls_destroy_each (l : list kgsl_mem_entry) :
  regions_destroyed P (flat_map (kgsl_destroy_mem_entry P) l) l.
Proof.
  unfold regions_destroyed.
  induction l as [|entry rest IH]; [reflexivity|].
  cbn [flat_map]. rewrite destroy_calls_app, destroy_calls_destroy, IH.
  reflexivity.
Qed.

Lemma log_lines_destroy (entry : kgsl_mem_entry) :
  log_lines (kgsl_destroy_mem_entry P entry) = [].
Proof.
  unfold kgsl_destroy_mem_entry, kgsl_put_phys_file.
  destruct (flag_set _ (KGSL_MEMFLAGS_VMALLOC_MEM P));
    [reflexivity|].
  destruct (flag_set _ (KGSL_MEMFLAGS_HOSTADDR P) && _);
    [reflexivity|].
  destruct (file_ptr entry =? 0); reflexivity.
Qed.

(* The loop splits the queue at the first entry whose timestamp has not
   been reached. *)
Lemma memqueue_drain_loop_split (ts : Z) (q : list kgsl_mem_entry) :
  exists released kept,
    q = released ++ kept /\
    Forall (reached ts) released /\
    (forall entry, hd_error kept = Some entry -> ~ reached ts entry) /\
    snd (memqueue_drain_loop P ts q) = kept /\
    destroyed_entries (fst (memqueue_drain_loop P ts q)) = released /\
    log_lines (fst (memqueue_drain_loop P ts q))
    = map (memqueue_log ts) (released ++ firstn 1 kept).
Proof.
  induction q as [|entry rest IH].
  - exists [], []. simpl. repeat split; auto. intros e He. discriminate.
  - cbn [memqueue_drain_loop].
    destruct (timestamp_cmp P ts (free_timestamp entry)) eqn:E.
    + destruct IH as (released & kept & Hq & Hall & Hhd & Hk & Hd & Hl).
      destruct (memqueue_drain_loop P ts rest) as [evs q'] eqn:Eloop.
      cbn [fst snd negb] in *. exists (entry :: released), kept.
      change (memqueue_log ts entry :: kgsl_destroy_mem_entry P entry ++ evs)
        with ([memqueue_log ts entry]
                ++ kgsl_destroy_mem_entry P entry ++ evs).
      rewrite !destroyed_entries_app, destroyed_entries_destroy, Hd.
      rewrite !log_lines_app, log_lines_destroy, Hl.
      repeat split.
      * rewrite Hq. reflexivity.
      * constructor; [exact E | exact Hall].
      * exact Hhd.
      * exact Hk.
    + exists [], (entry :: rest). cbn [fst snd negb].
      repeat split; auto.
      intros e He. inversion He; subst. unfold reached. congruence.
Qed.

(* What the loop destroys it destroys in full. *)
Lemma memqueue_drain_loop_destroys (ts : Z) (q : list kgsl_mem_entry) :
  regions_destroyed P (fst (memqueue_drain_loop P ts q))
    (destroyed_entries (fst (memqueue_drain_loop P ts q))).
Proof.
  unfold regions_destroyed.
  induction q as [|entry rest IH]; [reflexivity|].
  cbn [memqueue_drain_loop].
  destruct (timestamp_cmp P ts (free_timestamp entry)); [|reflexivity].
  destruct (memqueue_drain_loop P ts rest) as [evs q'].
  cbn [negb fst] in *.
  change (memqueue_log ts entry :: kgsl_destroy_mem_entry P entry ++ evs)
    with ([memqueue_log ts entry]
            ++ kgsl_destroy_mem_entry P entry ++ evs).
  rewrite !destroy_calls_app, destroy_calls_destroy, IH.
  rewrite !destroyed_entries_app, destroyed_entries_destroy.
  reflexivity.
Qed.

(* A queue whose head has not been reached is left as it is. *)
Lemma memqueue_drain_loop_stuck (ts : Z) (q : list kgsl_mem_entry) :
  (forall entry, hd_error q = Some entry -> ~ reached ts entry) ->
  snd (memqueue_drain_loop P ts q) = q /\
  destroyed_entries (fst (memqueue_drain_loop P ts q)) = [].
Proof.
  intros H. destruct q as [|entry rest]; [split; reflexivity|].
  simpl. destruct (timestamp_cmp P ts (free_timestamp entry)) eqn:E.
  - exfalso. apply (H entry); [reflexivity | exact E].
  - split; reflexivity.
Qed.

(* What the loop does is decided by the entries up to the first one not
   reached: the entries behind it do not matter. *)
Lemma memqueue_drain_loop_tail (ts : Z)
  (released : list kgsl_mem_entry) (entry : kgsl_mem_entry)
  (tail : list kgsl_mem_entry) :
  Forall (reached ts) released ->
  ~ reached ts entry ->
  memqueue_drain_loop P ts (released ++ entry :: tail)
  = (fst (memqueue_drain_loop P ts (released ++ [entry])),
     entry :: tail).
Proof.
  intros Hall Hn. induction Hall as [|e l He Hl IH].
  - simpl. destruct (timestamp_cmp P ts (free_timestamp entry)) eqn:E.
    + exfalso. exact (Hn E).
    + reflexivity.
  - simpl. unfold reached in He. rewrite He. simpl.
    rewrite IH.
    destruct (memqueue_drain_loop P ts (l ++ [entry])). reflexivity.
Qed.

(** C1.  With the device mutex held, [kgsl_memqueue_drain] reads the
    retired timestamp [ts] and splits the queue into [released ++ kept]:
    every entry of [released] has its timestamp reached at [ts], the head
    of [kept], if any, has not; exactly the entries of [released] are
    destroyed, in queue order, and destroyed in full: for each of them
    its device range is unmapped, its backing store released, its size
    taken off the accounting and its record freed, and no call of the
    drain destroys anything else; the entries examined (one log line
    each) are those of [released] and the head of [kept], none behind it;
    the queue left is [kept] and nothing else of the device, the backend
    or the process changes; a second drain right after makes no
    destroying call at all and leaves the same queue. *)
Theorem kgsl_memqueue_drain_releases_reached_prefix (w : world P) :
  mutex (w_dev w) = true ->
  let ts := device_cmdstream_readtimestamp (ftbl P) (w_hw w)
                                           KGSL_TIMESTAMP_RETIRED in
  exists released kept evs w',
    kgsl_memqueue_drain P w = Ok tt w' /\
    memqueue (w_dev w) = released ++ kept /\
    Forall (reached ts) released /\
    (forall entry, hd_error kept = Some entry -> ~ reached ts entry) /\
    w_dev w' = set_memqueue kept (w_dev w) /\
    w_hw w' = w_hw w /\ w_proc w' = w_proc w /\
    w_trace w' = w_trace w ++ evs /\
    destroyed_entries evs = released /\
    regions_destroyed P evs released /\
    log_lines evs = map (memqueue_log ts) (released ++ firstn 1 kept) /\
    exists evs2 w'',
      kgsl_memqueue_drain P w' = Ok tt w'' /\
      w_dev w'' = w_dev w' /\
      w_trace w'' = w_trace w' ++ evs2 /\
      destroyed_entries evs2 = [] /\
      regions_destroyed P evs2 [].
Proof.
  intros Hm ts.
  destruct (memqueue_drain_loop_split ts (memqueue (w_dev w)))
    as (released & kept & Hq & Hall & Hhd & Hk & Hd & Hl).
  destruct (memqueue_drain_loop_stuck ts kept Hhd) as [Hk2 Hd2].
  pose proof (memqueue_drain_loop_destroys ts (memqueue (w_dev w))) as Hf.
  pose proof (memqueue_drain_loop_destroys ts kept) as Hf2.
  rewrite Hd in Hf. rewrite Hd2 in Hf2.
  destruct (memqueue_drain_loop P ts (memqueue (w_dev w)))
    as [evs q'] eqn:Eloop.
  destruct (memqueue_drain_loop P ts kept) as [evs2 q2] eqn:Eloop2.
  simpl in Hk, Hd, Hl, Hk2, Hd2, Hf, Hf2. subst q' q2.
  exists released, kept, evs.
  eexists. split.
  { unfold kgsl_memqueue_drain, bind, get_dev, get_hw, BUG_ON.
    rewrite Hm. simpl. fold ts. rewrite Eloop.
    unfold emit_all, put_dev. simpl. reflexivity. }
  simpl. repeat split; try assumption.
  exists evs2. eexists. split.
  { unfold kgsl_memqueue_drain, bind, get_dev, get_hw, BUG_ON. simpl.
    rewrite Hm. simpl. fold ts. rewrite Eloop2.
    unfold emit_all, put_dev. simpl. reflexivity. }
  simpl. repeat split; try assumption.
Qed.

End QueueFacts.

(** ** Freeing a region *)

Section FreeFacts.

Context (P : platform).

Local Abbreviation world_after_free := (world_after_free P).
Local Abbreviation world_after_bad_free := (world_after_bad_free P).

Lemma kgsl_sharedmem_find_some (private : kgsl_process_private)
  (gpuaddr : Z) (entry : kgsl_mem_entry) :
  kgsl_sharedmem_find private gpuaddr = Some entry ->
  In entry (mem_list private) /\ gpuaddr_of entry = gpuaddr.
Proof.
  unfold kgsl_sharedmem_find. intros H. apply find_some in H.
  destruct H as [Hin Heq]. split; [exact Hin|].
  apply Z.eqb_eq. exact Heq.
Qed.

Lemma kgsl_sharedmem_find_none (private : kgsl_process_private)
  (gpuaddr : Z) :
  kgsl_sharedmem_find private gpuaddr = None <->
  (forall entry, In entry (mem_list private) ->
                 gpuaddr_of entry <> gpuaddr).
Proof.
  unfold kgsl_sharedmem_find. split.
  - intros H entry Hin Heq.
    pose proof (find_none _ _ H entry Hin) as Hf. simpl in Hf.
    apply Z.eqb_neq in Hf. exact (Hf Heq).
  - intros H.
    destruct (find _ (mem_list private)) eqn:E; [|reflexivity].
    apply find_some in E. destruct E as [Hin Heq].
    apply Z.eqb_eq in Heq. exfalso. exact (H k Hin Heq).
Qed.

(* Unlinking the entry found leaves no entry at that address when the
   addresses of the list are pairwise distinct. *)
Lemma mem_list_del_find (gpuaddr : Z) (l : list kgsl_mem_entry) :
  NoDup (map gpuaddr_of l) ->
  find (fun entry => md_gpuaddr (memdesc entry) =? gpuaddr)
       (mem_list_del gpuaddr l) = None.
Proof.
  induction l as [|e l IH]; intros Hnd; [reflexivity|].
  inversion Hnd as [|x xs Hnotin Hnd']; subst. simpl.
  destruct (md_gpuaddr (memdesc e) =? gpuaddr) eqn:E.
  - apply Z.eqb_eq in E.
    destruct (find _ l) eqn:F; [|reflexivity].
    apply find_some in F. destruct F as [Hin Heq].
    apply Z.eqb_eq in Heq. exfalso. apply Hnotin.
    apply in_map_iff. exists k. split; [|exact Hin].
    unfold gpuaddr_of. congruence.
  - simpl. rewrite E. apply IH. exact Hnd'.
Qed.


End FreeFacts.


(* Deferral is what the free-on-timestamp request does: with the
   timestamp 5 not yet retired, the region leaves the list of the process
   and waits in the queue. *)
Example kgsl_ioctl_cmdstream_freememontimestamp_defers :
  let entry := sample_entry 4096 4096 0 7 in
  let w := sample_world (sample_device [] []) 0 5 [entry] in
  exists w',
    kgsl_ioctl_cmdstream_freememontimestamp sample_platform 1
      (mk_freememontimestamp 4096 KGSL_TIMESTAMP_RETIRED 5) w = Ok 0 w' /\
    mem_list (w_proc w') = [] /\
    memqueue (w_dev w') = [sample_entry 4096 4096 5 7] /\
    destroyed_entries (w_trace w') = [].
Proof.
  cbv zeta. eexists. split; [vm_lhs; reflexivity|].
  repeat split.
Qed.


(** ** Suspend *)

Section SuspendFacts.

Context (P : platform).

Local Abbreviation device_at_switch := (device_at_switch P).

Lemma device_at_switch_idle (d : kgsl_device) :
  active_cnt d = 0 -> state (device_at_switch d) = state d.
Proof.
  intros H. unfold device_at_switch. rewrite H. reflexivity.
Qed.

Lemma call_ftbl_run (c : ftbl_call) (op : hw P -> hw P * Z) (w : world P) :
  call_ftbl c op w
  = Ok (snd (op (w_hw w)))
       (mk_world (w_dev w) (fst (op (w_hw w))) (w_proc w) (w_user w)
                 (w_kzalloc w) (w_trace w ++ [EvFtbl c])).
Proof.
  unfold call_ftbl, bind, emit, get_hw, put_hw, ret. simpl.
  destruct (op (w_hw w)). reflexivity.
Qed.

Lemma suspend_stop_run (w : world P) :
  let h1 := fst (device_suspend_context (ftbl P) (w_hw w)) in
  suspend_stop P w
  = Ok tt
       (mk_world
          (set_state KGSL_STATE_SUSPEND (set_hwaccess_gate 0 (w_dev w)))
          (fst (device_stop (ftbl P) h1))
          (w_proc w) (w_user w) (w_kzalloc w)
          (w_trace w
             ++ [EvInitCompletion HWACCESS_GATE;
                 EvFtbl DEVICE_SUSPEND_CONTEXT;
                 EvFtbl DEVICE_STOP;
                 EvLog "state -> SUSPEND, device %d" [dev_id (w_dev w)]])).
Proof.
  unfold suspend_stop.
  unfold bind at 1. unfold emit at 1.
  unfold bind at 1. unfold modify_dev at 1.
  unfold bind at 1. rewrite call_ftbl_run.
  unfold bind at 1. rewrite call_ftbl_run.
  unfold bind, modify_dev, get_dev, emit. simpl.
  rewrite <- !app_assoc. reflexivity.
Qed.

Ltac run_suspend :=
  unfold kgsl_suspend_device, wait_for_suspend_gate,
    mutex_lock, mutex_unlock, modify_dev, emit, get_dev,
    put_dev, bind, ret;
  cbn [w_dev w_hw w_proc w_user w_kzalloc w_trace active_cnt
       set_mutex set_nap_allowed set_requested_state].

Ltac split_calls :=
  rewrite ?call_ftbl_run; cbn iota beta; rewrite ?suspend_stop_run;
  cbn iota beta zeta.

(** C3, as the code has it.  What a suspend request does to a device is
    decided by the state the switch finds ([device_at_switch]; the state
    at entry when no operation was outstanding).  From [Init] the request
    is accepted: the loop goes on to the next device, the state stays
    [Init], no backend operation is called and, the device being the only
    one, [kgsl_suspend] returns 0.  From a state other than [Init],
    [Active], [Nap] and [Sleep] the request returns [-EINVAL] at once,
    the state is unchanged and no backend operation is called.  From
    [Active], [Nap] and [Sleep] the backend is stopped and the state
    becomes [Suspend]. *)
Theorem kgsl_suspend_by_state (w : world P)
  (rest : list (option (world P))) :
  let ds := device_at_switch (w_dev w) in
  exists evs w',
    match state ds with
    | KGSL_STATE_INIT =>
        kgsl_suspend_device P w = Ok None w' /\
        w_trace w' = w_trace w ++ evs /\
        state (w_dev w') = KGSL_STATE_INIT /\
        ftbl_calls evs = [] /\
        kgsl_suspend P [Some w] = Ok 0 [Some w']
    | KGSL_STATE_NONE
    | KGSL_STATE_SUSPEND =>
        kgsl_suspend_device P w = Ok (Some (- EINVAL)) w' /\
        w_trace w' = w_trace w ++ evs /\
        state (w_dev w') = state ds /\
        ftbl_calls evs = [] /\
        kgsl_suspend P (Some w :: rest) = Ok (- EINVAL) (Some w' :: rest)
    | _ =>
        kgsl_suspend_device P w = Ok None w' /\
        w_trace w' = w_trace w ++ evs /\
        state (w_dev w') = KGSL_STATE_SUSPEND /\
        In DEVICE_STOP (ftbl_calls evs)
    end.
Proof.
  destruct w as [d h p u k t]. destruct d. unfold device_at_switch. simpl.
  destruct (active_cnt0 =? 0) eqn:Ea;
    [|destruct (0 <? suspend_gate0) eqn:Eg].
  - simpl. destruct state0 eqn:Es.
    all: unfold kgsl_suspend; run_suspend; rewrite Ea; simpl.
    all: split_calls; simpl.
    all: do 2 eexists; split; [reflexivity|].
    all: split; [simpl; rewrite <- ?app_assoc; reflexivity|].
    all: simpl; auto 10.
  - simpl. destruct state0 eqn:Es.
    all: unfold kgsl_suspend; run_suspend; rewrite Ea; simpl; rewrite Eg;
      simpl.
    all: split_calls; simpl.
    all: do 2 eexists; split; [reflexivity|].
    all: split; [simpl; rewrite <- ?app_assoc; reflexivity|].
    all: simpl; auto 10.
  - simpl.
    destruct (state (suspend_gate_wakeup P _)) eqn:Es.
    all: unfold kgsl_suspend; run_suspend; rewrite Ea; simpl; rewrite Eg;
      simpl; rewrite Es.
    all: split_calls; simpl.
    all: do 2 eexists; split; [reflexivity|].
    all: split; [simpl; rewrite <- ?app_assoc; reflexivity|].
    all: simpl; auto 10.
Qed.

End SuspendFacts.

(** C3 as stated fails: a suspend request for a device in [Init] with no
    operation outstanding returns 0, not an error. *)
Lemma kgsl_suspend_from_init_returns_success :
  let d := set_mutex false (set_state KGSL_STATE_INIT (sample_device [] [])) in
  let w := sample_world d 0 0 [] in
  state (w_dev w) = KGSL_STATE_INIT /\
  exists w',
    kgsl_suspend sample_platform [Some w] = Ok 0 [Some w'] /\
    state (w_dev w') = KGSL_STATE_INIT /\
    0 <> - EINVAL.
Proof.
  cbv zeta. split; [reflexivity|].
  eexists. split; [vm_lhs; reflexivity|]. split; [reflexivity|].
  discriminate.
Qed.

(** ** Waiting for a timestamp *)

Section WaitFacts.

Context (P : platform).

Local Abbreviation world_after_wait := (world_after_wait P).

(* The drain in closed form *)
Lemma kgsl_memqueue_drain_run (w : world P) :
  mutex (w_dev w) = true ->
  let ts := device_cmdstream_readtimestamp (ftbl P) (w_hw w)
                                           KGSL_TIMESTAMP_RETIRED in
  kgsl_memqueue_drain P w
  = Ok tt
       (mk_world
          (set_memqueue (snd (memqueue_drain_loop P ts (memqueue (w_dev w))))
                        (w_dev w))
          (w_hw w) (w_proc w) (w_user w) (w_kzalloc w)
          (w_trace w
             ++ fst (memqueue_drain_loop P ts (memqueue (w_dev w))))).
Proof.
  intros Hm ts.
  unfold kgsl_memqueue_drain, bind, get_dev, get_hw, BUG_ON.
  rewrite Hm. simpl. fold ts.
  destruct (memqueue_drain_loop P ts (memqueue (w_dev w))). reflexivity.
Qed.

(* The handler in closed form *)
Lemma kgsl_ioctl_device_waittimestamp_run (w : world P) (dev_priv : Z)
  (param : kgsl_device_waittimestamp) :
  mutex (w_dev w) = true ->
  let timeout := clamped_timeout (wt_timeout param) in
  let w1 := world_after_wait w param in
  let ts := device_cmdstream_readtimestamp (ftbl P) (w_hw w1)
                                           KGSL_TIMESTAMP_RETIRED in
  let drained := memqueue_drain_loop P ts (memqueue (w_dev w)) in
  kgsl_ioctl_device_waittimestamp P dev_priv param w
  = Ok (snd (device_waittimestamp (ftbl P) (w_hw w) (wt_timestamp param)
                                  timeout),
        if wt_timeout param =? UINT_MAX
        then mk_waittimestamp (wt_timestamp param) (10 * MSEC_PER_SEC)
        else param)
       (mk_world
          (set_suspend_gate 1
             (set_active_cnt (u32 (u32 (active_cnt (w_dev w) + 1) - 1))
                (set_memqueue (snd drained) (w_dev w))))
          (w_hw w1) (w_proc w) (w_user w) (w_kzalloc w)
          (w_trace w1 ++ fst drained
             ++ [EvInitCompletion SUSPEND_GATE; EvComplete SUSPEND_GATE])).
Proof.
  destruct w as [d h p u k t]. destruct d. simpl. intros Hm. subst.
  unfold kgsl_ioctl_device_waittimestamp.
  change (u32 (-1)) with UINT_MAX.
  unfold bind at 1. unfold modify_dev at 1.
  unfold bind at 1. unfold world_after_wait, clamped_timeout.
  destruct (wt_timeout param =? UINT_MAX) eqn:Et.
  - rewrite call_ftbl_run. simpl.
    unfold bind at 1. rewrite kgsl_memqueue_drain_run by reflexivity.
    simpl. unfold bind, emit, modify_dev, ret. simpl.
    rewrite <- !app_assoc. reflexivity.
  - rewrite call_ftbl_run. simpl.
    unfold bind at 1. rewrite kgsl_memqueue_drain_run by reflexivity.
    simpl. unfold bind, emit, modify_dev, ret. simpl.
    rewrite <- !app_assoc. reflexivity.
Qed.

Lemma ftbl_calls_app (a b : list event) :
  ftbl_calls (a ++ b) = ftbl_calls a ++ ftbl_calls b.
Proof. unfold ftbl_calls. apply flat_map_app. Qed.

Lemma ftbl_calls_destroy (entry : kgsl_mem_entry) :
  ftbl_calls (kgsl_destroy_mem_entry P entry) = [].
Proof.
  unfold kgsl_destroy_mem_entry, kgsl_put_phys_file.
  destruct (flag_set _ (KGSL_MEMFLAGS_VMALLOC_MEM P));
    [reflexivity|].
  destruct (flag_set _ (KGSL_MEMFLAGS_HOSTADDR P) && _);
    [reflexivity|].
  destruct (file_ptr entry =? 0); reflexivity.
Qed.

Lemma ftbl_calls_drain_loop (ts : Z) (q : list kgsl_mem_entry) :
  ftbl_calls (fst (memqueue_drain_loop P ts q)) = [].
Proof.
  induction q as [|entry rest IH]; [reflexivity|].
  cbn [memqueue_drain_loop].
  destruct (timestamp_cmp P ts (free_timestamp entry)); [|reflexivity].
  destruct (memqueue_drain_loop P ts rest) as [evs q'].
  cbn [negb fst] in *.
  change (memqueue_log ts entry :: kgsl_destroy_mem_entry P entry ++ evs)
    with ([memqueue_log ts entry] ++ kgsl_destroy_mem_entry P entry ++ evs).
  rewrite !ftbl_calls_app, ftbl_calls_destroy, IH. reflexivity.
Qed.

(** C4.  With the device mutex held (the request is a locked one), a
    wait-timestamp request hands the backend the timeout of the request,
    except that the value [-1] (wait forever) is replaced by
    [10 * MSEC_PER_SEC], so that the timeout handed over is never the
    value that asks to wait forever; the backend wait is the only backend
    operation called, once, and with the wait of the backend as the
    specification has it the request blocks for no longer than that
    timeout, whenever the timestamp is reached.  Whatever the wait
    returns, the deferred-free queue is then drained at the retired
    timestamp [ts] that the backend shows after the wait: the queue is
    split into [released ++ kept], every entry of [released] reached at
    [ts] and the head of [kept] not, the entries of [released] are
    destroyed in full and in order and nothing else is, and the queue
    left is [kept].  The suspend gate is signalled, and the result of the
    wait is the result of the request. *)
Theorem kgsl_ioctl_device_waittimestamp_clamps_and_drains (w : world P)
  (dev_priv : Z) (param : kgsl_device_waittimestamp) :
  mutex (w_dev w) = true ->
  let timeout := clamped_timeout (wt_timeout param) in
  let waited := device_waittimestamp (ftbl P) (w_hw w)
                                     (wt_timestamp param) timeout in
  let ts := device_cmdstream_readtimestamp (ftbl P) (fst waited)
                                           KGSL_TIMESTAMP_RETIRED in
  (wt_timeout param = UINT_MAX -> timeout = 10000) /\
  (wt_timeout param <> UINT_MAX -> timeout = wt_timeout param) /\
  (is_u32 (wt_timeout param) -> 0 <= timeout < UINT_MAX) /\
  exists w2 w' param' evs,
    kgsl_memqueue_drain P (world_after_wait w param) = Ok tt w2 /\
    kgsl_ioctl_device_waittimestamp P dev_priv param w
    = Ok (snd waited, param') w' /\
    wt_timeout param' = timeout /\
    wt_timestamp param' = wt_timestamp param /\
    memqueue (w_dev w') = memqueue (w_dev w2) /\
    w_hw w' = fst waited /\
    w_trace w'
    = w_trace w2
        ++ [EvInitCompletion SUSPEND_GATE; EvComplete SUSPEND_GATE] /\
    w_trace w' = w_trace w ++ evs /\
    ftbl_calls evs
    = [DEVICE_WAITTIMESTAMP (wt_timestamp param) timeout] /\
    (forall reached_after,
       blocked_for reached_after evs
       = wait_duration (reached_after (wt_timestamp param)) timeout /\
       blocked_for reached_after evs <= timeout) /\
    exists released kept,
      memqueue (w_dev w) = released ++ kept /\
      Forall (reached P ts) released /\
      (forall entry, hd_error kept = Some entry -> ~ reached P ts entry) /\
      memqueue (w_dev w') = kept /\
      destroyed_entries evs = released /\
      regions_destroyed P evs released.
Proof.
  intros Hm timeout waited ts.
  split.
  { intros H. subst timeout. unfold clamped_timeout. rewrite H.
    reflexivity. }
  split.
  { intros H. subst timeout. unfold clamped_timeout.
    apply Z.eqb_neq in H. rewrite H. reflexivity. }
  split.
  { intros H. subst timeout. unfold clamped_timeout, is_u32 in *.
    destruct (wt_timeout param =? UINT_MAX) eqn:E.
    - unfold UINT_MAX, MSEC_PER_SEC. lia.
    - apply Z.eqb_neq in E. lia. }
  pose proof (kgsl_ioctl_device_waittimestamp_run w dev_priv param Hm)
    as Hrun.
  assert (Hm1 : mutex (w_dev (world_after_wait w param)) = true).
  { unfold world_after_wait. simpl. exact Hm. }
  pose proof (kgsl_memqueue_drain_run (world_after_wait w param) Hm1)
    as Hdrain.
  cbv zeta in Hrun, Hdrain.
  do 4 eexists.
  split; [exact Hdrain|]. split; [exact Hrun|].
  split.
  { subst timeout. unfold clamped_timeout.
    destruct (wt_timeout param =? UINT_MAX); reflexivity. }
  split.
  { destruct (wt_timeout param =? UINT_MAX); reflexivity. }
  split; [reflexivity|]. split; [reflexivity|].
  split.
  { simpl. rewrite <- !app_assoc. reflexivity. }
  split.
  { unfold world_after_wait. simpl. rewrite <- !app_assoc. reflexivity. }
  subst ts waited timeout. unfold world_after_wait.
  cbn [w_dev w_hw w_trace memqueue set_suspend_gate set_active_cnt
       set_memqueue].
  set (timeout := clamped_timeout (wt_timeout param)).
  set (ts := device_cmdstream_readtimestamp (ftbl P)
               (fst (device_waittimestamp (ftbl P) (w_hw w)
                       (wt_timestamp param) timeout))
               KGSL_TIMESTAMP_RETIRED).
  assert (Hcalls :
    ftbl_calls
      ([EvFtbl (DEVICE_WAITTIMESTAMP (wt_timestamp param) timeout)]
         ++ fst (memqueue_drain_loop P ts (memqueue (w_dev w)))
         ++ [EvInitCompletion SUSPEND_GATE; EvComplete SUSPEND_GATE])
    = [DEVICE_WAITTIMESTAMP (wt_timestamp param) timeout]).
  { rewrite !ftbl_calls_app, ftbl_calls_drain_loop. reflexivity. }
  split; [exact Hcalls|].
  split.
  { intros reached_after. unfold blocked_for. rewrite Hcalls.
    cbn [map fold_right wait_time]. rewrite Z.add_0_r.
    split; [reflexivity|].
    unfold wait_duration.
    destruct (reached_after (wt_timestamp param)); lia. }
  destruct (memqueue_drain_loop_split P ts (memqueue (w_dev w)))
    as (released & kept & Hq & Hall & Hhd & Hk & Hd & _).
  pose proof (memqueue_drain_loop_destroys P ts (memqueue (w_dev w)))
    as Hf.
  rewrite Hd in Hf.
  exists released, kept.
  split; [exact Hq|]. split; [exact Hall|]. split; [exact Hhd|].
  split; [exact Hk|].
  split.
  { rewrite !destroyed_entries_app, Hd. cbn. apply app_nil_r. }
  unfold regions_destroyed in *. rewrite !destroy_calls_app, Hf.
  cbn. apply app_nil_r.
Qed.

End WaitFacts.

Lemma kgsl_ioctl_device_waittimestamp_clamps_and_drains_witness :
  let w := sample_world (sample_device [sample_entry 4096 4096 3 7] [])
                        0 3 [] in
  mutex (w_dev w) = true /\
  clamped_timeout UINT_MAX = 10000 /\
  exists w' param' evs,
    kgsl_ioctl_device_waittimestamp sample_platform 1
      (mk_waittimestamp 3 UINT_MAX) w = Ok (0, param') w' /\
    wt_timeout param' = 10000 /\
    w_trace w' = w_trace w ++ evs /\
    blocked_for (fun _ => None) evs <= 10000 /\
    exists released kept,
      memqueue (w_dev w) = released ++ kept /\
      memqueue (w_dev w') = kept /\
      regions_destroyed sample_platform evs released.
Proof.
  cbv zeta. split; [reflexivity|].
  destruct (kgsl_ioctl_device_waittimestamp_clamps_and_drains
              sample_platform
              (sample_world (sample_device [sample_entry 4096 4096 3 7] [])
                            0 3 [])
              1 (mk_waittimestamp 3 UINT_MAX) eq_refl)
    as (Hc & _ & _ & w2 & w' & param' & evs & _ & Hrun & Ht & _ & _ & _ & _
        & Htr & _ & Hblock & released & kept & Hq & _ & _ & Hk & _ & Hf).
  split; [exact (Hc eq_refl)|].
  exists w', param', evs. split; [exact Hrun|].
  split; [rewrite Ht; exact (Hc eq_refl)|].
  split; [exact Htr|].
  split.
  { rewrite <- (Hc eq_refl). exact (proj2 (Hblock (fun _ => None))). }
  exists released, kept. split; [exact Hq|]. split; [exact Hk | exact Hf].
Defined.

(** C5, at the input where the code departs from it.  One waiter is
    already outstanding ([active_cnt] is 1) when a second wait-timestamp
    request runs.  The request raises the counter to 2 before the backend
    wait and lowers it to 1 after it, and it signals the suspend gate
    although the counter has not returned to zero.  A suspend that
    follows finds the counter nonzero, waits on the gate, finds it
    signalled, and stops the device while the first waiter is still
    outstanding. *)
Theorem kgsl_ioctl_device_waittimestamp_signals_gate_while_busy :
  let d := set_active_cnt 1 (sample_device [] []) in
  let w := sample_world d 0 3 [] in
  exists w1 w2,
    kgsl_ioctl_device_waittimestamp sample_platform 1
      (mk_waittimestamp 3 100) w = Ok (0, mk_waittimestamp 3 100) w1 /\
    active_cnt (w_dev w1) = 1 /\
    suspend_gate (w_dev w1) = 1 /\
    w_trace w1
    = [EvFtbl (DEVICE_WAITTIMESTAMP 3 100);
       EvInitCompletion SUSPEND_GATE; EvComplete SUSPEND_GATE] /\
    kgsl_suspend_device sample_platform
      (mk_world (set_mutex false (w_dev w1)) (w_hw w1) (w_proc w1)
                (w_user w1) (w_kzalloc w1) (w_trace w1))
    = Ok None w2 /\
    state (w_dev w2) = KGSL_STATE_SUSPEND /\
    active_cnt (w_dev w2) = 1 /\
    In DEVICE_STOP (ftbl_calls (w_trace w2)).
Proof.
  cbv zeta. do 2 eexists.
  split; [vm_lhs; reflexivity|].
  split; [reflexivity|]. split; [reflexivity|]. split; [reflexivity|].
  split; [vm_lhs; reflexivity|].
  split; [reflexivity|]. split; [reflexivity|].
  simpl. auto 10.
Qed.

(** ** Issuing command buffers *)

Section IssueFacts.

Context (P : platform).

(* A descriptor that no region passes makes check_ibdesc fail. *)
Lemma check_ibdesc_from_rejects (private : kgsl_process_private)
  (dev_priv : Z) (parse : bool) (numibs i : Z) (ibdesc : list kgsl_ibdesc) :
  (exists ib, In ib ibdesc /\
     kgsl_sharedmem_find_region private (ib_gpuaddr ib)
                                (u32 (ib_sizedwords ib * 4)) = None) ->
  snd (check_ibdesc_from P private dev_priv parse numibs i ibdesc) = false.
Proof.
  revert i. induction ibdesc as [|ib rest IH]; intros i [bad [Hin Hbad]].
  - destruct Hin.
  - cbn [check_ibdesc_from].
    destruct (kgsl_sharedmem_find_region private (ib_gpuaddr ib)
                (u32 (ib_sizedwords ib * 4))) as [entry|] eqn:F.
    + destruct (parse && _); [reflexivity|].
      apply IH. destruct Hin as [Heq|Hin].
      * subst bad. congruence.
      * exists bad. split; assumption.
    + reflexivity.
Qed.

Lemma ftbl_calls_check_ibdesc_from (private : kgsl_process_private)
  (dev_priv : Z) (parse : bool) (numibs i : Z) (ibdesc : list kgsl_ibdesc) :
  ftbl_calls (fst (check_ibdesc_from P private dev_priv parse numibs i
                                     ibdesc)) = [].
Proof.
  revert i. induction ibdesc as [|ib rest IH]; intros i; [reflexivity|].
  cbn [check_ibdesc_from].
  destruct (kgsl_sharedmem_find_region private (ib_gpuaddr ib)
              (u32 (ib_sizedwords ib * 4))); [|reflexivity].
  destruct (parse && _); [reflexivity|]. apply IH.
Qed.

(* The validation before issue: when a descriptor is passed by no region,
   nothing is issued, the descriptor array is freed and the request
   fails with -EINVAL. *)
Lemma issueibcmds_submit_rejects (w : world P) (dev_priv : Z)
  (context : kgsl_context) (ibdesc : list kgsl_ibdesc)
  (param : kgsl_ringbuffer_issueibcmds) :
  (exists ib, In ib ibdesc /\
     kgsl_sharedmem_find_region (w_proc w) (ib_gpuaddr ib)
                                (u32 (ib_sizedwords ib * 4)) = None) ->
  exists evs,
    issueibcmds_submit P dev_priv context ibdesc param w
    = Ok (- EINVAL, param)
         (mk_world (w_dev w) (w_hw w) (w_proc w) (w_user w) (w_kzalloc w)
                   (w_trace w ++ evs)) /\
    ftbl_calls evs = [] /\
    In EvKfreeIbdesc evs.
Proof.
  intros Hbad.
  pose proof (check_ibdesc_from_rejects (w_proc w) dev_priv true
                (ii_numibs param) 0 ibdesc Hbad) as Hrej.
  pose proof (ftbl_calls_check_ibdesc_from (w_proc w) dev_priv true
                (ii_numibs param) 0 ibdesc) as Hcalls.
  destruct w as [d h p u k t]. simpl in *.
  unfold issueibcmds_submit, check_ibdesc, bind, get_proc. simpl.
  destruct (check_ibdesc_from P p dev_priv true (ii_numibs param) 0 ibdesc)
    as [evs result].
  simpl in Hrej, Hcalls. subst result.
  unfold emit_all, ret, issueibcmds_free_ibdesc, issueibcmds_done, bind,
    emit. simpl.
  destruct (CONFIG_MSM_KGSL_DRM P).
  - exists (evs ++ [EvLog "bad ibdesc" []; EvKfreeIbdesc;
                    EvGpuMemFlush false]).
    simpl. rewrite <- !app_assoc. simpl. split; [reflexivity|].
    rewrite ftbl_calls_app, Hcalls. split; [reflexivity|].
    apply in_or_app. right. simpl. auto.
  - exists (evs ++ [EvLog "bad ibdesc" []; EvKfreeIbdesc]).
    simpl. rewrite <- !app_assoc. simpl. split; [reflexivity|].
    rewrite ftbl_calls_app, Hcalls. split; [reflexivity|].
    apply in_or_app. right. simpl. auto.
Qed.

Lemma ftbl_calls_clean_cache (l : list kgsl_mem_entry) :
  ftbl_calls
    (flat_map
       (fun entry =>
          if flag_set (md_priv (memdesc entry)) (KGSL_MEMFLAGS_CACHE_MASK P)
          then [EvCacheRangeOp (md_hostptr (memdesc entry))
                               (md_size (memdesc entry))
                               (md_priv (memdesc entry))]
          else [])
       l) = [].
Proof.
  induction l as [|e l IH]; [reflexivity|].
  cbn [flat_map]. rewrite ftbl_calls_app, IH.
  destruct (flag_set _ _); reflexivity.
Qed.

(* The list form with no descriptor is refused before anything is
   allocated or issued. *)
Lemma kgsl_ioctl_rb_issueibcmds_empty_list (w : world P) (dev_priv : Z)
  (param : kgsl_ringbuffer_issueibcmds) :
  flag_set (ii_flags param) (KGSL_CONTEXT_SUBMIT_IB_LIST P) = true ->
  ii_numibs param = 0 ->
  exists evs,
    kgsl_ioctl_rb_issueibcmds P dev_priv param w
    = Ok (- EINVAL, param)
         (mk_world (w_dev w) (w_hw w) (w_proc w) (w_user w) (w_kzalloc w)
                   (w_trace w ++ evs)) /\
    ftbl_calls evs = [].
Proof.
  intros Hlist Hzero.
  destruct w as [d h p u k t].
  unfold kgsl_ioctl_rb_issueibcmds, kgsl_clean_cache_all, issueibcmds_done.
  rewrite Hlist, Hzero. cbn [Z.eqb].
  unfold bind, get_proc, get_dev, emit_all, emit, ret.
  cbn [w_dev w_hw w_proc w_user w_kzalloc w_trace].
  destruct (CONFIG_MSM_KGSL_MMU P && kgsl_cache_enable P);
    destruct (CONFIG_MSM_KGSL_DRM P);
    cbn [w_dev w_hw w_proc w_user w_kzalloc w_trace];
    destruct (kgsl_find_context d dev_priv (ii_drawctxt_id param));
    cbn [w_dev w_hw w_proc w_user w_kzalloc w_trace];
    rewrite <- ?app_assoc; cbn [app];
    eexists; (split; [reflexivity|]);
    rewrite ?ftbl_calls_app, ?ftbl_calls_clean_cache; reflexivity.
Qed.

End IssueFacts.

(** C6, at the input where the code departs from it.  A process has one
    region mapped at [0x1000] of [0x1000] bytes and a context with id 0.
    A request in the single-buffer form names a buffer at [0x1800] of
    [0x3FFFFC00] words, that is [0xFFFFF000] bytes, which no region
    contains.  The validation passes, because the end of the buffer
    wraps in the lookup, and the buffer is issued: the backend is called
    and the timestamp advances. *)
Theorem kgsl_ioctl_rb_issueibcmds_issues_uncontained_buffer :
  let entry := sample_entry 4096 4096 0 7 in
  let context := mk_context 0 1 1 in
  let w := sample_world (sample_device [] [Some context]) 0 0 [entry] in
  let param := mk_issueibcmds 0 6144 1073740800 0 0 in
  (forall e, In e (mem_list (w_proc w)) ->
             ~ spec_range_contains e 6144 (1073740800 * 4)) /\
  exists w',
    kgsl_ioctl_rb_issueibcmds sample_platform 1 param w
    = Ok (0, mk_issueibcmds 0 6144 1 1 0) w' /\
    ftbl_calls (w_trace w')
    = [DEVICE_ISSUEIBCMDS context [mk_ibdesc 6144 1073740800] 1 0] /\
    hw_consumed (w_hw w') = 1.
Proof.
  cbv zeta. split.
  - intros e [He|[]]. subst e.
    unfold spec_range_contains, sample_entry. simpl. lia.
  - eexists. split; [vm_lhs; reflexivity|].
    split; reflexivity.
Qed.

(** ** The dispatcher *)

Section DispatchFacts.

Context (P : platform).

Local Abbreviation dispatched_cmd := (dispatched_cmd P).
Local Abbreviation world_for_handler := (world_for_handler P).
Context (kgsl_ioctl_funcs : Z -> option (kgsl_ioctl_func_t P * bool)).

Lemma kgsl_check_idle_locked_run (w : world P) :
  exists d' evs,
    kgsl_check_idle_locked P w
    = Ok tt (mk_world d' (w_hw w) (w_proc w) (w_user w) (w_kzalloc w)
                      (w_trace w ++ evs)) /\
    forallb (fun ev => negb (is_copy_to_user ev)) evs = true.
Proof.
  destruct w as [d h p u k t].
  unfold kgsl_check_idle_locked, bind, get_dev. simpl.
  destruct (nap_allowed d && kgsl_state_eqb (state d) KGSL_STATE_ACTIVE).
  - destruct (kgsl_pwrctrl_sleep P (set_requested_state KGSL_STATE_NAP d))
      as [d' r].
    unfold put_dev. simpl. destruct (r =? 0); simpl.
    + exists d', []. rewrite app_nil_r. split; reflexivity.
    + exists d', [EvModTimer (interval_timeout d')]. split; reflexivity.
  - exists d, []. unfold ret. rewrite app_nil_r. split; reflexivity.
Qed.

(* After a handler that failed, the dispatcher returns its result and
   does not touch user memory. *)
Lemma kgsl_ioctl_finish_failed (lock : bool) (cmd arg ret_ : Z)
  (uptr : list Z) (w : world P) :
  ret_ <> 0 ->
  exists d' evs,
    kgsl_ioctl_finish P lock cmd arg ret_ uptr w
    = Ok ret_ (mk_world d' (w_hw w) (w_proc w) (w_user w) (w_kzalloc w)
                        (w_trace w ++ evs)) /\
    forallb (fun ev => negb (is_copy_to_user ev)) evs = true.
Proof.
  intros Hret. apply Z.eqb_neq in Hret.
  unfold kgsl_ioctl_finish. rewrite Hret. cbn [andb].
  destruct lock.
  - destruct (kgsl_check_idle_locked_run w) as (d1 & evs1 & Hidle & Hno).
    unfold bind at 1. unfold bind at 1. rewrite Hidle.
    unfold mutex_unlock, modify_dev, bind, ret, kgsl_ioctl_done, emit.
    simpl.
    destruct (USTACK_SIZE <=? _IOC_SIZE cmd); simpl.
    + exists (set_mutex false d1), (evs1 ++ [EvKfreeUptr]).
      rewrite app_assoc. split; [reflexivity|].
      rewrite forallb_app, Hno. reflexivity.
    + exists (set_mutex false d1), evs1. split; [reflexivity|exact Hno].
  - destruct w as [d h p u k t].
    unfold bind, ret, kgsl_ioctl_done, emit. simpl.
    destruct (USTACK_SIZE <=? _IOC_SIZE cmd); simpl.
    + exists d, [EvKfreeUptr]. split; reflexivity.
    + exists d, []. rewrite app_nil_r. split; reflexivity.
Qed.

(* After a handler that succeeded on a read-bearing command, the payload
   is copied to the caller. *)
Lemma kgsl_ioctl_finish_succeeded (lock : bool) (cmd arg : Z)
  (uptr : list Z) (w : world P) :
  Z.land cmd IOC_OUT <> 0 ->
  let copied :=
    copy_to_user (w_user w) arg (firstn (Z.to_nat (_IOC_SIZE cmd)) uptr) in
  exists d' evs,
    kgsl_ioctl_finish P lock cmd arg 0 uptr w
    = Ok (if negb (snd copied =? 0) then - EFAULT else 0)
         (mk_world d' (w_hw w) (w_proc w) (fst copied) (w_kzalloc w)
                   (w_trace w ++ evs)) /\
    In (EvCopyToUser arg (_IOC_SIZE cmd)) evs.
Proof.
  intros Hout copied. apply Z.eqb_neq in Hout.
  unfold kgsl_ioctl_finish. rewrite Hout. cbn [andb negb Z.eqb].
  unfold kgsl_ioctl_done.
  set (size := _IOC_SIZE cmd) in *. clearbody size.
  destruct lock.
  - destruct (kgsl_check_idle_locked_run w) as (d1 & evs1 & Hidle & Hno).
    unfold bind at 1. unfold bind at 1. rewrite Hidle.
    unfold mutex_unlock, modify_dev, bind, ret, emit, put_user.
    cbn [w_dev w_hw w_proc w_user w_kzalloc w_trace].
    fold copied. clearbody copied. destruct copied as [m left].
    cbn [fst snd w_dev w_hw w_proc w_user w_kzalloc w_trace].
    destruct (USTACK_SIZE <=? size);
      cbn [w_dev w_hw w_proc w_user w_kzalloc w_trace].
    + exists (set_mutex false d1),
        (evs1 ++ [EvCopyToUser arg size; EvKfreeUptr]).
      rewrite <- !app_assoc. split; [reflexivity|].
      apply in_or_app. right. simpl. auto.
    + exists (set_mutex false d1), (evs1 ++ [EvCopyToUser arg size]).
      rewrite <- !app_assoc. split; [reflexivity|].
      apply in_or_app. right. simpl. auto.
  - destruct w as [d h p u k t].
    unfold bind, ret, emit, put_user.
    cbn [w_dev w_hw w_proc w_user w_kzalloc w_trace] in *.
    fold copied. clearbody copied. destruct copied as [m left].
    cbn [fst snd w_dev w_hw w_proc w_user w_kzalloc w_trace].
    destruct (USTACK_SIZE <=? size);
      cbn [w_dev w_hw w_proc w_user w_kzalloc w_trace].
    + exists d, [EvCopyToUser arg size; EvKfreeUptr].
      rewrite <- !app_assoc. split; [reflexivity|]. simpl. auto.
    + exists d, [EvCopyToUser arg size].
      split; [reflexivity|]. simpl. auto.
Qed.

Lemma kgsl_ioctl_run (dev_priv cmd arg : Z) (w : world P)
  (uptr : option (list Z)) (w1 : world P) (ret_ : Z) (data : list Z)
  (w2 : world P) :
  let dcmd := dispatched_cmd cmd in
  let func := fst (kgsl_ioctl_select P kgsl_ioctl_funcs (_IOC_NR cmd)) in
  let lock := snd (kgsl_ioctl_select P kgsl_ioctl_funcs (_IOC_NR cmd)) in
  kgsl_ioctl_copy_in P dcmd arg w = Ok (inr uptr) w1 ->
  func dev_priv dcmd uptr (world_for_handler lock w1) = Ok (ret_, data) w2 ->
  kgsl_ioctl P kgsl_ioctl_funcs dev_priv cmd arg w
  = kgsl_ioctl_finish P lock dcmd arg ret_ data w2.
Proof.
  intros dcmd func lock Hcopy Hfunc.
  unfold kgsl_ioctl. fold (dispatched_cmd cmd). fold dcmd.
  unfold bind at 1. rewrite Hcopy.
  subst func lock.
  destruct (kgsl_ioctl_select P kgsl_ioctl_funcs (_IOC_NR cmd))
    as [func lock].
  cbn [fst snd] in Hfunc.
  unfold bind at 1.
  destruct lock.
  - unfold world_for_handler in Hfunc.
    unfold bind at 1. unfold mutex_lock, modify_dev.
    cbn [w_dev w_hw w_proc w_user w_kzalloc w_trace].
    unfold bind at 1. rewrite Hfunc. reflexivity.
  - unfold world_for_handler in Hfunc. unfold ret at 1.
    unfold bind at 1. rewrite Hfunc. reflexivity.
Qed.

(** C10.  Let a request reach its handler: the payload was taken in, the
    handler ran in the world the dispatcher prepared and returned [ret_]
    and the payload [data], leaving the world [w2].  When [ret_] is not
    zero, the dispatcher returns [ret_], user memory is as the handler
    left it and the dispatcher makes no copy to the caller.  When [ret_]
    is zero and the command is read-bearing, the dispatcher copies the
    payload to the caller's buffer. *)
Theorem kgsl_ioctl_copies_out_only_on_success (dev_priv cmd arg : Z)
  (w : world P) (uptr : option (list Z)) (w1 : world P) (ret_ : Z)
  (data : list Z) (w2 : world P) :
  let dcmd := dispatched_cmd cmd in
  let func := fst (kgsl_ioctl_select P kgsl_ioctl_funcs (_IOC_NR cmd)) in
  let lock := snd (kgsl_ioctl_select P kgsl_ioctl_funcs (_IOC_NR cmd)) in
  kgsl_ioctl_copy_in P dcmd arg w = Ok (inr uptr) w1 ->
  func dev_priv dcmd uptr (world_for_handler lock w1) = Ok (ret_, data) w2 ->
  exists r w' evs,
    kgsl_ioctl P kgsl_ioctl_funcs dev_priv cmd arg w = Ok r w' /\
    w_trace w' = w_trace w2 ++ evs /\
    (ret_ <> 0 ->
     r = ret_ /\ w_user w' = w_user w2 /\
     forallb (fun ev => negb (is_copy_to_user ev)) evs = true) /\
    (ret_ = 0 -> Z.land dcmd IOC_OUT <> 0 ->
     In (EvCopyToUser arg (_IOC_SIZE dcmd)) evs /\
     w_user w'
     = fst (copy_to_user (w_user w2) arg
                         (firstn (Z.to_nat (_IOC_SIZE dcmd)) data))).
Proof.
  intros dcmd func lock Hcopy Hfunc.
  rewrite (kgsl_ioctl_run dev_priv cmd arg w uptr w1 ret_ data w2
             Hcopy Hfunc).
  fold dcmd. fold lock.
  destruct (Z.eq_dec ret_ 0) as [Hz|Hnz].
  - subst ret_.
    destruct (Z.eq_dec (Z.land dcmd IOC_OUT) 0) as [Hno|Hout].
    + unfold kgsl_ioctl_finish. rewrite Hno. cbn [Z.eqb andb negb].
      destruct lock.
      * destruct (kgsl_check_idle_locked_run w2)
          as (d1 & evs1 & Hidle & _).
        unfold bind at 1. unfold bind at 1. rewrite Hidle.
        unfold mutex_unlock, modify_dev, bind, ret, kgsl_ioctl_done, emit.
        cbn [w_dev w_hw w_proc w_user w_kzalloc w_trace].
        destruct (USTACK_SIZE <=? _IOC_SIZE dcmd);
          cbn [w_dev w_hw w_proc w_user w_kzalloc w_trace];
          do 3 eexists; (split; [reflexivity|]);
          cbn [w_trace]; rewrite <- ?app_assoc;
          (split; [reflexivity|]); split; intros; contradiction.
      * unfold bind, ret, kgsl_ioctl_done, emit.
        destruct (USTACK_SIZE <=? _IOC_SIZE dcmd);
          cbn [w_dev w_hw w_proc w_user w_kzalloc w_trace].
        -- do 3 eexists. split; [reflexivity|]. cbn [w_trace].
           split; [reflexivity|]. split; intros; contradiction.
        -- exists 0, w2, []. rewrite app_nil_r.
           split; [reflexivity|]. split; [reflexivity|].
           split; intros; contradiction.
    + destruct (kgsl_ioctl_finish_succeeded lock dcmd arg data w2 Hout)
        as (d' & evs & Hfin & Hin).
      rewrite Hfin. do 3 eexists. split; [reflexivity|].
      cbn [w_trace w_user]. split; [reflexivity|].
      split; [intros; contradiction|].
      intros _ _. split; [exact Hin | reflexivity].
  - destruct (kgsl_ioctl_finish_failed lock dcmd arg ret_ data w2 Hnz)
      as (d' & evs & Hfin & Hno).
    rewrite Hfin. do 3 eexists. split; [reflexivity|].
    cbn [w_trace w_user]. split; [reflexivity|].
    split; [|intros; contradiction].
    intros _. split; [reflexivity|]. split; [reflexivity | exact Hno].
Qed.

(* Before the handler is chosen the request can only fail, and user
   memory is not written. *)
Lemma kgsl_ioctl_copy_in_failed (dev_priv cmd arg : Z) (w : world P)
  (err : Z) (w1 : world P) :
  kgsl_ioctl_copy_in P (dispatched_cmd cmd) arg w = Ok (inl err) w1 ->
  exists w',
    kgsl_ioctl P kgsl_ioctl_funcs dev_priv cmd arg w = Ok err w' /\
    w_user w' = w_user w1.
Proof.
  intros Hcopy. unfold kgsl_ioctl. fold (dispatched_cmd cmd).
  unfold bind at 1. rewrite Hcopy.
  unfold kgsl_ioctl_done, bind, ret, emit.
  destruct (USTACK_SIZE <=? _IOC_SIZE (dispatched_cmd cmd));
    eexists; split; reflexivity.
Qed.

End DispatchFacts.

Lemma kgsl_ioctl_copies_out_only_on_success_witness :
  let cmd := 2147745808 in
  let w := sample_user_world in
  let w2 := world_for_handler sample_platform true w in
  kgsl_ioctl_copy_in sample_platform (dispatched_cmd sample_platform cmd)
                     100 w = Ok (inr (Some [0; 0; 0; 0])) w /\
  - EINVAL <> 0 /\
  exists w',
    kgsl_ioctl sample_platform sample_ioctl_funcs 1 cmd 100 w
    = Ok (- EINVAL) w' /\
    w_user w' = sample_umem.
Proof.
  cbv zeta.
  assert (Hcopy :
    kgsl_ioctl_copy_in sample_platform
      (dispatched_cmd sample_platform 2147745808) 100 sample_user_world
    = Ok (inr (Some [0; 0; 0; 0])) sample_user_world).
  { vm_compute. reflexivity. }
  split; [exact Hcopy|]. split; [discriminate|].
  destruct (kgsl_ioctl_copies_out_only_on_success sample_platform
              sample_ioctl_funcs 1 2147745808 100 sample_user_world
              (Some [0; 0; 0; 0]) sample_user_world (- EINVAL) [1; 2; 3; 4]
              (world_for_handler sample_platform true sample_user_world)
              Hcopy eq_refl)
    as (r & w' & evs & Hrun & _ & Hfail & _).
  destruct Hfail as (Hr & Hu & _); [discriminate|].
  exists w'. subst r. split; [exact Hrun | exact Hu].
Defined.

(** ** Contexts and closing a handle *)

Section ContextFacts.

Context (P : platform).

Local Abbreviation drawctxt_destroy_frees := (drawctxt_destroy_frees P).
Local Abbreviation drawctxt_create_cleans_up :=
  (drawctxt_create_cleans_up P).
Local Abbreviation release_effects := (release_effects P).

Lemma idr_get_next_from_app (pre post : list (option kgsl_context))
  (i next : Z) :
  (forall j c, nth_error pre j = Some (Some c) -> i + Z.of_nat j < next) ->
  idr_get_next_from i (pre ++ post) next
  = idr_get_next_from (i + Z.of_nat (List.length pre)) post next.
Proof.
  revert i. induction pre as [|slot pre IH]; intros i H.
  - simpl. rewrite Z.add_0_r. reflexivity.
  - cbn [app idr_get_next_from List.length].
    assert (Hrest : forall j c, nth_error pre j = Some (Some c) ->
                                 i + 1 + Z.of_nat j < next).
    { intros j c Hj. specialize (H (S j) c Hj). lia. }
    rewrite (IH (i + 1) Hrest).
    replace (i + 1 + Z.of_nat (List.length pre))
      with (i + Z.of_nat (S (List.length pre))) by lia.
    destruct slot as [c|]; [|reflexivity].
    specialize (H O c eq_refl).
    destruct (next <=? i) eqn:E; [|reflexivity].
    apply Z.leb_le in E. simpl in H. lia.
Qed.

Lemma idr_set_app (pre rest : list (option kgsl_context))
  (x v : option kgsl_context) :
  idr_set (pre ++ x :: rest) (List.length pre) v = pre ++ v :: rest.
Proof.
  induction pre as [|slot pre IH]; [reflexivity|].
  simpl. rewrite IH. reflexivity.
Qed.

Lemma nth_error_snoc_some (pre : list (option kgsl_context))
  (x : option kgsl_context) (j : nat) (c : kgsl_context) :
  nth_error (pre ++ [x]) j = Some (Some c) ->
  nth_error pre j = Some (Some c)
  \/ (j = List.length pre /\ x = Some c).
Proof.
  intros H. destruct (Nat.lt_ge_cases j (List.length pre)) as [Hlt|Hge].
  - left. rewrite nth_error_app1 in H by exact Hlt. exact H.
  - right. rewrite nth_error_app2 in H by exact Hge.
    destruct (j - List.length pre)%nat as [|n] eqn:E.
    + simpl in H. split; [lia | congruence].
    + simpl in H. destruct n; discriminate.
Qed.

(* The context loop of kgsl_release in closed form: started behind the
   slots [pre], it clears the slots of the handle among [post]. *)
Lemma release_contexts_run (dev_priv : Z)
  (post : list (option kgsl_context)) :
  drawctxt_destroy_frees ->
  forall (pre : list (option kgsl_context)) (next : Z) (fuel : nat)
         (w : world P),
    context_idr (w_dev w) = pre ++ post ->
    0 <= next <= Z.of_nat (List.length pre) ->
    (forall j c, nth_error pre j = Some (Some c) -> Z.of_nat j < next) ->
    (forall j c, nth_error post j = Some (Some c) ->
                 ctx_id c = Z.of_nat (List.length pre + j)) ->
    (List.length post < fuel)%nat ->
    release_contexts P fuel dev_priv next w
    = Ok true
         (mk_world
            (set_context_idr (pre ++ release_table dev_priv post) (w_dev w))
            (fst (release_effects dev_priv (w_hw w) post))
            (w_proc w) (w_user w) (w_kzalloc w)
            (w_trace w ++ snd (release_effects dev_priv (w_hw w) post))).
Proof.
  intros Hfree.
  induction post as [|slot post IH];
    intros pre next fuel w Ht Hnext Hpre Hwf Hfuel.
  - destruct fuel as [|fuel]; [simpl in Hfuel; lia|].
    destruct w as [d h p u k t]. destruct d. simpl in *. subst.
    unfold bind, get_dev. simpl. unfold idr_get_next.
    rewrite idr_get_next_from_app by (intros j c Hj; simpl; eauto).
    simpl. unfold ret. rewrite !app_nil_r. reflexivity.
  - destruct slot as [c|].
    + destruct fuel as [|fuel]; [simpl in Hfuel; lia|].
      assert (Hid : ctx_id c = Z.of_nat (List.length pre)).
      { rewrite (Hwf O c eq_refl). f_equal. lia. }
      assert (Hget : idr_get_next (pre ++ Some c :: post) next
                     = Some (Z.of_nat (List.length pre), c)).
      { unfold idr_get_next.
        rewrite idr_get_next_from_app by (intros j c' Hj; simpl; eauto).
        cbn [idr_get_next_from]. rewrite Z.add_0_l.
        destruct (next <=? Z.of_nat (List.length pre)) eqn:E;
          [reflexivity|].
        apply Z.leb_gt in E. lia. }
      assert (Hpre' : forall x, x = None \/ x = Some c ->
                forall j c', nth_error (pre ++ [x]) j = Some (Some c') ->
                             Z.of_nat j < Z.of_nat (List.length pre) + 1).
      { intros x Hx j c' Hj.
        destruct (nth_error_snoc_some _ _ _ _ Hj) as [Hin|[Hj' _]].
        - specialize (Hpre j c' Hin). lia.
        - subst j. lia. }
      assert (Hwf' : forall x j c',
                nth_error post j = Some (Some c') ->
                ctx_id c' = Z.of_nat (List.length (pre ++ [x]) + j)).
      { intros x j c' Hj. rewrite (Hwf (S j) c' Hj).
        rewrite length_app. simpl. f_equal. lia. }
      destruct w as [d h p u k t]. destruct d. simpl in Ht. subst.
      cbn [release_contexts]. unfold bind at 1. unfold get_dev at 1.
      cbn [w_dev context_idr]. rewrite Hget.
      cbn [release_table map owned_by release_effects].
      destruct (ctx_dev_priv c =? dev_priv) eqn:Eo.
      * destruct (Hfree h c) as [Hpayload Hsame].
        unfold bind at 1. unfold bind at 1.
        unfold call_drawctxt.
        unfold bind at 1. unfold emit at 1.
        unfold bind at 1. unfold get_hw at 1.
        cbn [w_dev w_hw w_proc w_user w_kzalloc w_trace].
        destruct (device_drawctxt_destroy (ftbl P) h c) as [[h' c'] r]
          eqn:Ed.
        cbn [fst snd] in Hpayload, Hsame |- *.
        unfold bind at 1. unfold put_hw at 1.
        unfold bind at 1. unfold modify_dev at 1.
        cbn [w_dev w_hw w_proc w_user w_kzalloc w_trace context_idr
             set_context_idr dev_id state requested_state active_cnt
             open_count nap_allowed interval_timeout memqueue mutex
             suspend_gate hwaccess_gate].
        replace (Z.of_nat (List.length pre) <? 0) with false
          by (symmetry; apply Z.ltb_ge; lia).
        rewrite Nat2Z.id, idr_set_app.
        unfold ret at 1. cbn [fst].
        unfold kgsl_destroy_context.
        rewrite Hpayload. cbn [Z.eqb negb].
        unfold bind at 1. unfold BUG_ON at 1.
        unfold bind at 1. unfold emit at 1.
        unfold modify_dev at 1.
        cbn [w_dev w_hw w_proc w_user w_kzalloc w_trace context_idr
             set_context_idr dev_id state requested_state active_cnt
             open_count nap_allowed interval_timeout memqueue mutex
             suspend_gate hwaccess_gate].
        unfold idr_remove. rewrite Hsame, Hid.
        replace (Z.of_nat (List.length pre) <? 0) with false
          by (symmetry; apply Z.ltb_ge; lia).
        rewrite Nat2Z.id, idr_set_app.
        rewrite (IH (pre ++ [None]) (Z.of_nat (List.length pre) + 1) fuel).
        -- cbn [w_dev w_hw w_proc w_user w_kzalloc w_trace context_idr
                set_context_idr dev_id state requested_state active_cnt
                open_count nap_allowed interval_timeout memqueue mutex
                suspend_gate hwaccess_gate].
           destruct (release_effects dev_priv h' post) as [h'' evs].
           cbn [fst snd]. rewrite <- !app_assoc. reflexivity.
        -- cbn [w_dev context_idr]. rewrite <- app_assoc. reflexivity.
        -- rewrite length_app. simpl. lia.
        -- intros j c'' Hj.
           exact (Hpre' None (or_introl eq_refl) j c'' Hj).
        -- apply Hwf'.
        -- simpl in Hfuel. lia.
      * unfold bind at 1. unfold ret at 1.
        rewrite (IH (pre ++ [Some c]) (Z.of_nat (List.length pre) + 1) fuel).
        -- cbn [w_dev w_hw w_proc w_user w_kzalloc w_trace context_idr
                set_context_idr dev_id state requested_state active_cnt
                open_count nap_allowed interval_timeout memqueue mutex
                suspend_gate hwaccess_gate].
           rewrite <- !app_assoc. reflexivity.
        -- cbn [w_dev context_idr]. rewrite <- app_assoc. reflexivity.
        -- rewrite length_app. simpl. lia.
        -- intros j c'' Hj.
           exact (Hpre' (Some c) (or_intror eq_refl) j c'' Hj).
        -- apply Hwf'.
        -- simpl in Hfuel. lia.
    + rewrite (IH (pre ++ [None]) next fuel w).
      * cbn [release_table map owned_by release_effects].
        rewrite <- !app_assoc. reflexivity.
      * rewrite Ht, <- app_assoc. reflexivity.
      * rewrite length_app. simpl. lia.
      * intros j c Hj.
        destruct (nth_error_snoc_some _ _ _ _ Hj) as [Hin|[_ Hx]];
          [exact (Hpre j c Hin) | discriminate].
      * intros j c Hj. rewrite (Hwf (S j) c Hj).
        rewrite length_app. simpl. f_equal. lia.
      * simpl in Hfuel. lia.
Qed.

Lemma idr_find_release_table (dev_priv : Z)
  (t : list (option kgsl_context)) (id : Z) :
  idr_find (release_table dev_priv t) id
  = match idr_find t id with
    | Some c => if ctx_dev_priv c =? dev_priv then None else Some c
    | None => None
    end.
Proof.
  unfold idr_find, release_table. destruct (id <? 0); [reflexivity|].
  rewrite nth_error_map.
  destruct (nth_error t (Z.to_nat id)) as [[c|]|]; simpl; try reflexivity.
Qed.

Lemma kgsl_find_context_release_table (d : kgsl_device)
  (t : list (option kgsl_context)) (dev_priv id : Z) :
  context_idr d = release_table dev_priv t ->
  kgsl_find_context d dev_priv id = None.
Proof.
  intros Ht. unfold kgsl_find_context. rewrite Ht.
  rewrite idr_find_release_table.
  destruct (idr_find t id) as [c|]; [|reflexivity].
  destruct (ctx_dev_priv c =? dev_priv) eqn:E; [reflexivity|].
  rewrite E. reflexivity.
Qed.

Lemma ftbl_calls_release_effects (dev_priv : Z)
  (post : list (option kgsl_context)) (h : hw P) :
  ~ In DEVICE_STOP (ftbl_calls (snd (release_effects dev_priv h post))).
Proof.
  revert h. induction post as [|slot post IH]; intros h; [simpl; tauto|].
  destruct slot as [c|]; cbn [release_effects]; [|apply IH].
  destruct (ctx_dev_priv c =? dev_priv); [|apply IH].
  specialize (IH (fst (fst (device_drawctxt_destroy (ftbl P) h c)))).
  destruct (release_effects dev_priv _ post) as [h' evs].
  cbn [snd] in *. simpl. intros [H|H]; [discriminate | exact (IH H)].
Qed.

Lemma destroyed_entries_release_effects (dev_priv : Z)
  (post : list (option kgsl_context)) (h : hw P) :
  destroyed_entries (snd (release_effects dev_priv h post)) = [].
Proof.
  revert h. induction post as [|slot post IH]; intros h; [reflexivity|].
  destruct slot as [c|]; cbn [release_effects]; [|apply IH].
  destruct (ctx_dev_priv c =? dev_priv); [|apply IH].
  specialize (IH (fst (fst (device_drawctxt_destroy (ftbl P) h c)))).
  destruct (release_effects dev_priv _ post) as [h' evs].
  cbn [snd] in *. simpl. exact IH.
Qed.

Lemma destroy_calls_release_effects (dev_priv : Z)
  (post : list (option kgsl_context)) (h : hw P) :
  destroy_calls (snd (release_effects dev_priv h post)) = [].
Proof.
  revert h. induction post as [|slot post IH]; intros h; [reflexivity|].
  destruct slot as [c|]; cbn [release_effects]; [|apply IH].
  destruct (ctx_dev_priv c =? dev_priv); [|apply IH].
  specialize (IH (fst (fst (device_drawctxt_destroy (ftbl P) h c)))).
  destruct (release_effects dev_priv _ post) as [h' evs].
  cbn [snd] in *. cbn [destroy_calls filter is_destroy_call]. exact IH.
Qed.

Lemma context_frees_app (a b : list event) :
  context_frees (a ++ b) = context_frees a ++ context_frees b.
Proof. unfold context_frees. apply flat_map_app. Qed.

Lemma context_frees_destroy (entry : kgsl_mem_entry) :
  context_frees (kgsl_destroy_mem_entry P entry) = [].
Proof.
  unfold kgsl_destroy_mem_entry, kgsl_put_phys_file.
  destruct (flag_set _ (KGSL_MEMFLAGS_VMALLOC_MEM P));
    [reflexivity|].
  destruct (flag_set _ (KGSL_MEMFLAGS_HOSTADDR P) && _);
    [reflexivity|].
  destruct (file_ptr entry =? 0); reflexivity.
Qed.

Lemma context_frees_destroy_all (l : list kgsl_mem_entry) :
  context_frees (flat_map (kgsl_destroy_mem_entry P) l) = [].
Proof.
  induction l as [|e l IH]; [reflexivity|].
  cbn [flat_map]. rewrite context_frees_app, context_frees_destroy.
  exact IH.
Qed.

Lemma memqueue_cleanup_loop_spec (private : Z) (q : list kgsl_mem_entry) :
  snd (memqueue_cleanup_loop P private q)
  = filter (fun e => negb (priv e =? private)) q /\
  destroyed_entries (fst (memqueue_cleanup_loop P private q))
  = filter (fun e => priv e =? private) q /\
  ftbl_calls (fst (memqueue_cleanup_loop P private q)) = [] /\
  context_frees (fst (memqueue_cleanup_loop P private q)) = [] /\
  regions_destroyed P (fst (memqueue_cleanup_loop P private q))
    (filter (fun e => priv e =? private) q).
Proof.
  unfold regions_destroyed.
  induction q as [|entry rest IH]; [repeat split|].
  cbn [memqueue_cleanup_loop filter].
  destruct (memqueue_cleanup_loop P private rest) as [evs q'].
  cbn [fst snd] in IH. destruct IH as (Hq & Hd & Hc & Hk & Hf).
  destruct (priv entry =? private); cbn [negb fst snd].
  - rewrite destroyed_entries_app, destroyed_entries_destroy,
      ftbl_calls_app, ftbl_calls_destroy, context_frees_app,
      context_frees_destroy, destroy_calls_app, destroy_calls_destroy,
      Hd, Hc, Hq, Hk, Hf.
    repeat split.
  - rewrite Hq, Hd, Hc, Hk, Hf. repeat split.
Qed.

Lemma kgsl_memqueue_cleanup_run (private : Z) (w : world P) :
  mutex (w_dev w) = true ->
  kgsl_memqueue_cleanup P private w
  = Ok tt
       (mk_world
          (set_memqueue
             (snd (memqueue_cleanup_loop P private (memqueue (w_dev w))))
             (w_dev w))
          (w_hw w) (w_proc w) (w_user w) (w_kzalloc w)
          (w_trace w
             ++ fst (memqueue_cleanup_loop P private (memqueue (w_dev w))))).
Proof.
  intros Hm. unfold kgsl_memqueue_cleanup, bind, get_dev, BUG_ON.
  rewrite Hm. simpl.
  destruct (memqueue_cleanup_loop P private (memqueue (w_dev w))).
  reflexivity.
Qed.

Lemma ftbl_calls_destroy_all (l : list kgsl_mem_entry) :
  ftbl_calls (flat_map (kgsl_destroy_mem_entry P) l) = [].
Proof.
  induction l as [|e l IH]; [reflexivity|].
  cbn [flat_map]. rewrite ftbl_calls_app, ftbl_calls_destroy. exact IH.
Qed.

Lemma kgsl_put_process_private_run (w : world P) :
  exists p' evs,
    kgsl_put_process_private P w
    = Ok tt (mk_world (w_dev w) (w_hw w) p' (w_user w) (w_kzalloc w)
                      (w_trace w ++ evs)) /\
    ftbl_calls evs = [] /\
    context_frees evs = [] /\
    regions_destroyed P evs
      (if u32 (refcnt (w_proc w) - 1) =? 0 then mem_list (w_proc w)
       else []).
Proof.
  destruct w as [d h p u k t].
  unfold kgsl_put_process_private, bind, get_proc, put_proc.
  cbn [w_dev w_hw w_proc w_user w_kzalloc w_trace refcnt pid pagetable
       mem_list].
  destruct (u32 (refcnt p - 1) =? 0); cbn [negb].
  - unfold emit, emit_all, bind, put_proc, ret, set_mem_list.
    cbn [w_dev w_hw w_proc w_user w_kzalloc w_trace refcnt pid pagetable
         mem_list].
    destruct (CONFIG_MSM_KGSL_MMU P && negb (pagetable p =? 0));
      cbn [w_dev w_hw w_proc w_user w_kzalloc w_trace refcnt pid pagetable
           mem_list].
    + exists (mk_process (pid p) (u32 (refcnt p - 1)) (pagetable p) []),
        ([EvLog "Memory usage: vmalloc (%d/%d) exmem (%d/%d)" [];
          EvProcessUninitSysfs (pid p); EvProcessListDel (pid p)]
           ++ flat_map (kgsl_destroy_mem_entry P) (mem_list p)
           ++ [EvMmuPutPagetable (pagetable p); EvKfreeProcess (pid p)]).
      split; [rewrite <- !app_assoc; reflexivity|]. split; [|split].
      * rewrite !ftbl_calls_app, ftbl_calls_destroy_all. reflexivity.
      * rewrite !context_frees_app, context_frees_destroy_all.
        reflexivity.
      * unfold regions_destroyed.
        rewrite !destroy_calls_app, (destroy_calls_destroy_each P).
        cbn [destroy_calls filter is_destroy_call app].
        apply app_nil_r.
    + exists (mk_process (pid p) (u32 (refcnt p - 1)) (pagetable p) []),
        ([EvLog "Memory usage: vmalloc (%d/%d) exmem (%d/%d)" [];
          EvProcessUninitSysfs (pid p); EvProcessListDel (pid p)]
           ++ flat_map (kgsl_destroy_mem_entry P) (mem_list p)
           ++ [EvKfreeProcess (pid p)]).
      split; [rewrite <- !app_assoc; reflexivity|]. split; [|split].
      * rewrite !ftbl_calls_app, ftbl_calls_destroy_all. reflexivity.
      * rewrite !context_frees_app, context_frees_destroy_all.
        reflexivity.
      * unfold regions_destroyed.
        rewrite !destroy_calls_app, (destroy_calls_destroy_each P).
        cbn [destroy_calls filter is_destroy_call app].
        apply app_nil_r.
  - unfold ret. exists (mk_process (pid p) (u32 (refcnt p - 1))
                                   (pagetable p) (mem_list p)), [].
    rewrite app_nil_r. repeat split.
Qed.

Ltac world_cbn :=
  cbn [w_dev w_hw w_proc w_user w_kzalloc w_trace context_idr
       set_context_idr set_open_count set_state set_memqueue set_mutex
       dev_id state requested_state active_cnt open_count nap_allowed
       interval_timeout memqueue mutex suspend_gate hwaccess_gate
       fst snd].

(* kgsl_release in closed form, as far as the device, the queue and the
   trace go *)
Lemma kgsl_release_run (w : world P) (dev_priv : Z) :
  let d1 := kgsl_check_suspended P (set_mutex true (w_dev w)) in
  let released := release_effects dev_priv (w_hw w) (context_idr d1) in
  mutex d1 = true ->
  drawctxt_destroy_frees ->
  idr_wf (context_idr d1) ->
  exists result w' tail,
    kgsl_release P dev_priv w = Ok (Some result) w' /\
    w_trace w' = w_trace w ++ snd released ++ tail /\
    context_frees tail = [] /\
    context_idr (w_dev w') = release_table dev_priv (context_idr d1) /\
    memqueue (w_dev w')
    = filter (fun e => negb (priv e =? pid (w_proc w))) (memqueue d1) /\
    (forall e, In e (filter (fun e => priv e =? pid (w_proc w))
                            (memqueue d1)) ->
               In e (destroyed_entries tail)) /\
    regions_destroyed P tail
      (filter (fun e => priv e =? pid (w_proc w)) (memqueue d1)
       ++ (if u32 (refcnt (w_proc w) - 1) =? 0 then mem_list (w_proc w)
           else [])) /\
    (open_count d1 = 0 ->
     state (w_dev w') = KGSL_STATE_INIT /\
     In DEVICE_STOP (ftbl_calls tail)) /\
    (open_count d1 <> 0 ->
     state (w_dev w') = state d1 /\ ftbl_calls tail = []).
Proof.
  intros d1 released Hm Hfree Hwf.
  destruct w as [d h p u k t]. cbn [w_dev w_proc w_trace w_hw] in *.
  pose proof (release_contexts_run dev_priv (context_idr d1) Hfree []
                0 (S (List.length (context_idr d1)))
                (mk_world d1 h p u k t)) as Hloop.
  cbn [w_dev w_hw w_proc w_user w_kzalloc w_trace app List.length]
    in Hloop.
  specialize (Hloop eq_refl ltac:(simpl; lia)
                ltac:(intros j c Hj; destruct j; discriminate)
                Hwf ltac:(lia)).
  unfold kgsl_release.
  unfold bind at 1. unfold mutex_lock, modify_dev at 1.
  unfold bind at 1. unfold modify_dev at 1. world_cbn.
  fold d1.
  unfold bind at 1. unfold get_dev at 1. world_cbn.
  unfold bind at 1. rewrite Hloop. cbn [negb].
  clear Hloop. subst released. clearbody d1. destruct d1.
  cbn [mutex] in Hm. subst.
  world_cbn.
  set (T := release_table dev_priv context_idr0).
  set (R := release_effects dev_priv h context_idr0).
  unfold bind, get_dev, put_dev, get_proc, mutex_unlock, modify_dev, emit,
    ret.
  world_cbn.
  destruct (memqueue_cleanup_loop_spec (pid p) memqueue0)
    as (Hq & Hd & Hc & Hk & Hf).
  destruct (open_count0 - 1 =? -1) eqn:Eo.
  - rewrite call_ftbl_run. world_cbn.
    rewrite kgsl_memqueue_cleanup_run by reflexivity. world_cbn.
    match goal with
    | |- context [kgsl_put_process_private P ?w0] =>
        destruct (kgsl_put_process_private_run w0)
          as (p' & evsP & Hput & HcP & HkP & HfP);
        rewrite Hput
    end.
    world_cbn. do 3 eexists. split; [reflexivity|]. world_cbn.
    split; [rewrite <- !app_assoc; reflexivity|].
    split.
    { rewrite !context_frees_app, Hk, HkP. reflexivity. }
    split; [reflexivity|].
    split; [exact Hq|].
    split.
    { intros e Hin. rewrite !destroyed_entries_app, Hd, !in_app_iff.
      tauto. }
    split.
    { unfold regions_destroyed in *. cbn [w_proc] in HfP.
      rewrite !destroy_calls_app, Hf, HfP, flat_map_app.
      cbn [destroy_calls filter is_destroy_call app].
      rewrite ?app_nil_r. reflexivity. }
    split.
    { intros _. split; [reflexivity|].
      rewrite !ftbl_calls_app, !in_app_iff. simpl. tauto. }
    intros Hne. apply Z.eqb_eq in Eo. lia.
  - rewrite kgsl_memqueue_cleanup_run by reflexivity. world_cbn.
    match goal with
    | |- context [kgsl_put_process_private P ?w0] =>
        destruct (kgsl_put_process_private_run w0)
          as (p' & evsP & Hput & HcP & HkP & HfP);
        rewrite Hput
    end.
    world_cbn. do 3 eexists. split; [reflexivity|]. world_cbn.
    split; [rewrite <- !app_assoc; reflexivity|].
    split.
    { rewrite !context_frees_app, Hk, HkP. reflexivity. }
    split; [reflexivity|].
    split; [exact Hq|].
    split.
    { intros e Hin. rewrite !destroyed_entries_app, Hd, !in_app_iff.
      tauto. }
    split.
    { unfold regions_destroyed in *. cbn [w_proc] in HfP.
      rewrite !destroy_calls_app, Hf, HfP, flat_map_app.
      cbn [destroy_calls filter is_destroy_call app].
      rewrite ?app_nil_r. reflexivity. }
    split.
    { intros H0. apply Z.eqb_neq in Eo. lia. }
    intros _. split; [reflexivity|].
    rewrite !ftbl_calls_app, Hc, HcP. reflexivity.
Qed.

(* The calls made while the contexts of a handle are released come in
   pairs: payload first, table entry second. *)
Lemma release_effects_pairs (dev_priv : Z)
  (post : list (option kgsl_context)) (h : hw P) :
  drawctxt_destroy_frees ->
  payload_then_entry (snd (release_effects dev_priv h post)).
Proof.
  intros Hfree. revert h.
  induction post as [|slot post IH]; intros h; [constructor|].
  destruct slot as [c|]; cbn [release_effects]; [|apply IH].
  destruct (ctx_dev_priv c =? dev_priv); [|apply IH].
  specialize (IH (fst (fst (device_drawctxt_destroy (ftbl P) h c)))).
  destruct (release_effects dev_priv _ post) as [h' evs].
  cbn [snd] in *. constructor; [|exact IH].
  apply Hfree.
Qed.


Lemma nth_error_idr_set (t : list (option kgsl_context)) (n : nat)
  (v : option kgsl_context) :
  (n < List.length t)%nat -> nth_error (idr_set t n v) n = Some v.
Proof.
  revert n. induction t as [|slot t IH]; intros n Hn; [simpl in Hn; lia|].
  destruct n as [|n]; [reflexivity|].
  simpl. apply IH. simpl in Hn. lia.
Qed.

Lemma idr_set_length (t : list (option kgsl_context)) (n : nat)
  (v : option kgsl_context) :
  List.length (idr_set t n v) = List.length t.
Proof.
  revert n. induction t as [|slot t IH]; intros n; [reflexivity|].
  destruct n as [|n]; [reflexivity|]. simpl. rewrite IH. reflexivity.
Qed.

(* The destroy-context request in closed form *)
Lemma kgsl_ioctl_drawctxt_destroy_run (w : world P) (dev_priv : Z)
  (param : kgsl_drawctxt_destroy) (c : kgsl_context) :
  drawctxt_destroy_frees ->
  kgsl_find_context (w_dev w) dev_priv (dd_drawctxt_id param) = Some c ->
  ctx_id c = dd_drawctxt_id param ->
  let r := device_drawctxt_destroy (ftbl P) (w_hw w) c in
  exists w',
    kgsl_ioctl_drawctxt_destroy P dev_priv param w = Ok (snd r) w' /\
    w_trace w'
    = w_trace w ++ [EvFtbl (DEVICE_DRAWCTXT_DESTROY c);
                    EvKfreeContext (snd (fst r))] /\
    idr_find (context_idr (w_dev w')) (dd_drawctxt_id param) = None.
Proof.
  intros Hfree Hfind Hid r.
  destruct (Hfree (w_hw w) c) as [Hpayload Hsame]. fold r in Hpayload, Hsame.
  destruct w as [d h p u k t]. destruct d.
  cbn [w_dev w_hw w_trace] in *.
  unfold kgsl_ioctl_drawctxt_destroy.
  unfold bind at 1. unfold get_dev at 1. cbn [w_dev]. rewrite Hfind.
  unfold kgsl_find_context, idr_find in Hfind. cbn [context_idr] in Hfind.
  set (id := dd_drawctxt_id param) in *.
  destruct (id <? 0) eqn:Eneg; [discriminate|].
  destruct (nth_error context_idr0 (Z.to_nat id)) as [slot|] eqn:Enth;
    [|discriminate].
  assert (Hlen : (Z.to_nat id < List.length context_idr0)%nat).
  { apply nth_error_Some. rewrite Enth. discriminate. }
  unfold call_drawctxt.
  unfold bind at 1. unfold bind at 1. unfold emit at 1.
  unfold bind at 1. unfold get_hw at 1. world_cbn.
  subst r. destruct (device_drawctxt_destroy (ftbl P) h c) as [[h' c'] res].
  cbn [fst snd] in *.
  unfold bind at 1. unfold put_hw at 1.
  unfold bind at 1. unfold modify_dev at 1. world_cbn.
  rewrite Eneg. unfold ret at 1. cbn [fst snd].
  unfold kgsl_destroy_context. rewrite Hpayload. cbn [Z.eqb negb].
  unfold bind at 1. unfold bind at 1. unfold BUG_ON at 1.
  unfold bind at 1. unfold emit at 1. unfold modify_dev at 1.
  world_cbn. unfold ret.
  eexists. split; [reflexivity|]. world_cbn.
  split; [rewrite <- !app_assoc; reflexivity|].
  unfold idr_remove, idr_find. rewrite Hsame, Hid, Eneg.
  rewrite nth_error_idr_set; [reflexivity|].
  rewrite idr_set_length. exact Hlen.
Qed.

(* The create-context request is the third caller of
   kgsl_destroy_context: when the backend fails it frees the context it
   has just made, without a call to the backend.  With a backend that
   leaves no payload on a context it failed to create, the request always
   returns. *)
Lemma kgsl_ioctl_drawctxt_create_returns (w : world P) (dev_priv : Z)
  (param : kgsl_drawctxt_create) :
  drawctxt_create_cleans_up ->
  exists result w',
    kgsl_ioctl_drawctxt_create P dev_priv param w = Ok result w'.
Proof.
  intros Hclean.
  destruct w as [d h p u k t].
  unfold kgsl_ioctl_drawctxt_create, kgsl_create_context.
  unfold bind at 1. unfold bind at 1. unfold kzalloc at 1.
  cbn [w_kzalloc].
  assert (Hmade : forall k',
    exists result w',
      (let (created, w0) :=
         (let (tbl, id) :=
            idr_get_new_from 0 (context_idr d)
                             (fun id => mk_context id dev_priv 0) in
          (Some (mk_context id dev_priv 0),
           mk_world (set_context_idr tbl d) h p u k' t)) in
       match created with
       | Some context =>
           (r <- call_drawctxt P
                   (DEVICE_DRAWCTXT_CREATE (dc_flags param) context)
                   (ctx_id context)
                   (fun h0 => device_drawctxt_create (ftbl P) h0 dev_priv
                                (dc_flags param) context) ;;
            (let (context0, result0) := r : kgsl_context * Z in
             let param0 :=
               mk_drawctxt_create (dc_flags param) (ctx_id context0) in
             (if negb (result0 =? 0)
              then kgsl_destroy_context P dev_priv (Some context0)
              else ret tt) ;;;
             ret (result0, param0))) w0
       | None => Ok (- ENOMEM, param) w0
       end) = Ok result w').
  { intros k'.
    destruct (idr_get_new_from 0 (context_idr d)
                (fun id => mk_context id dev_priv 0)) as [tbl id].
    unfold call_drawctxt.
    unfold bind at 1. unfold bind at 1. unfold bind at 1.
    unfold emit at 1. unfold bind at 1. unfold get_hw at 1. world_cbn.
    pose proof (Hclean h dev_priv (dc_flags param)
                       (mk_context id dev_priv 0)) as Hc.
    destruct (device_drawctxt_create (ftbl P) h dev_priv (dc_flags param)
                (mk_context id dev_priv 0)) as [[h' c'] res].
    cbn [fst snd] in Hc.
    unfold bind at 1. unfold put_hw at 1.
    unfold bind at 1. unfold modify_dev at 1. world_cbn.
    unfold ret at 1.
    destruct (res =? 0) eqn:Er; cbn [negb].
    - unfold bind, ret. do 2 eexists. reflexivity.
    - apply Z.eqb_neq in Er. specialize (Hc Er).
      unfold kgsl_destroy_context. rewrite Hc. cbn [Z.eqb negb].
      unfold bind, BUG_ON, emit, modify_dev, ret. do 2 eexists.
      reflexivity. }
  destruct k as [|[|] [|[|] k]]; cbn [negb].
  - unfold bind at 1. unfold kzalloc at 1. cbn [w_kzalloc negb].
    unfold bind at 1. unfold get_dev at 1. cbn [w_dev].
    specialize (Hmade []).
    destruct (idr_get_new_from 0 (context_idr d)
                (fun id => mk_context id dev_priv 0)) as [tbl id].
    unfold bind at 1. unfold put_dev at 1. world_cbn. unfold ret at 1.
    exact Hmade.
  - unfold bind at 1. unfold kzalloc at 1. cbn [w_kzalloc negb].
    unfold bind at 1. unfold get_dev at 1. cbn [w_dev].
    specialize (Hmade []).
    destruct (idr_get_new_from 0 (context_idr d)
                (fun id => mk_context id dev_priv 0)) as [tbl id].
    unfold bind at 1. unfold put_dev at 1. world_cbn. unfold ret at 1.
    exact Hmade.
  - unfold bind at 1. unfold kzalloc at 1. cbn [w_kzalloc negb].
    unfold bind at 1. unfold get_dev at 1. cbn [w_dev].
    specialize (Hmade k).
    destruct (idr_get_new_from 0 (context_idr d)
                (fun id => mk_context id dev_priv 0)) as [tbl id].
    unfold bind at 1. unfold put_dev at 1. world_cbn. unfold ret at 1.
    exact Hmade.
  - unfold bind at 1. unfold kzalloc at 1. cbn [w_kzalloc negb].
    unfold bind, emit, ret. do 2 eexists. reflexivity.
  - unfold ret. do 2 eexists. reflexivity.
  - unfold ret. do 2 eexists. reflexivity.
  - unfold ret. do 2 eexists. reflexivity.
Qed.

(* The create-context request whose backend call fails frees the context
   it has just made without a call to the backend: the check of
   kgsl_destroy_context fires exactly when the backend has left a payload
   on that context. *)
Lemma kgsl_ioctl_drawctxt_create_rollback (w : world P) (dev_priv : Z)
  (param : kgsl_drawctxt_create) :
  w_kzalloc w = [] ->
  let fresh :=
    idr_get_new_from 0 (context_idr (w_dev w))
                     (fun id => mk_context id dev_priv 0) in
  let context := mk_context (snd fresh) dev_priv 0 in
  let r := device_drawctxt_create (ftbl P) (w_hw w) dev_priv
                                  (dc_flags param) context in
  snd r <> 0 ->
  match kgsl_ioctl_drawctxt_create P dev_priv param w with
  | Ok (result, _) w' =>
      result = snd r /\ devctxt (snd (fst r)) = 0 /\
      w_trace w'
      = w_trace w
          ++ [EvFtbl (DEVICE_DRAWCTXT_CREATE (dc_flags param) context);
              EvKfreeContext (snd (fst r))]
  | Bug w' =>
      devctxt (snd (fst r)) <> 0 /\
      w_trace w'
      = w_trace w
          ++ [EvFtbl (DEVICE_DRAWCTXT_CREATE (dc_flags param) context)]
  end.
Proof.
  intros Hk fresh context r Hfail.
  destruct w as [d h p u k t]. cbn [w_kzalloc w_dev w_hw w_trace] in *.
  subst k.
  unfold kgsl_ioctl_drawctxt_create, kgsl_create_context.
  unfold bind at 1. unfold bind at 1. unfold kzalloc at 1.
  cbn [w_kzalloc negb].
  unfold bind at 1. unfold kzalloc at 1. cbn [w_kzalloc negb].
  unfold bind at 1. unfold get_dev at 1. cbn [w_dev].
  fold fresh. destruct fresh as [tbl id] eqn:Ef.
  cbn [snd] in context.
  unfold bind at 1. unfold put_dev at 1. world_cbn. unfold ret at 1.
  unfold call_drawctxt.
  unfold bind at 1. unfold bind at 1. unfold emit at 1.
  unfold bind at 1. unfold get_hw at 1. world_cbn.
  fold context. fold r.
  destruct r as [[h' c'] res] eqn:Er. cbn [fst snd] in *.
  unfold bind at 1. unfold put_hw at 1.
  unfold bind at 1. unfold modify_dev at 1. world_cbn.
  unfold ret at 1.
  apply Z.eqb_neq in Hfail. rewrite Hfail. cbn [negb].
  unfold kgsl_destroy_context.
  unfold bind at 1. unfold bind at 1. unfold BUG_ON at 1.
  destruct (devctxt c' =? 0) eqn:Ep; cbn [negb].
  - unfold bind, emit, modify_dev, ret. world_cbn.
    split; [reflexivity|].
    split; [apply Z.eqb_eq; exact Ep|].
    rewrite <- app_assoc. reflexivity.
  - world_cbn. split; [apply Z.eqb_neq; exact Ep | reflexivity].
Qed.

(** C9, as the code has it.  [kgsl_destroy_context] on a context whose
    payload is still there stops at its [BUG_ON]: nothing is freed and the
    table keeps the entry.  Let the backend release the payload of a draw
    context it is asked to destroy.  Then, on closing a handle, the calls
    about contexts come in pairs, the backend destroying the payload first
    and the context being freed second with its payload gone, and the
    close returns; and a destroy-context request for a context of the
    caller calls the backend first, frees the context second, returns,
    and leaves the slot of the context empty: on these two paths the check
    does not fire.  The remaining caller of [kgsl_destroy_context] is the
    create-context request whose backend call failed: it frees the
    context it has just made with no call to the backend in between, and
    the check fires there exactly when the backend has left a payload on
    the context it failed to set up. *)
Theorem kgsl_destroy_context_after_payload (w : world P) (dev_priv : Z) :
  (forall c, devctxt c <> 0 ->
             kgsl_destroy_context P dev_priv (Some c) w = Bug w) /\
  (drawctxt_destroy_frees ->
   (let d1 := kgsl_check_suspended P (set_mutex true (w_dev w)) in
    let released := release_effects dev_priv (w_hw w) (context_idr d1) in
    mutex d1 = true ->
    idr_wf (context_idr d1) ->
    exists result w' tail,
      kgsl_release P dev_priv w = Ok (Some result) w' /\
      w_trace w' = w_trace w ++ snd released ++ tail /\
      payload_then_entry (snd released) /\
      context_frees tail = []) /\
   (forall param c,
      kgsl_find_context (w_dev w) dev_priv (dd_drawctxt_id param)
      = Some c ->
      ctx_id c = dd_drawctxt_id param ->
      exists result w' c',
        kgsl_ioctl_drawctxt_destroy P dev_priv param w = Ok result w' /\
        w_trace w'
        = w_trace w ++ [EvFtbl (DEVICE_DRAWCTXT_DESTROY c);
                        EvKfreeContext c'] /\
        devctxt c' = 0 /\
        idr_find (context_idr (w_dev w')) (dd_drawctxt_id param) = None)) /\
  (forall param,
     w_kzalloc w = [] ->
     let fresh :=
       idr_get_new_from 0 (context_idr (w_dev w))
                        (fun id => mk_context id dev_priv 0) in
     let context := mk_context (snd fresh) dev_priv 0 in
     let r := device_drawctxt_create (ftbl P) (w_hw w) dev_priv
                                     (dc_flags param) context in
     snd r <> 0 ->
     match kgsl_ioctl_drawctxt_create P dev_priv param w with
     | Ok (result, _) w' =>
         result = snd r /\ devctxt (snd (fst r)) = 0 /\
         w_trace w'
         = w_trace w
             ++ [EvFtbl (DEVICE_DRAWCTXT_CREATE (dc_flags param) context);
                 EvKfreeContext (snd (fst r))]
     | Bug w' =>
         devctxt (snd (fst r)) <> 0 /\
         w_trace w'
         = w_trace w
             ++ [EvFtbl (DEVICE_DRAWCTXT_CREATE (dc_flags param) context)]
     end).
Proof.
  split.
  - intros c Hc. unfold kgsl_destroy_context, bind, BUG_ON.
    apply Z.eqb_neq in Hc. rewrite Hc. reflexivity.
  - split.
    + intros Hfree. split.
      * intros d1 released Hm Hwf.
        destruct (kgsl_release_run w dev_priv Hm Hfree Hwf)
          as (result & w' & tail & Hrun & Ht & Hk & _).
        exists result, w', tail. split; [exact Hrun|].
        split; [exact Ht|].
        split; [apply release_effects_pairs; exact Hfree | exact Hk].
      * intros param c Hfind Hid.
        destruct (kgsl_ioctl_drawctxt_destroy_run w dev_priv param c
                    Hfree Hfind Hid) as (w' & Hrun & Ht & Hslot).
        do 3 eexists. split; [exact Hrun|]. split; [exact Ht|].
        split; [apply Hfree | exact Hslot].
    + intros param Hk.
      exact (kgsl_ioctl_drawctxt_create_rollback w dev_priv param Hk).
Qed.

End ContextFacts.

(** C9 as stated fails on the third path that ends in
    [kgsl_destroy_context].  A create-context request whose backend call
    fails (the flags 99 of the samples) frees the context it has just
    stored and empties its slot, and the backend was never asked to
    destroy a payload: the calls are the failed create and the free,
    nothing in between.  With a backend that leaves a payload on the
    context it failed to create, the same request stops at the check of
    [kgsl_destroy_context], the context still in the table. *)
Lemma kgsl_ioctl_drawctxt_create_frees_without_backend_destroy :
  let d := set_mutex false (sample_device [] []) in
  let c := mk_context 0 1 0 in
  (exists w',
     kgsl_ioctl_drawctxt_create sample_platform 1 (mk_drawctxt_create 99 0)
                                (sample_world d 0 0 [])
     = Ok (- ENOMEM, mk_drawctxt_create 99 0) w' /\
     w_trace w' = [EvFtbl (DEVICE_DRAWCTXT_CREATE 99 c); EvKfreeContext c] /\
     idr_find (context_idr (w_dev w')) 0 = None) /\
  (exists w',
     kgsl_ioctl_drawctxt_create leaky_platform 1 (mk_drawctxt_create 99 0)
                                (leaky_world d)
     = Bug w' /\
     w_trace w' = [EvFtbl (DEVICE_DRAWCTXT_CREATE 99 c)] /\
     idr_find (context_idr (w_dev w')) 0 = Some (mk_context 0 1 1)).
Proof.
  cbv zeta. split.
  - eexists. split; [vm_lhs; reflexivity|]. split; reflexivity.
  - eexists. split; [vm_lhs; reflexivity|]. split; reflexivity.
Qed.

Lemma sample_drawctxt_destroy_frees : drawctxt_destroy_frees sample_platform.
Proof. intros h c. split; reflexivity. Qed.

Lemma sample_drawctxt_create_cleans_up :
  drawctxt_create_cleans_up sample_platform.
Proof.
  intros h dev_priv flags c. simpl.
  destruct (flags =? 99); simpl; [reflexivity|]. intros H. contradiction.
Qed.

Lemma sample_idr_wf :
  idr_wf [Some (mk_context 0 1 1); Some (mk_context 1 2 1);
          Some (mk_context 2 1 1)].
Proof.
  intros j c H. destruct j as [|[|[|j]]]; simpl in H;
    try (inversion H; subst; reflexivity).
  destruct j; discriminate.
Qed.

Lemma kgsl_memqueue_drain_releases_reached_prefix_witness :
  let q := [sample_entry 4096 4096 1 7; sample_entry 8192 4096 5 7;
            sample_entry 12288 4096 2 7] in
  let w := sample_world (sample_device q []) 3 5 [] in
  mutex (w_dev w) = true /\
  exists w' evs,
    kgsl_memqueue_drain sample_platform w = Ok tt w' /\
    w_trace w' = w_trace w ++ evs /\
    exists released kept,
      memqueue (w_dev w) = released ++ kept /\
      memqueue (w_dev w') = kept /\
      regions_destroyed sample_platform evs released.
Proof.
  cbv zeta. split; [reflexivity|].
  destruct (kgsl_memqueue_drain_releases_reached_prefix sample_platform
              (sample_world
                 (sample_device
                    [sample_entry 4096 4096 1 7; sample_entry 8192 4096 5 7;
                     sample_entry 12288 4096 2 7] []) 3 5 [])
              eq_refl)
    as (released & kept & evs & w' & Hrun & Hq & _ & _ & Hdev & _ & _ & Ht
        & _ & Hf & _).
  exists w', evs. split; [exact Hrun|]. split; [exact Ht|].
  exists released, kept. split; [exact Hq|].
  split; [rewrite Hdev; reflexivity | exact Hf].
Defined.


Lemma kgsl_destroy_context_after_payload_witness :
  let t := [Some (mk_context 0 1 1); Some (mk_context 1 2 1);
            Some (mk_context 2 1 1)] in
  let w := sample_world (set_mutex false (sample_device [] t)) 0 0 [] in
  let d1 := kgsl_check_suspended sample_platform
                                 (set_mutex true (w_dev w)) in
  devctxt (mk_context 2 1 1) <> 0 /\
  drawctxt_destroy_frees sample_platform /\
  mutex d1 = true /\
  idr_wf (context_idr d1) /\
  kgsl_find_context (w_dev w) 1 2 = Some (mk_context 2 1 1) /\
  w_kzalloc w = [] /\
  kgsl_destroy_context sample_platform 1 (Some (mk_context 2 1 1)) w
  = Bug w /\
  (exists result w',
     kgsl_release sample_platform 1 w = Ok (Some result) w') /\
  (exists result w',
     kgsl_ioctl_drawctxt_destroy sample_platform 1 (mk_drawctxt_destroy 2) w
     = Ok result w' /\
     idr_find (context_idr (w_dev w')) 2 = None) /\
  (exists result w',
     kgsl_ioctl_drawctxt_create sample_platform 1
       (mk_drawctxt_create 99 0) w = Ok result w' /\
     w_trace w'
     = [EvFtbl (DEVICE_DRAWCTXT_CREATE 99 (mk_context 3 1 0));
        EvKfreeContext (mk_context 3 1 0)]).
Proof.
  cbv zeta.
  destruct (kgsl_destroy_context_after_payload sample_platform
              (sample_world
                 (set_mutex false
                    (sample_device []
                       [Some (mk_context 0 1 1); Some (mk_context 1 2 1);
                        Some (mk_context 2 1 1)])) 0 0 []) 1)
    as (Hbug & Hpaths & Hcreate).
  destruct (Hpaths sample_drawctxt_destroy_frees) as [Hrel Hreq].
  split; [discriminate|].
  split; [exact sample_drawctxt_destroy_frees|].
  split; [reflexivity|]. split; [exact sample_idr_wf|].
  split; [reflexivity|]. split; [reflexivity|].
  split; [apply Hbug; discriminate|].
  split.
  { destruct (Hrel eq_refl sample_idr_wf)
      as (result & w' & tail & Hrun & _).
    exists result, w'. exact Hrun. }
  split.
  { destruct (Hreq (mk_drawctxt_destroy 2) (mk_context 2 1 1)
                   eq_refl eq_refl)
      as (result & w' & c' & Hrun & _ & _ & Hslot).
    exists result, w'. split; [exact Hrun | exact Hslot]. }
  pose proof (Hcreate (mk_drawctxt_create 99 0) eq_refl) as Hc.
  cbv zeta in Hc.
  assert (Hfail :
    snd (device_drawctxt_create (ftbl sample_platform)
           (mk_sample_hw 0 0 : hw sample_platform) 1 99
           (mk_context 3 1 0)) <> 0) by discriminate.
  specialize (Hc Hfail).
  destruct (kgsl_ioctl_drawctxt_create sample_platform 1
              (mk_drawctxt_create 99 0)
              (sample_world
                 (set_mutex false
                    (sample_device []
                       [Some (mk_context 0 1 1); Some (mk_context 1 2 1);
                        Some (mk_context 2 1 1)])) 0 0 []))
    as [[result param'] w'|w'].
  - exists (result, param'), w'. split; [reflexivity|].
    exact (proj2 (proj2 Hc)).
  - exfalso. apply (proj1 Hc). reflexivity.
Defined.

Section RegionLookup.

(** X1.  When neither [gpuaddr + size] nor the end of any registered
    region exceeds 32 bits, [kgsl_sharedmem_find_region] answers the first
    entry of the list, in list order, whose range contains
    [[gpuaddr, gpuaddr + size)], and NULL exactly when no entry contains
    it. *)
Theorem kgsl_sharedmem_find_region_first_containing
  (private : kgsl_process_private) (gpuaddr size : Z) :
  is_u32 (gpuaddr + size) ->
  regions_fit (mem_list private) ->
  match kgsl_sharedmem_find_region private gpuaddr size with
  | Some entry =>
      exists before after,
        mem_list private = before ++ entry :: after /\
        spec_range_contains entry gpuaddr size /\
        Forall (fun e => ~ spec_range_contains e gpuaddr size) before
  | None =>
      Forall (fun e => ~ spec_range_contains e gpuaddr size)
             (mem_list private)
  end.
Proof.
  intros Hfit Hall. unfold kgsl_sharedmem_find_region.
  unfold regions_fit in Hall.
  induction Hall as [|e l He Hl IH]; [constructor|].
  cbn [find].
  pose proof (region_test_no_wrap e gpuaddr size Hfit He) as Ht.
  destruct (region_test gpuaddr size e) eqn:E.
  - exists [], l. split; [reflexivity|]. split; [|constructor].
    apply Ht. reflexivity.
  - assert (Hn : ~ spec_range_contains e gpuaddr size).
    { intros Hc. apply Ht in Hc. discriminate. }
    destruct (find (region_test gpuaddr size) l) as [entry|].
    + destruct IH as (before & after & Hq & Hc & Hb).
      exists (e :: before), after. split; [rewrite Hq; reflexivity|].
      split; [exact Hc|]. constructor; assumption.
    + constructor; assumption.
Qed.

End RegionLookup.

Lemma kgsl_sharedmem_find_region_first_containing_witness :
  let a := sample_entry 4096 4096 0 7 in
  let b := sample_entry 8192 8192 0 7 in
  let private := sample_process [a; b] in
  is_u32 (9000 + 100) /\
  regions_fit (mem_list private) /\
  kgsl_sharedmem_find_region private 9000 100 = Some b /\
  exists before after,
    mem_list private = before ++ b :: after /\
    spec_range_contains b 9000 100 /\
    Forall (fun e => ~ spec_range_contains e 9000 100) before.
Proof.
  cbv zeta.
  assert (H1 : is_u32 (9000 + 100)) by (unfold is_u32, UINT_MAX; lia).
  assert (H2 : regions_fit
                 (mem_list (sample_process [sample_entry 4096 4096 0 7;
                                            sample_entry 8192 8192 0 7]))).
  { repeat constructor; unfold is_u32, UINT_MAX; simpl; lia. }
  split; [exact H1|]. split; [exact H2|]. split; [reflexivity|].
  exact (kgsl_sharedmem_find_region_first_containing
           (sample_process [sample_entry 4096 4096 0 7;
                            sample_entry 8192 8192 0 7]) 9000 100 H1 H2).
Defined.

Section QueueOrder.

Context (P : platform).

Local Abbreviation reached := (reached P).


End QueueOrder.


Section ProcessTeardown.

Context (P : platform).

Lemma destroyed_entries_destroy_all (l : list kgsl_mem_entry) :
  destroyed_entries (flat_map (kgsl_destroy_mem_entry P) l) = l.
Proof.
  induction l as [|e l IH]; [reflexivity|].
  cbn [flat_map]. rewrite destroyed_entries_app, destroyed_entries_destroy.
  rewrite IH. reflexivity.
Qed.

Lemma destroy_all_no_pagetable_put (l : list kgsl_mem_entry) (pt : Z) :
  ~ In (EvMmuPutPagetable pt) (flat_map (kgsl_destroy_mem_entry P) l).
Proof.
  induction l as [|e l IH]; [intros []|].
  cbn [flat_map]. intros H. apply in_app_or in H. destruct H as [H|H];
    [|exact (IH H)].
  unfold kgsl_destroy_mem_entry, kgsl_put_phys_file in H.
  destruct (flag_set _ (KGSL_MEMFLAGS_VMALLOC_MEM P));
    [simpl in H; intuition discriminate|].
  destruct (flag_set _ (KGSL_MEMFLAGS_HOSTADDR P) && _);
    [simpl in H; intuition discriminate|].
  destruct (file_ptr e =? 0); simpl in H; intuition discriminate.
Qed.

(** X3.  [kgsl_put_process_private] drops one reference; the counter is
    unsigned, so that a put at 0 leaves [2^32 - 1].  While the counter
    does not reach 0 nothing else happens: no call is made and the regions
    of the process stay registered.  When it reaches 0 every region still
    registered is destroyed, in list order and each once, and destroyed in
    full: its device range unmapped, its backing store released, its size
    taken off the accounting and its record freed; nothing else is
    destroyed, the list is left empty, the page table is put back exactly
    when the driver is built with the MMU and the process has one, and the
    process structure is freed last.  The device and its backend are not
    touched. *)
Theorem kgsl_put_process_private_frees_on_last_reference (w : world P) :
  let p := w_proc w in
  let left := u32 (refcnt p - 1) in
  exists evs w',
    kgsl_put_process_private P w = Ok tt w' /\
    w_dev w' = w_dev w /\ w_hw w' = w_hw w /\
    w_trace w' = w_trace w ++ evs /\
    refcnt (w_proc w') = left /\
    if left =? 0 then
      mem_list (w_proc w') = [] /\
      destroyed_entries evs = mem_list p /\
      regions_destroyed P evs (mem_list p) /\
      ftbl_calls evs = [] /\
      In (EvProcessListDel (pid p)) evs /\
      last evs EvDelTimer = EvKfreeProcess (pid p) /\
      (In (EvMmuPutPagetable (pagetable p)) evs <->
       CONFIG_MSM_KGSL_MMU P = true /\ pagetable p <> 0)
    else
      evs = [] /\ mem_list (w_proc w') = mem_list p.
Proof.
  destruct w as [d h p u k t]. cbn [w_proc]. cbv zeta.
  unfold kgsl_put_process_private, bind, get_proc, put_proc.
  cbn [w_dev w_hw w_proc w_user w_kzalloc w_trace refcnt pid pagetable
       mem_list].
  destruct (u32 (refcnt p - 1) =? 0) eqn:Er.
  - cbn [negb].
    unfold emit, emit_all, bind, put_proc, ret.
    cbn [w_dev w_hw w_proc w_user w_kzalloc w_trace].
    destruct (CONFIG_MSM_KGSL_MMU P && negb (pagetable p =? 0)) eqn:Ec.
    + exists ([EvLog "Memory usage: vmalloc (%d/%d) exmem (%d/%d)" [];
               EvProcessUninitSysfs (pid p); EvProcessListDel (pid p)]
                ++ flat_map (kgsl_destroy_mem_entry P) (mem_list p)
                ++ [EvMmuPutPagetable (pagetable p); EvKfreeProcess (pid p)]).
      eexists. split; [reflexivity|].
      cbn [w_dev w_hw w_proc w_user w_kzalloc w_trace].
      split; [reflexivity|]. split; [reflexivity|].
      split; [rewrite <- !app_assoc; reflexivity|].
      split; [reflexivity|]. split; [reflexivity|].
      split.
      { rewrite !destroyed_entries_app, destroyed_entries_destroy_all.
        cbn. apply app_nil_r. }
      split.
      { unfold regions_destroyed.
        rewrite !destroy_calls_app, (destroy_calls_destroy_each P).
        cbn [destroy_calls filter is_destroy_call app].
        apply app_nil_r. }
      split.
      { rewrite !ftbl_calls_app, ftbl_calls_destroy_all. reflexivity. }
      split; [cbn; tauto|].
      split.
      { rewrite app_assoc.
        change [EvMmuPutPagetable (pagetable p); EvKfreeProcess (pid p)]
          with ([EvMmuPutPagetable (pagetable p)]
                  ++ [EvKfreeProcess (pid p)]).
        rewrite app_assoc. apply last_last. }
      apply andb_true_iff in Ec. destruct Ec as [Ec1 Ec2].
      apply negb_true_iff, Z.eqb_neq in Ec2.
      split; [intros _; split; assumption|]. intros _.
      apply in_or_app. right. apply in_or_app. right. left. reflexivity.
    + exists ([EvLog "Memory usage: vmalloc (%d/%d) exmem (%d/%d)" [];
               EvProcessUninitSysfs (pid p); EvProcessListDel (pid p)]
                ++ flat_map (kgsl_destroy_mem_entry P) (mem_list p)
                ++ [EvKfreeProcess (pid p)]).
      eexists. split; [reflexivity|].
      cbn [w_dev w_hw w_proc w_user w_kzalloc w_trace].
      split; [reflexivity|]. split; [reflexivity|].
      split; [rewrite <- !app_assoc; reflexivity|].
      split; [reflexivity|]. split; [reflexivity|].
      split.
      { rewrite !destroyed_entries_app, destroyed_entries_destroy_all.
        cbn. apply app_nil_r. }
      split.
      { unfold regions_destroyed.
        rewrite !destroy_calls_app, (destroy_calls_destroy_each P).
        cbn [destroy_calls filter is_destroy_call app].
        apply app_nil_r. }
      split.
      { rewrite !ftbl_calls_app, ftbl_calls_destroy_all. reflexivity. }
      split; [cbn; tauto|].
      split.
      { rewrite app_assoc. apply last_last. }
      split.
      * intros H. exfalso.
        apply in_app_or in H. destruct H as [H|H].
        { cbn in H. intuition discriminate. }
        apply in_app_or in H. destruct H as [H|H].
        { exact (destroy_all_no_pagetable_put _ _ H). }
        cbn in H. intuition discriminate.
      * intros [H1 H2]. exfalso. rewrite H1 in Ec. cbn in Ec.
        apply negb_false_iff, Z.eqb_eq in Ec. contradiction.
  - cbn [negb]. unfold ret. exists []. eexists. split; [reflexivity|].
    cbn [w_dev w_hw w_proc w_user w_kzalloc w_trace refcnt mem_list].
    rewrite app_nil_r. repeat split.
Qed.

End ProcessTeardown.

Section ContextIds.

Context (P : platform).

(* idr_get_new stores the pointer in the first empty slot, or in a new
   slot at the end of the array *)
Lemma idr_get_new_from_spec (mk : Z -> kgsl_context)
  (t : list (option kgsl_context)) (i : Z) :
  exists n : nat,
    snd (idr_get_new_from i t mk) = i + Z.of_nat n /\
    (forall j, (j < n)%nat -> exists c, nth_error t j = Some (Some c)) /\
    (nth_error t n = Some None \/ nth_error t n = None) /\
    nth_error (fst (idr_get_new_from i t mk)) n
    = Some (Some (mk (i + Z.of_nat n))) /\
    (forall j, j <> n ->
               nth_error (fst (idr_get_new_from i t mk)) j = nth_error t j).
Proof.
  revert i. induction t as [|slot rest IH]; intros i.
  - exists 0%nat. cbn. rewrite Z.add_0_r.
    split; [reflexivity|]. split; [intros j Hj; lia|].
    split; [right; reflexivity|]. split; [reflexivity|].
    intros j Hj. destruct j as [|j]; [contradiction|]. destruct j; reflexivity.
  - destruct slot as [c|].
    + cbn [idr_get_new_from].
      destruct (IH (i + 1)) as (n & Hid & Hocc & Hfree & Hnew & Hother).
      destruct (idr_get_new_from (i + 1) rest mk) as [t' id] eqn:E.
      cbn [fst snd] in *. exists (S n).
      split; [rewrite Hid; lia|].
      split.
      { intros j Hj. destruct j as [|j]; [exists c; reflexivity|].
        apply Hocc. lia. }
      split; [exact Hfree|].
      split.
      { cbn [nth_error]. rewrite Hnew. do 3 f_equal. lia. }
      intros j Hj. destruct j as [|j]; [reflexivity|].
      cbn [nth_error]. apply Hother. lia.
    + exists 0%nat. cbn. rewrite Z.add_0_r.
      split; [reflexivity|]. split; [intros j Hj; lia|].
      split; [left; reflexivity|]. split; [reflexivity|].
      intros j Hj. destruct j as [|j]; [contradiction|]. reflexivity.
Qed.

Lemma nth_error_idr_set_other (t : list (option kgsl_context)) (n j : nat)
  (v : option kgsl_context) :
  j <> n -> nth_error (idr_set t n v) j = nth_error t j.
Proof.
  revert n j. induction t as [|slot rest IH]; intros n j Hj.
  - destruct n; reflexivity.
  - destruct n as [|n]; destruct j as [|j]; cbn; try reflexivity.
    + contradiction.
    + apply IH. lia.
Qed.

Lemma nth_error_idr_set_same (t : list (option kgsl_context)) (n : nat)
  (v : option kgsl_context) :
  nth_error (idr_set t n v) n
  = match nth_error t n with Some _ => Some v | None => None end.
Proof.
  revert n. induction t as [|slot rest IH]; intros n.
  - destruct n; reflexivity.
  - destruct n as [|n]; cbn; [reflexivity | apply IH].
Qed.

(* Looking up after idr_remove *)
Lemma idr_find_remove (t : list (option kgsl_context)) (id id' : Z) :
  0 <= id ->
  idr_find (idr_remove t id) id'
  = if id' =? id then None else idr_find t id'.
Proof.
  intros Hid. unfold idr_find, idr_remove.
  replace (id <? 0) with false by (symmetry; apply Z.ltb_ge; lia).
  destruct (id' <? 0) eqn:E.
  - destruct (id' =? id); reflexivity.
  - apply Z.ltb_ge in E. destruct (id' =? id) eqn:E2.
    + apply Z.eqb_eq in E2. subst id'. rewrite nth_error_idr_set_same.
      destruct (nth_error t (Z.to_nat id)); reflexivity.
    + apply Z.eqb_neq in E2. rewrite nth_error_idr_set_other by lia.
      reflexivity.
Qed.

(* kgsl_create_context when both allocations succeed *)
Lemma kgsl_create_context_run (dev_priv : Z) (w : world P) :
  nth 0 (w_kzalloc w) true = true ->
  nth 1 (w_kzalloc w) true = true ->
  let fresh := idr_get_new_from 0 (context_idr (w_dev w))
                                (fun id => mk_context id dev_priv 0) in
  kgsl_create_context P dev_priv w
  = Ok (Some (mk_context (snd fresh) dev_priv 0))
       (mk_world (set_context_idr (fst fresh) (w_dev w)) (w_hw w) (w_proc w)
                 (w_user w) (skipn 2 (w_kzalloc w)) (w_trace w)).
Proof.
  intros H0 H1 fresh. destruct w as [d h p u k t].
  cbn [w_dev w_hw w_proc w_user w_kzalloc w_trace] in *.
  unfold kgsl_create_context.
  destruct k as [|b0 [|b1 k]]; cbn [nth] in H0, H1; subst;
    unfold bind, kzalloc, get_dev, put_dev, ret;
    cbn [w_dev w_hw w_proc w_user w_kzalloc w_trace negb skipn];
    fold fresh; destruct fresh; reflexivity.
Qed.

(* The slot taken by a new context *)
Lemma kgsl_create_context_fresh_slot (dev_priv : Z)
  (w : world P) :
  nth 0 (w_kzalloc w) true = true ->
  nth 1 (w_kzalloc w) true = true ->
  exists id w',
    kgsl_create_context P dev_priv w
    = Ok (Some (mk_context id dev_priv 0)) w' /\
    0 <= id /\
    idr_find (context_idr (w_dev w)) id = None /\
    (forall id', 0 <= id' < id ->
                 idr_find (context_idr (w_dev w)) id' <> None) /\
    idr_find (context_idr (w_dev w')) id = Some (mk_context id dev_priv 0) /\
    (forall id', id' <> id ->
                 idr_find (context_idr (w_dev w')) id'
                 = idr_find (context_idr (w_dev w)) id') /\
    w_trace w' = w_trace w.
Proof.
  intros H0 H1.
  rewrite (kgsl_create_context_run dev_priv w H0 H1). cbv zeta.
  destruct (idr_get_new_from_spec (fun id => mk_context id dev_priv 0)
              (context_idr (w_dev w)) 0)
    as (n & Hid & Hocc & Hfree & Hnew & Hother).
  destruct (idr_get_new_from 0 (context_idr (w_dev w))
              (fun id => mk_context id dev_priv 0)) as [t' id] eqn:E.
  cbn [fst snd] in *. rewrite Z.add_0_l in *.
  exists id. eexists. split; [reflexivity|].
  destruct w as [d h p u k t].
  destruct d as [di st rs ac oc na it q ci mx sg hg].
  cbn [w_dev w_hw w_proc w_user w_kzalloc w_trace context_idr
       set_context_idr] in *.
  split; [lia|].
  split.
  { unfold idr_find. replace (id <? 0) with false
      by (symmetry; apply Z.ltb_ge; lia).
    rewrite Hid, Nat2Z.id. destruct Hfree as [Hf|Hf]; rewrite Hf; reflexivity. }
  split.
  { intros id' Hr. unfold idr_find.
    replace (id' <? 0) with false by (symmetry; apply Z.ltb_ge; lia).
    destruct (Hocc (Z.to_nat id') ltac:(lia)) as (c & Hc).
    rewrite Hc. discriminate. }
  split.
  { unfold idr_find. replace (id <? 0) with false
      by (symmetry; apply Z.ltb_ge; lia).
    rewrite Hid, Nat2Z.id, Hnew. reflexivity. }
  split; [|reflexivity].
  intros id' Hne. unfold idr_find.
  destruct (id' <? 0) eqn:E0; [reflexivity|]. apply Z.ltb_ge in E0.
  rewrite Hother by lia. reflexivity.
Qed.

(** X4.  [kgsl_create_context], when its two allocations succeed, gives
    the new context the smallest id that is not in use: no context was
    stored under that id, every smaller id is taken, afterwards the id
    finds the new context (owned by the calling handle, without payload),
    and every other id finds what it found before. *)
Theorem kgsl_create_context_takes_smallest_free_id (dev_priv : Z)
  (w : world P) :
  nth 0 (w_kzalloc w) true = true ->
  nth 1 (w_kzalloc w) true = true ->
  exists id w',
    kgsl_create_context P dev_priv w
    = Ok (Some (mk_context id dev_priv 0)) w' /\
    0 <= id /\
    idr_find (context_idr (w_dev w)) id = None /\
    (forall id', 0 <= id' < id ->
                 idr_find (context_idr (w_dev w)) id' <> None) /\
    idr_find (context_idr (w_dev w')) id = Some (mk_context id dev_priv 0) /\
    (forall id', id' <> id ->
                 idr_find (context_idr (w_dev w')) id'
                 = idr_find (context_idr (w_dev w)) id') /\
    w_trace w' = w_trace w.
Proof.
  intros H0 H1. exact (kgsl_create_context_fresh_slot dev_priv w H0 H1).
Qed.

(** X5.  Creating a context and destroying it again leaves the table as it
    was for every lookup: each id finds what it found before the pair of
    calls, and the context structure allocated by the first call is the one
    freed by the second. *)
Theorem kgsl_create_then_destroy_context_restores_lookups (dev_priv : Z)
  (w : world P) :
  nth 0 (w_kzalloc w) true = true ->
  nth 1 (w_kzalloc w) true = true ->
  exists c w1 w2,
    kgsl_create_context P dev_priv w = Ok (Some c) w1 /\
    kgsl_destroy_context P dev_priv (Some c) w1 = Ok tt w2 /\
    (forall id, idr_find (context_idr (w_dev w2)) id
                = idr_find (context_idr (w_dev w)) id) /\
    w_trace w2 = w_trace w ++ [EvKfreeContext c].
Proof.
  intros H0 H1.
  destruct (kgsl_create_context_fresh_slot dev_priv w H0 H1)
    as (id & w1 & Hrun & Hpos & Hfree & _ & Hnew & Hother & Ht).
  destruct w1 as [d1 h1 p1 u1 k1 t1].
  exists (mk_context id dev_priv 0), (mk_world d1 h1 p1 u1 k1 t1). eexists.
  split; [exact Hrun|].
  cbn [w_dev w_trace] in *.
  unfold kgsl_destroy_context, bind, BUG_ON, emit, modify_dev.
  cbn [devctxt ctx_id Z.eqb negb w_dev w_hw w_proc w_user w_kzalloc w_trace].
  split; [reflexivity|].
  cbn [w_dev w_trace]. split; [|rewrite Ht; reflexivity].
  intros id'. destruct d1 as [di st rs ac oc na it q ci mx sg hg].
  cbn [context_idr set_context_idr] in *.
  rewrite idr_find_remove by exact Hpos.
  destruct (id' =? id) eqn:E.
  - apply Z.eqb_eq in E. subst id'. symmetry. exact Hfree.
  - apply Z.eqb_neq in E. apply Hother. exact E.
Qed.

Lemma call_drawctxt_run (c : ftbl_call) (slot : Z)
  (op : hw P -> hw P * kgsl_context * Z) (w : world P) :
  call_drawctxt P c slot op w
  = Ok (snd (fst (op (w_hw w))), snd (op (w_hw w)))
       (mk_world
          (set_context_idr
             (if slot <? 0 then context_idr (w_dev w)
              else idr_set (context_idr (w_dev w)) (Z.to_nat slot)
                           (Some (snd (fst (op (w_hw w))))))
             (w_dev w))
          (fst (fst (op (w_hw w)))) (w_proc w) (w_user w) (w_kzalloc w)
          (w_trace w ++ [EvFtbl c])).
Proof.
  destruct w as [d h p u k t]. unfold call_drawctxt.
  unfold bind, emit, get_hw, put_hw, modify_dev, ret.
  cbn [w_dev w_hw w_proc w_user w_kzalloc w_trace].
  destruct (op h) as [[h' c'] r]. reflexivity.
Qed.

(** X6.  [kgsl_ioctl_drawctxt_create] with a backend that leaves the id of
    the context alone.  When the backend succeeds the request returns 0,
    the id handed back in the payload is the fresh id, that id finds the
    context as the backend set it up, and every other id finds what it
    found before.  When the backend fails and has left no payload the
    request returns the error of the backend, the fresh context is freed,
    and every id finds what it found before the request: no id is lost. *)
Theorem kgsl_ioctl_drawctxt_create_registers_or_rolls_back (dev_priv : Z)
  (param : kgsl_drawctxt_create) (w : world P) :
  nth 0 (w_kzalloc w) true = true ->
  nth 1 (w_kzalloc w) true = true ->
  let id := snd (idr_get_new_from 0 (context_idr (w_dev w))
                                  (fun id => mk_context id dev_priv 0)) in
  let context := mk_context id dev_priv 0 in
  let r := device_drawctxt_create (ftbl P) (w_hw w) dev_priv
                                  (dc_flags param) context in
  let context' := snd (fst r) in
  ctx_id context' = id ->
  (snd r <> 0 -> devctxt context' = 0) ->
  exists w',
    kgsl_ioctl_drawctxt_create P dev_priv param w
    = Ok (snd r, mk_drawctxt_create (dc_flags param) id) w' /\
    w_hw w' = fst (fst r) /\
    (forall id', id' <> id ->
                 idr_find (context_idr (w_dev w')) id'
                 = idr_find (context_idr (w_dev w)) id') /\
    if snd r =? 0 then
      idr_find (context_idr (w_dev w')) id = Some context' /\
      w_trace w'
      = w_trace w ++ [EvFtbl (DEVICE_DRAWCTXT_CREATE (dc_flags param)
                                                     context)]
    else
      idr_find (context_idr (w_dev w')) id
      = idr_find (context_idr (w_dev w)) id /\
      w_trace w'
      = w_trace w ++ [EvFtbl (DEVICE_DRAWCTXT_CREATE (dc_flags param)
                                                     context);
                      EvKfreeContext context'].
Proof.
  intros H0 H1 id context r context' Hkeep Hclean.
  destruct (kgsl_create_context_fresh_slot dev_priv w H0 H1)
    as (id0 & w1 & Hrun & Hpos & Hfree & _ & Hnew & Hother & Ht).
  pose proof (kgsl_create_context_run dev_priv w H0 H1) as Hrun'.
  cbv zeta in Hrun'. fold id in Hrun'. rewrite Hrun in Hrun'.
  injection Hrun' as Hid Hw1. subst id0.
  unfold kgsl_ioctl_drawctxt_create.
  unfold bind at 1. rewrite Hrun.
  unfold bind at 1. rewrite call_drawctxt_run.
  assert (Hhw : w_hw w1 = w_hw w) by (rewrite Hw1; reflexivity).
  rewrite Hhw. cbn [ctx_id]. fold context. fold r. fold context'.
  rewrite Hkeep.
  replace (id <? 0) with false by (symmetry; apply Z.ltb_ge; lia).
  assert (Hslot : nth_error (context_idr (w_dev w1)) (Z.to_nat id)
                  = Some (Some context)).
  { unfold idr_find in Hnew.
    replace (id <? 0) with false in Hnew
      by (symmetry; apply Z.ltb_ge; lia).
    destruct (nth_error (context_idr (w_dev w1)) (Z.to_nat id)) as [slot|];
      [|discriminate].
    rewrite Hnew. reflexivity. }
  destruct w1 as [d1 h1 p1 u1 k1 t1].
  cbn [w_dev w_hw w_proc w_user w_kzalloc w_trace] in *.
  destruct d1 as [di st rs ac oc na it q ci mx sg hg].
  cbn [context_idr set_context_idr] in *.
  destruct (snd r =? 0) eqn:Er.
  - cbn [negb]. unfold bind, ret.
    cbn [w_dev w_hw w_proc w_user w_kzalloc w_trace fst snd].
    eexists. split; [reflexivity|].
    cbn [w_dev w_hw w_proc w_user w_kzalloc w_trace context_idr
         set_context_idr].
    split; [reflexivity|].
    split.
    { intros id' Hne. rewrite <- (Hother id' Hne). unfold idr_find.
      destruct (id' <? 0) eqn:E0; [reflexivity|]. apply Z.ltb_ge in E0.
      rewrite nth_error_idr_set_other by lia. reflexivity. }
    split; [|rewrite Ht; reflexivity].
    unfold idr_find.
    replace (id <? 0) with false by (symmetry; apply Z.ltb_ge; lia).
    rewrite nth_error_idr_set_same, Hslot. reflexivity.
  - cbn [negb]. apply Z.eqb_neq in Er. specialize (Hclean Er).
    unfold kgsl_destroy_context.
    unfold bind, BUG_ON, emit, modify_dev, ret.
    rewrite Hclean. rewrite Hkeep.
    cbn [Z.eqb negb w_dev w_hw w_proc w_user w_kzalloc w_trace fst snd
         context_idr set_context_idr].
    eexists. split; [reflexivity|].
    cbn [w_dev w_hw w_proc w_user w_kzalloc w_trace context_idr
         set_context_idr].
    split; [reflexivity|].
    split.
    { intros id' Hne. rewrite <- (Hother id' Hne).
      rewrite idr_find_remove by exact Hpos.
      replace (id' =? id) with false by (symmetry; apply Z.eqb_neq; lia).
      unfold idr_find.
      destruct (id' <? 0) eqn:E0; [reflexivity|]. apply Z.ltb_ge in E0.
      rewrite nth_error_idr_set_other by lia. reflexivity. }
    split; [|rewrite Ht, <- app_assoc; reflexivity].
    rewrite idr_find_remove by exact Hpos. rewrite Z.eqb_refl.
    symmetry. exact Hfree.
Qed.

End ContextIds.

Lemma kgsl_create_context_takes_smallest_free_id_witness :
  let t := [Some (mk_context 0 1 1); None; Some (mk_context 2 1 1)] in
  let w := sample_world (sample_device [] t) 0 0 [] in
  nth 0 (w_kzalloc w) true = true /\
  nth 1 (w_kzalloc w) true = true /\
  exists w',
    kgsl_create_context sample_platform 5 w
    = Ok (Some (mk_context 1 5 0)) w' /\
    idr_find (context_idr (w_dev w)) 1 = None /\
    idr_find (context_idr (w_dev w')) 1 = Some (mk_context 1 5 0).
Proof.
  cbv zeta. split; [reflexivity|]. split; [reflexivity|].
  destruct (kgsl_create_context_takes_smallest_free_id sample_platform 5
              (sample_world
                 (sample_device []
                    [Some (mk_context 0 1 1); None; Some (mk_context 2 1 1)])
                 0 0 [])
              eq_refl eq_refl)
    as (id & w' & Hrun & _ & Hfree & _ & Hnew & _).
  assert (Hid : id = 1).
  { assert (E : kgsl_create_context sample_platform 5
                  (sample_world
                     (sample_device []
                        [Some (mk_context 0 1 1); None;
                         Some (mk_context 2 1 1)]) 0 0 [])
                = Ok (Some (mk_context 1 5 0))
                     (sample_world
                        (sample_device []
                           [Some (mk_context 0 1 1);
                            Some (mk_context 1 5 0);
                            Some (mk_context 2 1 1)]) 0 0 []))
      by reflexivity.
    rewrite E in Hrun. injection Hrun as Hid _. symmetry. exact Hid. }
  subst id. exists w'. split; [exact Hrun|]. split; [exact Hfree|exact Hnew].
Defined.

Lemma kgsl_create_then_destroy_context_restores_lookups_witness :
  let t := [Some (mk_context 0 1 1); None; Some (mk_context 2 1 1)] in
  let w := sample_world (sample_device [] t) 0 0 [] in
  nth 0 (w_kzalloc w) true = true /\
  nth 1 (w_kzalloc w) true = true /\
  exists c w1 w2,
    kgsl_create_context sample_platform 5 w = Ok (Some c) w1 /\
    kgsl_destroy_context sample_platform 5 (Some c) w1 = Ok tt w2 /\
    idr_find (context_idr (w_dev w2)) 1 = None /\
    idr_find (context_idr (w_dev w2)) 2 = Some (mk_context 2 1 1).
Proof.
  cbv zeta. split; [reflexivity|]. split; [reflexivity|].
  destruct (kgsl_create_then_destroy_context_restores_lookups
              sample_platform 5
              (sample_world
                 (sample_device []
                    [Some (mk_context 0 1 1); None; Some (mk_context 2 1 1)])
                 0 0 [])
              eq_refl eq_refl)
    as (c & w1 & w2 & Hrun & Hdes & Hsame & _).
  exists c, w1, w2. split; [exact Hrun|]. split; [exact Hdes|].
  split; rewrite Hsame; reflexivity.
Defined.

Lemma kgsl_ioctl_drawctxt_create_registers_or_rolls_back_witness :
  let t := [Some (mk_context 0 1 1); None; Some (mk_context 2 1 1)] in
  let w := sample_world (sample_device [] t) 0 0 [] in
  nth 0 (w_kzalloc w) true = true /\
  nth 1 (w_kzalloc w) true = true /\
  (exists w',
     kgsl_ioctl_drawctxt_create sample_platform 5 (mk_drawctxt_create 0 77) w
     = Ok (0, mk_drawctxt_create 0 1) w' /\
     idr_find (context_idr (w_dev w')) 1 = Some (mk_context 1 5 1)) /\
  (exists w',
     kgsl_ioctl_drawctxt_create sample_platform 5 (mk_drawctxt_create 99 77) w
     = Ok (- ENOMEM, mk_drawctxt_create 99 1) w' /\
     idr_find (context_idr (w_dev w')) 1 = None).
Proof.
  cbv zeta. split; [reflexivity|]. split; [reflexivity|]. split.
  - destruct (kgsl_ioctl_drawctxt_create_registers_or_rolls_back
                sample_platform 5 (mk_drawctxt_create 0 77)
                (sample_world
                   (sample_device []
                      [Some (mk_context 0 1 1); None;
                       Some (mk_context 2 1 1)]) 0 0 [])
                eq_refl eq_refl eq_refl
                (fun H : 0 <> 0 => match H eq_refl with end))
      as (w' & Hrun & _ & _ & Hcase).
    exists w'. split; [exact Hrun|]. exact (proj1 Hcase).
  - destruct (kgsl_ioctl_drawctxt_create_registers_or_rolls_back
                sample_platform 5 (mk_drawctxt_create 99 77)
                (sample_world
                   (sample_device []
                      [Some (mk_context 0 1 1); None;
                       Some (mk_context 2 1 1)]) 0 0 [])
                eq_refl eq_refl eq_refl (fun _ => eq_refl))
      as (w' & Hrun & _ & _ & Hcase).
    exists w'. split; [exact Hrun|]. exact (proj1 Hcase).
Defined.

Section DispatchEdges.

Context (P : platform).

Local Abbreviation dispatched_cmd := (dispatched_cmd P).
Local Abbreviation world_for_handler := (world_for_handler P).
Context (kgsl_ioctl_funcs : Z -> option (kgsl_ioctl_func_t P * bool)).

Lemma land_direction_bits (cmd : Z) :
  Z.land cmd IOC_IN <> 0 -> Z.land cmd (Z.lor IOC_IN IOC_OUT) <> 0.
Proof.
  intros H Hz. rewrite Z.land_lor_distr_r in Hz.
  apply Z.lor_eq_0_iff in Hz. destruct Hz as [Hz _]. contradiction.
Qed.

(** X7.  A request whose command carries a payload to read from the
    caller and whose argument cannot be read: [kgsl_ioctl] returns -EFAULT
    (-ENOMEM when the payload needs a heap buffer that cannot be
    allocated), whatever handler the command number selects.  The device,
    its backend, the process and user memory are as before, no backend
    operation is called, and the heap buffer is freed exactly when the
    payload is too large for the stack buffer. *)
Theorem kgsl_ioctl_refuses_unreadable_argument (dev_priv cmd arg : Z)
  (w : world P) :
  let dcmd := dispatched_cmd cmd in
  Z.land dcmd IOC_IN <> 0 ->
  copy_from_user (w_user w) arg (Z.to_nat (_IOC_SIZE dcmd)) = None ->
  exists evs w',
    kgsl_ioctl P kgsl_ioctl_funcs dev_priv cmd arg w
    = Ok (if (USTACK_SIZE <=? _IOC_SIZE dcmd)
             && negb (nth 0 (w_kzalloc w) true)
          then - ENOMEM else - EFAULT) w' /\
    w_dev w' = w_dev w /\ w_hw w' = w_hw w /\ w_proc w' = w_proc w /\
    w_user w' = w_user w /\
    w_trace w' = w_trace w ++ evs /\
    ftbl_calls evs = [] /\
    (In EvKfreeUptr evs <-> USTACK_SIZE <= _IOC_SIZE dcmd).
Proof.
  intros dcmd Hin Hfault.
  pose proof (land_direction_bits dcmd Hin) as Hdir.
  apply Z.eqb_neq in Hdir. apply Z.eqb_neq in Hin.
  unfold kgsl_ioctl. fold (dispatched_cmd cmd). fold dcmd.
  unfold kgsl_ioctl_copy_in, kgsl_ioctl_done. rewrite Hdir, Hin. cbn [negb].
  set (size := _IOC_SIZE dcmd) in *. clearbody size.
  destruct w as [d h p u k t].
  cbn [w_dev w_hw w_proc w_user w_kzalloc w_trace] in *.
  replace (size <? USTACK_SIZE) with (negb (USTACK_SIZE <=? size))
    by (destruct (USTACK_SIZE <=? size) eqn:E1;
        destruct (size <? USTACK_SIZE) eqn:E2; try reflexivity;
        [apply Z.leb_le in E1; apply Z.ltb_lt in E2; lia
        |apply Z.leb_gt in E1; apply Z.ltb_ge in E2; lia]).
  destruct (USTACK_SIZE <=? size) eqn:Es; cbn [negb andb].
  - apply Z.leb_le in Es.
    destruct k as [|b k]; [|destruct b];
      unfold bind, kzalloc, ret, emit;
      cbn [w_dev w_hw w_proc w_user w_kzalloc w_trace negb nth];
      try rewrite Hfault.
    + exists [EvKfreeUptr]. eexists. split; [reflexivity|].
      cbn [w_dev w_hw w_proc w_user w_kzalloc w_trace].
      repeat (split; [reflexivity|]). cbn. split; [intros _; exact Es|auto].
    + exists [EvKfreeUptr]. eexists. split; [reflexivity|].
      cbn [w_dev w_hw w_proc w_user w_kzalloc w_trace].
      repeat (split; [reflexivity|]). cbn. split; [intros _; exact Es|auto].
    + exists [EvLog "kzalloc(%d) failed" [size]; EvKfreeUptr].
      eexists. split; [reflexivity|].
      cbn [w_dev w_hw w_proc w_user w_kzalloc w_trace].
      split; [reflexivity|]. split; [reflexivity|]. split; [reflexivity|].
      split; [reflexivity|].
      split; [rewrite <- app_assoc; reflexivity|].
      split; [reflexivity|]. cbn. split; [intros _; exact Es|auto].
  - apply Z.leb_gt in Es.
    unfold bind, ret. cbn [negb w_user]. rewrite Hfault.
    exists []. eexists. split; [reflexivity|].
    cbn [w_dev w_hw w_proc w_user w_kzalloc w_trace].
    rewrite app_nil_r. repeat (split; [reflexivity|]).
    cbn. split; [intros []|lia].
Qed.

(* What kgsl_ioctl does after the handler, as far as the device goes *)
Lemma kgsl_ioctl_finish_device (lock : bool) (cmd arg ret_ : Z)
  (uptr : list Z) (w : world P) :
  exists r w',
    kgsl_ioctl_finish P lock cmd arg ret_ uptr w = Ok r w' /\
    w_hw w' = w_hw w /\ w_proc w' = w_proc w /\
    (lock = true -> mutex (w_dev w') = false) /\
    (lock = false -> w_dev w' = w_dev w).
Proof.
  unfold kgsl_ioctl_finish, kgsl_ioctl_done.
  set (size := _IOC_SIZE cmd) in *. clearbody size.
  set (out := (ret_ =? 0) && negb (Z.land cmd IOC_OUT =? 0)).
  clearbody out.
  destruct lock.
  - destruct (kgsl_check_idle_locked_run P w) as (d1 & evs1 & Hidle & _).
    unfold bind at 1. unfold bind at 1. rewrite Hidle.
    unfold mutex_unlock, modify_dev, bind, ret, emit, put_user.
    cbn [w_dev w_hw w_proc w_user w_kzalloc w_trace].
    destruct out.
    + match goal with
      | |- context [copy_to_user ?a ?b ?c] =>
          destruct (copy_to_user a b c) as [m left]
      end.
      destruct (USTACK_SIZE <=? size);
        cbn [w_dev w_hw w_proc w_user w_kzalloc w_trace];
        do 2 eexists; (split; [reflexivity|]);
        cbn [w_dev w_hw w_proc]; destruct d1;
        repeat split; discriminate.
    + destruct (USTACK_SIZE <=? size);
        cbn [w_dev w_hw w_proc w_user w_kzalloc w_trace];
        do 2 eexists; (split; [reflexivity|]);
        cbn [w_dev w_hw w_proc]; destruct d1;
        repeat split; discriminate.
  - destruct w as [d h p u k t].
    unfold bind, ret, emit, put_user.
    cbn [w_dev w_hw w_proc w_user w_kzalloc w_trace].
    destruct out.
    + match goal with
      | |- context [copy_to_user ?a ?b ?c] =>
          destruct (copy_to_user a b c) as [m left]
      end.
      destruct (USTACK_SIZE <=? size);
        cbn [w_dev w_hw w_proc w_user w_kzalloc w_trace];
        do 2 eexists; (split; [reflexivity|]);
        cbn [w_dev w_hw w_proc]; repeat split; discriminate.
    + destruct (USTACK_SIZE <=? size);
        cbn [w_dev w_hw w_proc w_user w_kzalloc w_trace];
        do 2 eexists; (split; [reflexivity|]);
        cbn [w_dev w_hw w_proc]; repeat split; discriminate.
Qed.

(** X8.  Let a request reach its handler and the handler return.  When the
    handler is one that runs under the device mutex (and for every command
    number outside the table), [kgsl_ioctl] returns with the mutex
    released; when it is one that runs without it, the dispatcher leaves
    the device exactly as the handler did.  In both cases it touches
    neither the backend nor the process after the handler. *)
Theorem kgsl_ioctl_releases_device_mutex (dev_priv cmd arg : Z)
  (w : world P) (uptr : option (list Z)) (w1 : world P) (ret_ : Z)
  (data : list Z) (w2 : world P) :
  let dcmd := dispatched_cmd cmd in
  let func := fst (kgsl_ioctl_select P kgsl_ioctl_funcs (_IOC_NR cmd)) in
  let lock := snd (kgsl_ioctl_select P kgsl_ioctl_funcs (_IOC_NR cmd)) in
  kgsl_ioctl_copy_in P dcmd arg w = Ok (inr uptr) w1 ->
  func dev_priv dcmd uptr (world_for_handler lock w1) = Ok (ret_, data) w2 ->
  exists r w',
    kgsl_ioctl P kgsl_ioctl_funcs dev_priv cmd arg w = Ok r w' /\
    w_hw w' = w_hw w2 /\ w_proc w' = w_proc w2 /\
    (kgsl_ioctl_funcs (_IOC_NR cmd) = None -> lock = true) /\
    (lock = true -> mutex (w_dev w') = false) /\
    (lock = false -> w_dev w' = w_dev w2).
Proof.
  intros dcmd func lock Hcopy Hfunc.
  rewrite (kgsl_ioctl_run P kgsl_ioctl_funcs dev_priv cmd arg w uptr w1
             ret_ data w2 Hcopy Hfunc).
  fold dcmd. fold lock.
  destruct (kgsl_ioctl_finish_device lock dcmd arg ret_ data w2)
    as (r & w' & Hfin & Hh & Hp & Hl & Hn).
  exists r, w'. split; [exact Hfin|]. split; [exact Hh|].
  split; [exact Hp|]. split.
  { intros Hnone. subst lock. unfold kgsl_ioctl_select. rewrite Hnone.
    reflexivity. }
  split; [exact Hl | exact Hn].
Qed.

End DispatchEdges.

Lemma kgsl_ioctl_refuses_unreadable_argument_witness :
  let cmd := 1074004240 in
  let w := sample_user_world in
  Z.land (dispatched_cmd sample_platform cmd) IOC_IN <> 0 /\
  copy_from_user (w_user w) 102
    (Z.to_nat (_IOC_SIZE (dispatched_cmd sample_platform cmd))) = None /\
  exists w',
    kgsl_ioctl sample_platform sample_ioctl_funcs 1 cmd 102 w
    = Ok (- EFAULT) w' /\
    w_dev w' = w_dev w.
Proof.
  cbv zeta.
  assert (H1 : Z.land (dispatched_cmd sample_platform 1074004240) IOC_IN
               <> 0) by (vm_compute; discriminate).
  assert (H2 : copy_from_user (w_user sample_user_world) 102
                 (Z.to_nat
                    (_IOC_SIZE (dispatched_cmd sample_platform 1074004240)))
               = None) by (vm_compute; reflexivity).
  split; [exact H1|]. split; [exact H2|].
  destruct (kgsl_ioctl_refuses_unreadable_argument sample_platform
              sample_ioctl_funcs 1 1074004240 102 sample_user_world H1 H2)
    as (evs & w' & Hrun & Hd & _).
  exists w'. split; [exact Hrun | exact Hd].
Defined.

Lemma kgsl_ioctl_releases_device_mutex_witness :
  let cmd := 2147745808 in
  let w := sample_user_world in
  kgsl_ioctl_copy_in sample_platform (dispatched_cmd sample_platform cmd)
                     100 w = Ok (inr (Some [0; 0; 0; 0])) w /\
  exists r w',
    kgsl_ioctl sample_platform sample_ioctl_funcs 1 cmd 100 w = Ok r w' /\
    mutex (w_dev w') = false.
Proof.
  cbv zeta.
  assert (Hcopy :
    kgsl_ioctl_copy_in sample_platform
      (dispatched_cmd sample_platform 2147745808) 100 sample_user_world
    = Ok (inr (Some [0; 0; 0; 0])) sample_user_world).
  { vm_compute. reflexivity. }
  split; [exact Hcopy|].
  destruct (kgsl_ioctl_releases_device_mutex sample_platform
              sample_ioctl_funcs 1 2147745808 100 sample_user_world
              (Some [0; 0; 0; 0]) sample_user_world (- EINVAL) [1; 2; 3; 4]
              (world_for_handler sample_platform true sample_user_world)
              Hcopy eq_refl)
    as (r & w' & Hrun & _ & _ & _ & Hlock & _).
  exists r, w'. split; [exact Hrun|]. apply Hlock. reflexivity.
Defined.

Section SuspendOrder.

Context (P : platform).

Local Abbreviation device_at_switch := (device_at_switch P).

Ltac run_suspend_device :=
  unfold kgsl_suspend_device, wait_for_suspend_gate,
    mutex_lock, mutex_unlock, modify_dev, emit, get_dev,
    put_dev, bind, ret;
  cbn [w_dev w_hw w_proc w_user w_kzalloc w_trace active_cnt
       set_mutex set_nap_allowed set_requested_state].

Ltac split_ftbl_calls :=
  rewrite ?call_ftbl_run; cbn iota beta; rewrite ?suspend_stop_run;
  cbn iota beta zeta.

(* kgsl_suspend on one device, by the state the switch finds *)
Lemma kgsl_suspend_device_closed_form (w : world P) :
  let ds := device_at_switch (w_dev w) in
  let stopped := set_state KGSL_STATE_SUSPEND (set_hwaccess_gate 0 ds) in
  let restored d :=
    set_mutex false
      (set_nap_allowed (nap_allowed (w_dev w))
         (set_requested_state KGSL_STATE_NONE d)) in
  exists r evs w',
    kgsl_suspend_device P w = Ok r w' /\
    w_trace w' = w_trace w ++ evs /\
    In EvDelTimer evs /\
    match state ds with
    | KGSL_STATE_INIT =>
        r = None /\ ftbl_calls evs = [] /\ w_dev w' = restored ds
    | KGSL_STATE_ACTIVE =>
        r = None /\
        ftbl_calls evs = [DEVICE_IDLE (KGSL_TIMEOUT_DEFAULT P);
                          DEVICE_SUSPEND_CONTEXT; DEVICE_STOP] /\
        w_dev w' = restored stopped
    | KGSL_STATE_NAP
    | KGSL_STATE_SLEEP =>
        r = None /\
        ftbl_calls evs = [DEVICE_SUSPEND_CONTEXT; DEVICE_STOP] /\
        w_dev w' = restored stopped
    | KGSL_STATE_NONE
    | KGSL_STATE_SUSPEND =>
        r = Some (- EINVAL) /\ ftbl_calls evs = [] /\
        w_dev w' = set_mutex false ds /\
        (active_cnt (w_dev w) = 0 ->
         requested_state (w_dev w') = KGSL_STATE_SUSPEND /\
         nap_allowed (w_dev w') = false)
    end.
Proof.
  destruct w as [d h p u k t].
  destruct d as [di st rs ac oc na it q ci mx sg hg].
  unfold device_at_switch. simpl.
  destruct (ac =? 0) eqn:Ea; [|destruct (0 <? sg) eqn:Eg].
  - simpl. destruct st eqn:Es.
    all: run_suspend_device; rewrite Ea; simpl.
    all: split_ftbl_calls; simpl.
    all: do 3 eexists; split; [reflexivity|].
    all: split; [simpl; rewrite <- ?app_assoc; reflexivity|].
    all: simpl; repeat split; auto 12;
      try (apply Z.eqb_neq in Ea; simpl in *; congruence).
  - simpl. destruct st eqn:Es.
    all: run_suspend_device; rewrite Ea; simpl; rewrite Eg; simpl.
    all: split_ftbl_calls; simpl.
    all: do 3 eexists; split; [reflexivity|].
    all: split; [simpl; rewrite <- ?app_assoc; reflexivity|].
    all: simpl; repeat split; auto 12;
      try (apply Z.eqb_neq in Ea; simpl in *; congruence).
  - simpl.
    destruct (state (suspend_gate_wakeup P _)) eqn:Es.
    all: run_suspend_device; rewrite Ea; simpl; rewrite Eg; simpl;
      rewrite Es.
    all: split_ftbl_calls; simpl.
    all: do 3 eexists; split; [reflexivity|].
    all: split; [simpl; rewrite <- ?app_assoc; reflexivity|].
    all: simpl; repeat split; auto 12;
      try (apply Z.eqb_neq in Ea; simpl in *; congruence).
Qed.


(** X9.  What [kgsl_suspend] leaves of one device, by the state [ds] the
    switch finds.  From [Active] the backend is asked to idle, then to save
    the context, then to stop, in that order; from [Nap] and [Sleep] to
    save the context and to stop; from [Init] nothing is asked.  In these
    cases the hardware-access gate is reset when the backend stops, the
    requested state is cleared, [nap_allowed] gets back the value it had on
    entry, and the mutex is released.  From any other state the function
    returns early: the mutex is released, but the flags set on entry stay
    as they are, [nap_allowed] off and the requested state [Suspend]. The
    idle timer is deleted in every case. *)
Theorem kgsl_suspend_device_effects (w : world P) :
  let ds := device_at_switch (w_dev w) in
  let stopped := set_state KGSL_STATE_SUSPEND (set_hwaccess_gate 0 ds) in
  let restored d :=
    set_mutex false
      (set_nap_allowed (nap_allowed (w_dev w))
         (set_requested_state KGSL_STATE_NONE d)) in
  exists r evs w',
    kgsl_suspend_device P w = Ok r w' /\
    w_trace w' = w_trace w ++ evs /\
    In EvDelTimer evs /\
    match state ds with
    | KGSL_STATE_INIT =>
        r = None /\ ftbl_calls evs = [] /\ w_dev w' = restored ds
    | KGSL_STATE_ACTIVE =>
        r = None /\
        ftbl_calls evs = [DEVICE_IDLE (KGSL_TIMEOUT_DEFAULT P);
                          DEVICE_SUSPEND_CONTEXT; DEVICE_STOP] /\
        w_dev w' = restored stopped
    | KGSL_STATE_NAP
    | KGSL_STATE_SLEEP =>
        r = None /\
        ftbl_calls evs = [DEVICE_SUSPEND_CONTEXT; DEVICE_STOP] /\
        w_dev w' = restored stopped
    | KGSL_STATE_NONE
    | KGSL_STATE_SUSPEND =>
        r = Some (- EINVAL) /\ ftbl_calls evs = [] /\
        w_dev w' = set_mutex false ds /\
        (active_cnt (w_dev w) = 0 ->
         requested_state (w_dev w') = KGSL_STATE_SUSPEND /\
         nap_allowed (w_dev w') = false)
    end.
Proof. exact (kgsl_suspend_device_closed_form w). Qed.

End SuspendOrder.

Section IssueOutcome.

Context (P : platform).

(* kgsl_ioctl_rb_issueibcmds up to the first check_ibdesc *)
Lemma kgsl_ioctl_rb_issueibcmds_front (w : world P) (dev_priv : Z)
  (param param' : kgsl_ringbuffer_issueibcmds) (context : kgsl_context)
  (ibdesc : list kgsl_ibdesc) :
  kgsl_find_context (w_dev w) dev_priv (ii_drawctxt_id param)
  = Some context ->
  ibdesc_of_request P w param ibdesc param' ->
  nth 0 (w_kzalloc w) true = true ->
  exists pre,
    kgsl_ioctl_rb_issueibcmds P dev_priv param w
    = issueibcmds_submit P dev_priv context ibdesc param'
        (mk_world (w_dev w) (w_hw w) (w_proc w) (w_user w)
                  (tl (w_kzalloc w)) (w_trace w ++ pre)) /\
    ftbl_calls pre = [] /\
    ~ In EvKfreeIbdesc pre.
Proof.
  intros Hctx Hreq Hk. destruct w as [d h p u k t].
  cbn [w_dev w_hw w_proc w_user w_kzalloc w_trace] in *.
  unfold ibdesc_of_request in Hreq. cbn [w_user] in Hreq.
  exists ((if CONFIG_MSM_KGSL_MMU P && kgsl_cache_enable P
           then flat_map
                  (fun entry =>
                     if flag_set (md_priv (memdesc entry))
                                 (KGSL_MEMFLAGS_CACHE_MASK P)
                     then [EvCacheRangeOp (md_hostptr (memdesc entry))
                                          (md_size (memdesc entry))
                                          (md_priv (memdesc entry))]
                     else [])
                  (mem_list p)
           else [])
          ++ (if CONFIG_MSM_KGSL_DRM P then [EvGpuMemFlush true] else [])
          ++ (if flag_set (ii_flags param) (KGSL_CONTEXT_SUBMIT_IB_LIST P)
              then [EvLog "Using IB list mode for ib submission, numibs: %d"
                          [ii_numibs param]]
              else [EvLog "Using single IB submission mode for ib submission"
                          []])).
  split; [|split].
  - unfold kgsl_ioctl_rb_issueibcmds, kgsl_clean_cache_all.
    unfold bind at 1.
    assert (Hpop : forall A (f : bool -> K P A) (t0 : list event),
               bind kzalloc f (mk_world d h p u k t0)
               = f true (mk_world d h p u (tl k) t0)).
    { intros A f t0. unfold bind, kzalloc. cbn [w_kzalloc].
      destruct k as [|b k']; [reflexivity|]. cbn [nth] in Hk. subst b.
      reflexivity. }
    destruct (CONFIG_MSM_KGSL_MMU P && kgsl_cache_enable P);
      destruct (CONFIG_MSM_KGSL_DRM P);
      unfold bind at 1; unfold get_proc, emit_all, emit, ret, get_dev;
      cbn [w_dev w_hw w_proc w_user w_kzalloc w_trace];
      try (unfold bind at 1;
           cbn [w_dev w_hw w_proc w_user w_kzalloc w_trace]);
      try (unfold bind at 1;
           cbn [w_dev w_hw w_proc w_user w_kzalloc w_trace]);
      rewrite Hctx;
      (destruct (flag_set (ii_flags param) (KGSL_CONTEXT_SUBMIT_IB_LIST P));
       [ destruct Hreq as (Hn & Hw & Hread & Hlen & Hp); subst param';
         unfold bind at 1;
         cbn [w_dev w_hw w_proc w_user w_kzalloc w_trace];
         replace (ii_numibs param =? 0) with false
           by (symmetry; apply Z.eqb_neq; lia);
         rewrite Hpop; cbn [negb w_user];
         rewrite (u32_id (sizeof_kgsl_ibdesc * ii_numibs param))
           by (unfold is_u32, sizeof_kgsl_ibdesc in *; lia);
         rewrite Z.eqb_refl; cbn [negb w_user]; rewrite Hread;
         rewrite <- ?app_assoc; cbn [app]; rewrite ?app_nil_r; reflexivity
       | destruct Hreq as (Hi & Hp); subst param' ibdesc; unfold bind at 1;
         cbn [w_dev w_hw w_proc w_user w_kzalloc w_trace];
         rewrite Hpop; cbn [negb];
         rewrite <- ?app_assoc; cbn [app]; rewrite ?app_nil_r;
         reflexivity ]).
  - rewrite !ftbl_calls_app.
    destruct (CONFIG_MSM_KGSL_MMU P && kgsl_cache_enable P);
      destruct (CONFIG_MSM_KGSL_DRM P);
      destruct (flag_set (ii_flags param) (KGSL_CONTEXT_SUBMIT_IB_LIST P));
      rewrite ?ftbl_calls_clean_cache; reflexivity.
  - intros Hin. apply in_app_or in Hin. destruct Hin as [Hin|Hin].
    + destruct (CONFIG_MSM_KGSL_MMU P && kgsl_cache_enable P);
        [|destruct Hin].
      apply in_flat_map in Hin. destruct Hin as (e & _ & Hin).
      destruct (flag_set (md_priv (memdesc e)) _); cbn in Hin;
        intuition discriminate.
    + apply in_app_or in Hin. destruct Hin as [Hin|Hin].
      * destruct (CONFIG_MSM_KGSL_DRM P); cbn in Hin; intuition discriminate.
      * destruct (flag_set (ii_flags param) _); cbn in Hin;
          intuition discriminate.
Qed.

(** X10.  [kgsl_ioctl_rb_issueibcmds] for a known context and when the
    descriptor array could be allocated, in the single-buffer form and in
    the list form with a count whose array fits 32 bits
    ([sizeof(struct kgsl_ibdesc) * numibs] does not wrap) and is read from
    the caller as [numibs] descriptors: if the byte extent of one of the
    command buffers, where no 32-bit sum wraps, lies in no region of the
    process, the request returns -EINVAL, no backend operation is called,
    the descriptor array is freed, and the device, the backend, the
    process and user memory are as before. *)
Theorem kgsl_ioctl_rb_issueibcmds_rejects_uncontained_buffer (w : world P)
  (dev_priv : Z) (param param' : kgsl_ringbuffer_issueibcmds)
  (context : kgsl_context) (ibdesc : list kgsl_ibdesc) :
  kgsl_find_context (w_dev w) dev_priv (ii_drawctxt_id param)
  = Some context ->
  ibdesc_of_request P w param ibdesc param' ->
  nth 0 (w_kzalloc w) true = true ->
  regions_fit (mem_list (w_proc w)) ->
  Exists (ib_outside (w_proc w)) ibdesc ->
  exists evs w',
    kgsl_ioctl_rb_issueibcmds P dev_priv param w = Ok (- EINVAL, param') w' /\
    w_dev w' = w_dev w /\ w_hw w' = w_hw w /\ w_proc w' = w_proc w /\
    w_user w' = w_user w /\
    w_trace w' = w_trace w ++ evs /\
    ftbl_calls evs = [] /\
    In EvKfreeIbdesc evs.
Proof.
  intros Hctx Hreq Hk Hfit Hbad.
  destruct (kgsl_ioctl_rb_issueibcmds_front w dev_priv param param' context
              ibdesc Hctx Hreq Hk) as (pre & Hrun & Hpre & _).
  rewrite Hrun.
  apply Exists_exists in Hbad. destruct Hbad as (ib & Hin & Hs & Hsum & Hout).
  match goal with
  | |- context [issueibcmds_submit P _ _ _ _ ?w0] =>
      destruct (issueibcmds_submit_rejects P w0 dev_priv context ibdesc
                  param') as (evs & Hsub & Hcalls & Hfree)
  end.
  { exists ib. split; [exact Hin|]. cbn [w_proc].
    rewrite (u32_id _ Hs).
    apply (find_region_none_no_wrap (w_proc w) (ib_gpuaddr ib)
             (ib_sizedwords ib * 4) Hsum Hfit).
    exact Hout. }
  rewrite Hsub. exists (pre ++ evs). eexists. split; [reflexivity|].
  cbn [w_dev w_hw w_proc w_user w_kzalloc w_trace].
  repeat (split; [reflexivity|]).
  split; [rewrite app_assoc; reflexivity|].
  split; [rewrite ftbl_calls_app, Hpre, Hcalls; reflexivity|].
  apply in_or_app. right. exact Hfree.
Qed.

(* check_ibdesc on buffers that pass *)
Lemma check_ibdesc_from_accepts (private : kgsl_process_private)
  (dev_priv : Z) (parse : bool) (numibs i : Z) (ibdesc : list kgsl_ibdesc) :
  Forall (ib_accepted P private dev_priv) ibdesc ->
  check_ibdesc_from P private dev_priv parse numibs i ibdesc = ([], true).
Proof.
  intros Hall. revert i. induction Hall as [|ib rest Hib Hrest IH]; intros i.
  - reflexivity.
  - cbn [check_ibdesc_from]. destruct Hib as (entry & Hfind & Hparse).
    rewrite Hfind, Hparse. cbn [negb]. rewrite andb_false_r. apply IH.
Qed.

(** X11.  [kgsl_ioctl_rb_issueibcmds] for a known context and when the
    descriptor array could be allocated, in the single-buffer form and in
    the list form with a count whose array fits 32 bits and is read from
    the caller as [numibs] descriptors: if every command buffer passes the
    check before the issue, the backend is asked to issue the array, with
    the count and the flags of the payload, exactly once; the request
    returns, with the timestamp the backend gave in the payload and the
    backend as the issue left it; an error of the backend is the result of
    the request; and the descriptor array is freed exactly once, after the
    issue.  What the check after the issue finds is left open. *)
Theorem kgsl_ioctl_rb_issueibcmds_issues_once (w : world P)
  (dev_priv : Z) (param param' : kgsl_ringbuffer_issueibcmds)
  (context : kgsl_context) (ibdesc : list kgsl_ibdesc) :
  kgsl_find_context (w_dev w) dev_priv (ii_drawctxt_id param)
  = Some context ->
  ibdesc_of_request P w param ibdesc param' ->
  nth 0 (w_kzalloc w) true = true ->
  Forall (ib_accepted P (w_proc w) dev_priv) ibdesc ->
  let issued :=
    device_issueibcmds (ftbl P) (w_hw w) dev_priv context ibdesc
                       (ii_numibs param') (ii_timestamp param')
                       (ii_flags param') in
  exists result pre mid post w',
    kgsl_ioctl_rb_issueibcmds P dev_priv param w
    = Ok (result,
          mk_issueibcmds (ii_drawctxt_id param') (ii_ibdesc_addr param')
                         (ii_numibs param') (snd issued) (ii_flags param'))
         w' /\
    (snd (fst issued) <> 0 -> result = snd (fst issued)) /\
    w_hw w' = fst (fst issued) /\
    w_trace w'
    = w_trace w ++ pre
        ++ [EvFtbl (DEVICE_ISSUEIBCMDS context ibdesc (ii_numibs param')
                                       (ii_flags param'))]
        ++ mid ++ [EvKfreeIbdesc] ++ post /\
    ftbl_calls pre = [] /\ ~ In EvKfreeIbdesc pre /\
    ftbl_calls mid = [] /\ ~ In EvKfreeIbdesc mid /\
    ftbl_calls post = [] /\ ~ In EvKfreeIbdesc post.
Proof.
  intros Hctx Hreq Hk Hall issued.
  destruct (kgsl_ioctl_rb_issueibcmds_front w dev_priv param param' context
              ibdesc Hctx Hreq Hk) as (pre & Hrun & Hpre & Hnofree).
  rewrite Hrun. clear Hrun.
  destruct w as [d h p u k t].
  cbn [w_dev w_hw w_proc w_user w_kzalloc w_trace] in *.
  exists (snd (fst issued)), pre, [],
    (if CONFIG_MSM_KGSL_DRM P then [EvGpuMemFlush false] else []).
  unfold issueibcmds_submit, check_ibdesc.
  unfold bind at 1. unfold bind at 1. unfold get_proc at 1. cbn [w_proc].
  rewrite (check_ibdesc_from_accepts p dev_priv true (ii_numibs param') 0
             ibdesc Hall).
  unfold bind at 1. unfold emit_all at 1.
  cbn [w_dev w_hw w_proc w_user w_kzalloc w_trace].
  unfold ret at 1. cbn [negb].
  unfold bind at 1. unfold emit at 1.
  cbn [w_dev w_hw w_proc w_user w_kzalloc w_trace].
  unfold bind at 1. unfold get_hw at 1. cbn [w_hw].
  fold issued. destruct issued as [[h' result] timestamp].
  cbn [fst snd].
  unfold bind at 1. unfold put_hw at 1.
  cbn [w_dev w_hw w_proc w_user w_kzalloc w_trace ii_numibs ii_flags
       ii_drawctxt_id ii_ibdesc_addr ii_timestamp].
  rewrite app_nil_r.
  assert (Hend : forall t0,
            issueibcmds_free_ibdesc P result
              (mk_issueibcmds (ii_drawctxt_id param') (ii_ibdesc_addr param')
                              (ii_numibs param') timestamp (ii_flags param'))
              (mk_world d h' p u (tl k) t0)
            = Ok (result,
                  mk_issueibcmds (ii_drawctxt_id param')
                                 (ii_ibdesc_addr param') (ii_numibs param')
                                 timestamp (ii_flags param'))
                 (mk_world d h' p u (tl k)
                    (t0 ++ [EvKfreeIbdesc]
                        ++ (if CONFIG_MSM_KGSL_DRM P
                            then [EvGpuMemFlush false] else [])))).
  { intros t0. unfold issueibcmds_free_ibdesc, issueibcmds_done.
    unfold bind, emit, ret.
    cbn [w_dev w_hw w_proc w_user w_kzalloc w_trace].
    destruct (CONFIG_MSM_KGSL_DRM P);
      cbn [w_dev w_hw w_proc w_user w_kzalloc w_trace];
      rewrite <- ?app_assoc; cbn [app]; rewrite ?app_nil_r; reflexivity. }
  destruct (negb (result =? 0)).
  - rewrite Hend. eexists. split; [reflexivity|].
    cbn [w_dev w_hw w_proc w_user w_kzalloc w_trace].
    split; [intros _; reflexivity|]. split; [reflexivity|].
    split; [rewrite <- !app_assoc; reflexivity|].
    split; [exact Hpre|]. split; [exact Hnofree|].
    split; [reflexivity|]. split; [intros []|].
    destruct (CONFIG_MSM_KGSL_DRM P); cbn; intuition discriminate.
  - unfold bind at 1. unfold bind at 1. unfold get_proc at 1. cbn [w_proc].
    cbn [ii_numibs].
    rewrite (check_ibdesc_from_accepts p dev_priv false (ii_numibs param') 0
               ibdesc Hall).
    unfold bind at 1. unfold emit_all at 1.
    cbn [w_dev w_hw w_proc w_user w_kzalloc w_trace].
    unfold ret at 1. cbn [negb]. rewrite app_nil_r.
    rewrite Hend. eexists. split; [reflexivity|].
    cbn [w_dev w_hw w_proc w_user w_kzalloc w_trace].
    split; [intros _; reflexivity|]. split; [reflexivity|].
    split; [rewrite <- !app_assoc; reflexivity|].
    split; [exact Hpre|]. split; [exact Hnofree|].
    split; [reflexivity|]. split; [intros []|].
    destruct (CONFIG_MSM_KGSL_DRM P); cbn; intuition discriminate.
Qed.

End IssueOutcome.

Lemma kgsl_ioctl_rb_issueibcmds_rejects_uncontained_buffer_witness :
  let entry := sample_entry 4096 4096 0 7 in
  let context := mk_context 0 1 1 in
  let w := sample_world (sample_device [] [Some context]) 0 0 [entry] in
  let param := mk_issueibcmds 0 20000 16 0 0 in
  let param' := mk_issueibcmds 0 20000 1 0 0 in
  kgsl_find_context (w_dev w) 1 (ii_drawctxt_id param) = Some context /\
  ibdesc_of_request sample_platform w param [mk_ibdesc 20000 16] param' /\
  nth 0 (w_kzalloc w) true = true /\
  regions_fit (mem_list (w_proc w)) /\
  Exists (ib_outside (w_proc w)) [mk_ibdesc 20000 16] /\
  exists w',
    kgsl_ioctl_rb_issueibcmds sample_platform 1 param w
    = Ok (- EINVAL, param') w' /\
    w_hw w' = w_hw w.
Proof.
  cbv zeta.
  set (w := sample_world (sample_device [] [Some (mk_context 0 1 1)]) 0 0
                         [sample_entry 4096 4096 0 7]).
  assert (H1 : kgsl_find_context (w_dev w) 1
                 (ii_drawctxt_id (mk_issueibcmds 0 20000 16 0 0))
               = Some (mk_context 0 1 1)) by reflexivity.
  assert (H2 : ibdesc_of_request sample_platform w
                 (mk_issueibcmds 0 20000 16 0 0) [mk_ibdesc 20000 16]
                 (mk_issueibcmds 0 20000 1 0 0))
    by (split; reflexivity).
  assert (H3 : nth 0 (w_kzalloc w) true = true) by reflexivity.
  assert (H4 : regions_fit (mem_list (w_proc w))).
  { repeat constructor; unfold is_u32, UINT_MAX; simpl; lia. }
  assert (H5 : Exists (ib_outside (w_proc w)) [mk_ibdesc 20000 16]).
  { constructor. unfold ib_outside, is_u32, UINT_MAX. simpl.
    split; [lia|]. split; [lia|].
    intros e [He|[]]. subst e. unfold spec_range_contains. simpl. lia. }
  split; [exact H1|]. split; [exact H2|]. split; [exact H3|].
  split; [exact H4|]. split; [exact H5|].
  destruct (kgsl_ioctl_rb_issueibcmds_rejects_uncontained_buffer
              sample_platform w 1 (mk_issueibcmds 0 20000 16 0 0)
              (mk_issueibcmds 0 20000 1 0 0) (mk_context 0 1 1)
              [mk_ibdesc 20000 16] H1 H2 H3 H4 H5)
    as (evs & w' & Hrun & _ & Hh & _).
  exists w'. split; [exact Hrun | exact Hh].
Defined.

Lemma kgsl_ioctl_rb_issueibcmds_issues_once_witness :
  let entry := sample_entry 4096 4096 0 7 in
  let context := mk_context 0 1 1 in
  let w := sample_list_world (sample_device [] [Some context]) [entry] in
  let param := mk_issueibcmds 0 100 1 0 1 in
  kgsl_find_context (w_dev w) 1 (ii_drawctxt_id param) = Some context /\
  ibdesc_of_request sample_platform w param [mk_ibdesc 5000 16] param /\
  nth 0 (w_kzalloc w) true = true /\
  Forall (ib_accepted sample_platform (w_proc w) 1) [mk_ibdesc 5000 16] /\
  exists result w',
    kgsl_ioctl_rb_issueibcmds sample_platform 1 param w
    = Ok (result, mk_issueibcmds 0 100 1 1 1) w' /\
    hw_consumed (w_hw w') = 1.
Proof.
  cbv zeta.
  set (w := sample_list_world (sample_device [] [Some (mk_context 0 1 1)])
                              [sample_entry 4096 4096 0 7]).
  assert (H1 : kgsl_find_context (w_dev w) 1
                 (ii_drawctxt_id (mk_issueibcmds 0 100 1 0 1))
               = Some (mk_context 0 1 1)) by reflexivity.
  assert (H2 : ibdesc_of_request sample_platform w
                 (mk_issueibcmds 0 100 1 0 1) [mk_ibdesc 5000 16]
                 (mk_issueibcmds 0 100 1 0 1)).
  { split; [reflexivity|]. split; [discriminate|].
    split; [reflexivity|]. split; reflexivity. }
  assert (H3 : nth 0 (w_kzalloc w) true = true) by reflexivity.
  assert (H4 : Forall (ib_accepted sample_platform (w_proc w) 1)
                      [mk_ibdesc 5000 16]).
  { constructor; [|constructor].
    exists (sample_entry 4096 4096 0 7). split; reflexivity. }
  split; [exact H1|]. split; [exact H2|]. split; [exact H3|].
  split; [exact H4|].
  destruct (kgsl_ioctl_rb_issueibcmds_issues_once
              sample_platform w 1 (mk_issueibcmds 0 100 1 0 1)
              (mk_issueibcmds 0 100 1 0 1) (mk_context 0 1 1)
              [mk_ibdesc 5000 16] H1 H2 H3 H4)
    as (result & pre & mid & post & w' & Hrun & _ & Hh & _).
  exists result, w'. split; [exact Hrun|]. rewrite Hh. reflexivity.
Defined.

Section AddressFacts.

Context (P : platform).

Variable __va : Z -> Z.

(** X12.  [kgsl_gpuaddr_to_vaddr] on a region that does not reach past the
    end of the 32-bit address space.  For an address inside the region,
    when the region is backed, the pointer returned is the backing pointer
    moved by the offset of the address in the region, and [*size] is the
    number of bytes from the address to the end of the region.  For every
    other address, below the region as well as at or past its end, the
    answer is NULL with [*size] 0. *)
Theorem kgsl_gpuaddr_to_vaddr_window (memdesc : kgsl_memdesc) (gpuaddr : Z) :
  is_u32 gpuaddr ->
  is_u32 (md_gpuaddr memdesc) ->
  0 <= md_size memdesc ->
  is_u32 (md_gpuaddr memdesc + md_size memdesc) ->
  let base := md_gpuaddr memdesc in
  let ptr := memdesc_ptr P __va memdesc in
  kgsl_gpuaddr_to_vaddr P __va memdesc gpuaddr
  = if (base <=? gpuaddr) && (gpuaddr <? base + md_size memdesc)
       && negb (ptr =? 0)
    then (u32 (ptr + (gpuaddr - base)), base + md_size memdesc - gpuaddr)
    else (0, 0).
Proof.
  intros Ha Hb Hs He base ptr. unfold kgsl_gpuaddr_to_vaddr.
  fold ptr. fold base. unfold is_u32, UINT_MAX in *. fold base in Hb, He.
  destruct (base <=? gpuaddr) eqn:E1.
  - apply Z.leb_le in E1.
    assert (Ho : u32 (gpuaddr - base) = gpuaddr - base).
    { unfold u32. apply Z.mod_small. lia. }
    rewrite Ho.
    destruct (gpuaddr <? base + md_size memdesc) eqn:E2.
    + apply Z.ltb_lt in E2.
      replace (md_size memdesc <=? gpuaddr - base) with false
        by (symmetry; apply Z.leb_gt; lia).
      cbn [andb]. destruct (ptr =? 0); cbn [negb]; [reflexivity|].
      f_equal. unfold u32. rewrite Z.mod_small by lia. lia.
    + apply Z.ltb_ge in E2.
      replace (md_size memdesc <=? gpuaddr - base) with true
        by (symmetry; apply Z.leb_le; lia).
      reflexivity.
  - apply Z.leb_gt in E1.
    assert (Ho : u32 (gpuaddr - base) = gpuaddr - base + 4294967296).
    { unfold u32.
      rewrite <- (Z.mod_add (gpuaddr - base) 1 4294967296) by lia.
      apply Z.mod_small. lia. }
    rewrite Ho.
    replace (md_size memdesc <=? gpuaddr - base + 4294967296) with true
      by (symmetry; apply Z.leb_le; lia).
    reflexivity.
Qed.

End AddressFacts.

Lemma kgsl_gpuaddr_to_vaddr_window_witness :
  let memdesc := sample_memdesc 4096 8192 in
  is_u32 5000 /\
  is_u32 (md_gpuaddr memdesc) /\
  0 <= md_size memdesc /\
  is_u32 (md_gpuaddr memdesc + md_size memdesc) /\
  kgsl_gpuaddr_to_vaddr sample_platform (fun a => a) memdesc 5000
  = (3221225472 + 5000, 4096 + 8192 - 5000) /\
  kgsl_gpuaddr_to_vaddr sample_platform (fun a => a) memdesc 4000 = (0, 0).
Proof.
  cbv zeta.
  assert (H1 : is_u32 5000) by (unfold is_u32, UINT_MAX; lia).
  assert (H2 : is_u32 (md_gpuaddr (sample_memdesc 4096 8192)))
    by (unfold is_u32, UINT_MAX; simpl; lia).
  assert (H3 : 0 <= md_size (sample_memdesc 4096 8192)) by (simpl; lia).
  assert (H4 : is_u32 (md_gpuaddr (sample_memdesc 4096 8192)
                       + md_size (sample_memdesc 4096 8192)))
    by (unfold is_u32, UINT_MAX; simpl; lia).
  assert (H0 : is_u32 4000) by (unfold is_u32, UINT_MAX; lia).
  split; [exact H1|]. split; [exact H2|]. split; [exact H3|].
  split; [exact H4|]. split.
  - exact (kgsl_gpuaddr_to_vaddr_window sample_platform (fun a => a)
             (sample_memdesc 4096 8192) 5000 H1 H2 H3 H4).
  - exact (kgsl_gpuaddr_to_vaddr_window sample_platform (fun a => a)
             (sample_memdesc 4096 8192) 4000 H0 H2 H3 H4).
Defined.

Section DeviceTableFacts.

Lemma find_slot_spec (wanted : Z) (l : list Z) (i : Z) :
  exists n : nat,
    find_slot wanted l i = i + Z.of_nat n /\
    (n <= List.length l)%nat /\
    (forall j, (j < n)%nat -> nth j l 0 <> wanted) /\
    ((n < List.length l)%nat -> nth n l 0 = wanted) /\
    (n = List.length l <-> ~ In wanted l).
Proof.
  revert i. induction l as [|slot rest IH]; intros i.
  - exists 0%nat. cbn. rewrite Z.add_0_r. split; [reflexivity|].
    split; [lia|]. split; [intros j Hj; lia|]. split; [lia|].
    split; [intros _ []|reflexivity].
  - cbn [find_slot]. destruct (slot =? wanted) eqn:E.
    + apply Z.eqb_eq in E. exists 0%nat. rewrite Z.add_0_r.
      split; [reflexivity|]. cbn [List.length nth].
      split; [lia|]. split; [intros j Hj; lia|]. split; [intros _; exact E|].
      split; [intros H; discriminate|].
      intros H. exfalso. apply H. left. exact E.
    + apply Z.eqb_neq in E.
      destruct (IH (i + 1)) as (n & Hm & Hlen & Hbefore & Hat & Hnone).
      exists (S n). split; [rewrite Hm; lia|]. cbn [List.length].
      split; [lia|]. split.
      { intros j Hj. destruct j as [|j]; [exact E|]. cbn [nth].
        apply Hbefore. lia. }
      split; [intros Hlt; cbn [nth]; apply Hat; lia|].
      split.
      * intros Hn [Hin|Hin]; [contradiction|].
        apply Hnone; [lia | exact Hin].
      * intros Hn. f_equal. apply Hnone. intros Hin. apply Hn. right.
        exact Hin.
Qed.

Lemma devp_store_length (l : list Z) (n : nat) (v : Z) :
  List.length (devp_store l n v) = List.length l.
Proof.
  revert n. induction l as [|x l IH]; intros n; [destruct n; reflexivity|].
  destruct n; cbn; [reflexivity|]. rewrite IH. reflexivity.
Qed.

Lemma nth_devp_store (l : list Z) (n j : nat) (v : Z) :
  (n < List.length l)%nat ->
  nth j (devp_store l n v) 0 = if Nat.eqb j n then v else nth j l 0.
Proof.
  revert n j. induction l as [|x l IH]; intros n j Hn; [cbn in Hn; lia|].
  destruct n as [|n]; destruct j as [|j]; cbn; try reflexivity.
  apply IH. cbn in Hn. lia.
Qed.

Lemma devp_store_back (l : list Z) (n : nat) (v : Z) :
  devp_store (devp_store l n v) n (nth n l 0) = l.
Proof.
  revert n. induction l as [|x l IH]; intros n; [destruct n; reflexivity|].
  destruct n as [|n]; cbn; [reflexivity|]. rewrite IH. reflexivity.
Qed.

Variable device_create : Z -> Z -> Z.

(* kgsl_register_device when a slot is free and the device is created *)
Lemma kgsl_register_device_run (device : Z) (drv : kgsl_driver_t) :
  let minor := find_slot 0 (devp drv) 0 in
  let dev := MKDEV (MAJOR (major drv)) minor in
  In 0 (devp drv) ->
  IS_ERR (device_create dev device) = false ->
  0 <= minor < KGSL_DEVICE_MAX drv /\
  nth (Z.to_nat minor) (devp drv) 0 = 0 /\
  (forall m, 0 <= m < minor -> nth (Z.to_nat m) (devp drv) 0 <> 0) /\
  kgsl_register_device device_create device drv
  = (0,
     mk_driver (devp_store (devp drv) (Z.to_nat minor) device) (major drv)
       (kgsl_debugfs_dir drv) false
       (fun p => if p =? device
                 then set_open_count (-1) (heap drv device)
                 else heap drv p)
       (fun p => if p =? device then device_create dev device
                 else dev_of drv p)
       (reg_trace drv
          ++ [RegDeviceCreate dev device]
          ++ (if negb (kgsl_debugfs_dir drv =? 0)
                 && negb (IS_ERR (kgsl_debugfs_dir drv))
              then [RegDebugfsCreateDir device] else [])
          ++ [RegDeviceLogInit device; RegPwrctrlInitSysfs device])).
Proof.
  destruct drv as [l mj dd lk hp dv tr].
  cbn [devp major kgsl_debugfs_dir devlock heap dev_of reg_trace].
  intros Hfree Hok.
  set (minor := find_slot 0 l 0) in *.
  set (dev := MKDEV (MAJOR mj) minor) in *.
  destruct (find_slot_spec 0 l 0) as (n & Hm & Hlen & Hbefore & Hat & Hnone).
  fold minor in Hm. rewrite Z.add_0_l in Hm.
  assert (Hn : (n < List.length l)%nat).
  { destruct (Nat.eq_dec n (List.length l)) as [E|E]; [|lia].
    exfalso. apply Hnone in E. contradiction. }
  unfold KGSL_DEVICE_MAX. cbn [devp].
  split; [lia|]. rewrite Hm, Nat2Z.id. split; [exact (Hat Hn)|].
  split.
  { intros m Hr. apply Hbefore. lia. }
  unfold kgsl_register_device, KGSL_DEVICE_MAX, set_devlock.
  cbn [devp major kgsl_debugfs_dir devlock heap dev_of reg_trace].
  fold minor.
  replace (minor <? Z.of_nat (List.length l)) with true
    by (symmetry; apply Z.ltb_lt; lia).
  unfold set_devp. cbn [devp major kgsl_debugfs_dir devlock heap dev_of reg_trace].
  rewrite devp_store_length.
  replace (minor =? Z.of_nat (List.length l)) with false
    by (symmetry; apply Z.eqb_neq; lia).
  unfold reg_emit, set_heap, set_dev_of.
  cbn [devp major kgsl_debugfs_dir devlock heap dev_of reg_trace].
  fold dev. rewrite Hok. rewrite Hm, Nat2Z.id.
  destruct (negb (dd =? 0) && negb (IS_ERR dd));
    cbn [devp major kgsl_debugfs_dir devlock heap dev_of reg_trace];
    rewrite <- ?app_assoc; reflexivity.
Qed.

(** X13.  [kgsl_register_device], when the table has an empty slot and
    the device node can be created, returns 0 and gives the device the
    lowest free minor: the slot of that minor was empty, every slot below
    it is taken, afterwards [kgsl_get_minor] answers the device for that
    minor and what it answered before for every other, the open count of
    the device is -1, and the table lock is released. *)
Theorem kgsl_register_device_takes_lowest_free_minor (device : Z)
  (drv : kgsl_driver_t) :
  let minor := find_slot 0 (devp drv) 0 in
  In 0 (devp drv) ->
  IS_ERR (device_create (MKDEV (MAJOR (major drv)) minor) device) = false ->
  exists drv',
    kgsl_register_device device_create device drv = (0, drv') /\
    0 <= minor < KGSL_DEVICE_MAX drv /\
    fst (kgsl_get_minor minor drv) = 0 /\
    (forall m, 0 <= m < minor -> fst (kgsl_get_minor m drv) <> 0) /\
    fst (kgsl_get_minor minor drv') = device /\
    (forall m, m <> minor ->
               fst (kgsl_get_minor m drv') = fst (kgsl_get_minor m drv)) /\
    open_count (heap drv' device) = -1 /\
    devlock drv' = false.
Proof.
  intros minor Hfree Hok.
  destruct (kgsl_register_device_run device drv Hfree Hok)
    as (Hr & Hslot & Hlow & Hrun).
  fold minor in Hr, Hslot, Hlow, Hrun.
  eexists. split; [exact Hrun|].
  unfold KGSL_DEVICE_MAX in Hr.
  assert (Hget : forall m l mj dd lk hp dv tr,
            fst (kgsl_get_minor m (mk_driver l mj dd lk hp dv tr))
            = if (m <? 0) || (Z.of_nat (List.length l) <=? m) then 0
              else nth (Z.to_nat m) l 0).
  { intros m l mj dd lk hp dv tr. unfold kgsl_get_minor, KGSL_DEVICE_MAX.
    cbn [devp]. destruct ((m <? 0) || (Z.of_nat (List.length l) <=? m));
      reflexivity. }
  destruct drv as [l mj dd lk hp dv tr].
  cbn [devp major kgsl_debugfs_dir devlock heap dev_of reg_trace] in *.
  split; [unfold KGSL_DEVICE_MAX; cbn [devp]; exact Hr|].
  rewrite !Hget.
  assert (Hin : (minor <? 0) || (Z.of_nat (List.length l) <=? minor) = false).
  { apply orb_false_iff. split; [apply Z.ltb_ge | apply Z.leb_gt]; lia. }
  split; [rewrite Hin; exact Hslot|].
  split.
  { intros m Hm. rewrite Hget.
    replace ((m <? 0) || (Z.of_nat (List.length l) <=? m)) with false
      by (symmetry; apply orb_false_iff;
          split; [apply Z.ltb_ge | apply Z.leb_gt]; lia).
    apply Hlow. exact Hm. }
  split.
  { rewrite devp_store_length, Hin, nth_devp_store by lia.
    rewrite Nat.eqb_refl. reflexivity. }
  split.
  { intros m Hm. rewrite !Hget, devp_store_length.
    destruct ((m <? 0) || (Z.of_nat (List.length l) <=? m)) eqn:E;
      [reflexivity|].
    apply orb_false_iff in E. destruct E as [E1 E2].
    apply Z.ltb_ge in E1. apply Z.leb_gt in E2.
    rewrite nth_devp_store by lia.
    replace (Nat.eqb (Z.to_nat m) (Z.to_nat minor)) with false
      by (symmetry; apply Nat.eqb_neq; lia).
    reflexivity. }
  split; [rewrite Z.eqb_refl; reflexivity | reflexivity].
Qed.

(** X14.  [kgsl_register_device] fails in two ways, and either leaves
    every slot of the table as it found them.  When no slot is empty it
    returns -ENODEV without asking for a device node and changes no
    device.  When the device node cannot be created it returns the error
    of [device_create], having given back the slot it had taken; the
    device is changed in one place: its field [dev] keeps the ERR_PTR
    that [device_create] answered. *)
Theorem kgsl_register_device_failure_restores_table (device : Z)
  (drv : kgsl_driver_t) :
  let minor := find_slot 0 (devp drv) 0 in
  let dev := MKDEV (MAJOR (major drv)) minor in
  ~ In 0 (devp drv) \/ IS_ERR (device_create dev device) = true ->
  exists r drv' evs,
    kgsl_register_device device_create device drv = (r, drv') /\
    devp drv' = devp drv /\
    heap drv' = heap drv /\
    (forall p,
       dev_of drv' p
       = if existsb (Z.eqb 0) (devp drv) && (p =? device)
         then device_create dev device else dev_of drv p) /\
    devlock drv' = false /\
    reg_trace drv' = reg_trace drv ++ evs /\
    if existsb (Z.eqb 0) (devp drv)
    then r = PTR_ERR (device_create dev device) /\
         evs = [RegDeviceCreate dev device;
                RegLog "device_create(%s): %d" [r]]
    else r = - ENODEV /\ evs = [RegLog "minor devices exhausted" []].
Proof.
  intros minor dev Hfail.
  destruct (find_slot_spec 0 (devp drv) 0)
    as (n & Hm & Hlen & Hbefore & Hat & Hnone).
  fold minor in Hm. rewrite Z.add_0_l in Hm.
  destruct (existsb (Z.eqb 0) (devp drv)) eqn:Ex.
  - apply existsb_exists in Ex. destruct Ex as (x & Hx & Hx0).
    apply Z.eqb_eq in Hx0. subst x.
    destruct Hfail as [Hfull|Herr]; [contradiction|].
    assert (Hn : (n < List.length (devp drv))%nat).
    { destruct (Nat.eq_dec n (List.length (devp drv))) as [E|E]; [|lia].
      exfalso. apply Hnone in E. contradiction. }
    unfold kgsl_register_device.
    cbn [devp major kgsl_debugfs_dir devlock heap dev_of reg_trace set_devlock
         set_devp reg_emit set_heap set_dev_of].
    fold minor. unfold KGSL_DEVICE_MAX.
    cbn [devp major kgsl_debugfs_dir devlock heap dev_of reg_trace set_devlock
         set_devp reg_emit set_heap set_dev_of].
    replace (minor <? Z.of_nat (List.length (devp drv))) with true
      by (symmetry; apply Z.ltb_lt; lia).
    cbn [devp major kgsl_debugfs_dir devlock heap dev_of reg_trace set_devlock
         set_devp reg_emit set_heap set_dev_of].
    rewrite devp_store_length.
    replace (minor =? Z.of_nat (List.length (devp drv))) with false
      by (symmetry; apply Z.eqb_neq; lia).
    fold dev. rewrite Herr.
    do 3 eexists. split; [reflexivity|].
    cbn [devp major kgsl_debugfs_dir devlock heap dev_of reg_trace set_devlock
         set_devp reg_emit set_heap set_dev_of].
    split.
    { rewrite Hm, Nat2Z.id.
      pose proof (devp_store_back (devp drv) n device) as Hb.
      rewrite (Hat Hn) in Hb. exact Hb. }
    split; [reflexivity|]. split; [intros p; reflexivity|].
    split; [reflexivity|].
    split; [rewrite <- app_assoc; reflexivity|].
    split; reflexivity.
  - assert (Hfull : ~ In 0 (devp drv)).
    { intros Hin.
      assert (E : existsb (Z.eqb 0) (devp drv) = true).
      { apply existsb_exists. exists 0. split; [exact Hin|reflexivity]. }
      congruence. }
    apply Hnone in Hfull. subst n.
    unfold kgsl_register_device.
    cbn [devp major kgsl_debugfs_dir devlock heap dev_of reg_trace set_devlock
         set_devp reg_emit set_heap set_dev_of].
    fold minor. unfold KGSL_DEVICE_MAX.
    cbn [devp major kgsl_debugfs_dir devlock heap dev_of reg_trace set_devlock
         set_devp reg_emit set_heap set_dev_of].
    replace (minor <? Z.of_nat (List.length (devp drv))) with false
      by (symmetry; apply Z.ltb_ge; lia).
    cbn [devp major kgsl_debugfs_dir devlock heap dev_of reg_trace set_devlock
         set_devp reg_emit set_heap set_dev_of].
    replace (minor =? Z.of_nat (List.length (devp drv))) with true
      by (symmetry; apply Z.eqb_eq; lia).
    do 3 eexists. split; [reflexivity|].
    cbn [devp major kgsl_debugfs_dir devlock heap dev_of reg_trace set_devlock
         set_devp reg_emit set_heap set_dev_of].
    split; [reflexivity|]. split; [reflexivity|].
    split; [intros p; reflexivity|].
    repeat split.
Qed.

(* kgsl_unregister_device in closed form *)
Lemma kgsl_unregister_device_run (device : Z) (drv : kgsl_driver_t) :
  let minor := find_slot device (devp drv) 0 in
  kgsl_unregister_device device drv
  = if minor =? KGSL_DEVICE_MAX drv then set_devlock false drv
    else mk_driver (devp_store (devp drv) (Z.to_nat minor) 0) (major drv)
           (kgsl_debugfs_dir drv) false (heap drv) (dev_of drv)
           (reg_trace drv
              ++ [RegPwrctrlUninitSysfs device;
                  RegDeviceDestroy (MKDEV (MAJOR (major drv)) minor)]).
Proof.
  destruct drv as [l mj dd lk hp dv tr]. cbv zeta.
  unfold kgsl_unregister_device, KGSL_DEVICE_MAX, set_devlock, set_devp,
    reg_emit.
  cbn [devp major kgsl_debugfs_dir devlock heap dev_of reg_trace].
  destruct (find_slot device l 0 =? Z.of_nat (List.length l));
    [reflexivity|].
  rewrite <- app_assoc. reflexivity.
Qed.

(** X15.  Registering a device that is not yet in the table and
    unregistering it gives the table back slot for slot; the device node
    destroyed is the one that was created.  And [kgsl_unregister_device]
    on a device that is in no slot of the table makes no call and leaves
    the table alone. *)
Theorem kgsl_unregister_device_undoes_register (device : Z)
  (drv : kgsl_driver_t) :
  let minor := find_slot 0 (devp drv) 0 in
  let dev := MKDEV (MAJOR (major drv)) minor in
  device <> 0 ->
  ~ In device (devp drv) ->
  kgsl_unregister_device device drv = set_devlock false drv /\
  (In 0 (devp drv) ->
   IS_ERR (device_create dev device) = false ->
   exists drv1,
     kgsl_register_device device_create device drv = (0, drv1) /\
     In (RegDeviceCreate dev device) (reg_trace drv1) /\
     devp (kgsl_unregister_device device drv1) = devp drv /\
     reg_trace (kgsl_unregister_device device drv1)
     = reg_trace drv1
         ++ [RegPwrctrlUninitSysfs device; RegDeviceDestroy dev]).
Proof.
  intros minor dev Hnz Hnew. split.
  - rewrite kgsl_unregister_device_run. cbv zeta.
    destruct (find_slot_spec device (devp drv) 0)
      as (n & Hm & _ & _ & _ & Hnone).
    apply Hnone in Hnew. subst n. rewrite Hm. unfold KGSL_DEVICE_MAX.
    rewrite Z.add_0_l, Z.eqb_refl. reflexivity.
  - intros Hfree Hok.
    destruct (kgsl_register_device_run device drv Hfree Hok)
      as (Hr & Hslot & Hlow & Hrun).
    fold minor in Hr, Hslot, Hlow, Hrun. fold dev in Hrun.
    eexists. split; [exact Hrun|].
    split.
    { cbn [reg_trace]. apply in_or_app. right. left. reflexivity. }
    rewrite kgsl_unregister_device_run. cbv zeta.
    unfold KGSL_DEVICE_MAX in *.
    cbn [devp major kgsl_debugfs_dir devlock heap dev_of reg_trace].
    rewrite devp_store_length.
    assert (Hfound : find_slot device
                       (devp_store (devp drv) (Z.to_nat minor) device) 0
                     = minor).
    { destruct (find_slot_spec device
                  (devp_store (devp drv) (Z.to_nat minor) device) 0)
        as (n & Hm & Hlen & Hbefore & Hat & Hnone).
      rewrite Hm, Z.add_0_l. rewrite devp_store_length in *.
      assert (Hin : (n < List.length (devp drv))%nat).
      { destruct (Nat.eq_dec n (List.length (devp drv))) as [E|E]; [|lia].
        exfalso. apply Hnone in E. apply E.
        pose proof (@nth_In Z (Z.to_nat minor)
                      (devp_store (devp drv) (Z.to_nat minor) device) 0)
          as HI.
        rewrite devp_store_length in HI. specialize (HI ltac:(lia)).
        rewrite nth_devp_store, Nat.eqb_refl in HI by lia. exact HI. }
      specialize (Hat Hin). rewrite nth_devp_store in Hat by lia.
      destruct (Nat.eqb n (Z.to_nat minor)) eqn:E.
      - apply Nat.eqb_eq in E. lia.
      - exfalso. apply Hnew. rewrite <- Hat. apply nth_In. exact Hin. }
    rewrite Hfound.
    replace (minor =? Z.of_nat (List.length (devp drv))) with false
      by (symmetry; apply Z.eqb_neq; lia).
    cbn [devp reg_trace]. split; [|reflexivity].
    pose proof (devp_store_back (devp drv) (Z.to_nat minor) device) as Hb.
    rewrite Hslot in Hb. exact Hb.
Qed.

Lemma get_device_loop_spec (hp : Z -> kgsl_device) (dev_idx : Z)
  (l : list Z) :
  let r := get_device_loop hp dev_idx l in
  (r <> 0 ->
   exists before after,
     l = before ++ r :: after /\ dev_id (hp r) = dev_idx /\
     forall p, In p before -> p = 0 \/ dev_id (hp p) <> dev_idx) /\
  (r = 0 -> forall p, In p l -> p = 0 \/ dev_id (hp p) <> dev_idx).
Proof.
  induction l as [|slot rest IH]; cbn [get_device_loop].
  - split; [intros H; contradiction | intros _ p []].
  - destruct (negb (slot =? 0) && (dev_id (hp slot) =? dev_idx)) eqn:E.
    + apply andb_true_iff in E. destruct E as [E1 E2].
      apply negb_true_iff, Z.eqb_neq in E1. apply Z.eqb_eq in E2.
      split; [|intros H; contradiction].
      intros _. exists [], rest. split; [reflexivity|].
      split; [exact E2 | intros p []].
    + assert (Hslot : slot = 0 \/ dev_id (hp slot) <> dev_idx).
      { apply andb_false_iff in E. destruct E as [E|E].
        - left. apply negb_false_iff, Z.eqb_eq in E. exact E.
        - right. apply Z.eqb_neq. exact E. }
      cbv zeta in IH. destruct IH as [IH1 IH2]. split.
      * intros Hr. destruct (IH1 Hr) as (before & after & Hl & Hid & Hb).
        exists (slot :: before), after. split; [rewrite Hl at 1; reflexivity|].
        split; [exact Hid|].
        intros p [Hp|Hp]; [subst p; exact Hslot | exact (Hb p Hp)].
      * intros Hr p [Hp|Hp]; [subst p; exact Hslot | exact (IH2 Hr p Hp)].
Qed.

(** X16.  [kgsl_get_device] answers the first registered device, in the
    order of the minors, whose id is [dev_idx], and NULL when no registered
    device has that id; it leaves the table as it is and the table lock
    released. *)
Theorem kgsl_get_device_finds_first_by_id (dev_idx : Z)
  (drv : kgsl_driver_t) :
  let r := fst (kgsl_get_device dev_idx drv) in
  snd (kgsl_get_device dev_idx drv) = set_devlock false drv /\
  (r <> 0 ->
   exists before after,
     devp drv = before ++ r :: after /\
     dev_id (heap drv r) = dev_idx /\
     forall p, In p before -> p = 0 \/ dev_id (heap drv p) <> dev_idx) /\
  (r = 0 ->
   forall p, In p (devp drv) -> p = 0 \/ dev_id (heap drv p) <> dev_idx).
Proof.
  destruct drv as [l mj dd lk hp dv tr]. cbv zeta.
  unfold kgsl_get_device, set_devlock.
  cbn [devp major kgsl_debugfs_dir devlock heap dev_of reg_trace fst snd].
  split; [reflexivity|]. apply get_device_loop_spec.
Qed.

End DeviceTableFacts.

Lemma kgsl_register_device_takes_lowest_free_minor_witness :
  let drv := set_devp [100; 0] sample_driver in
  In 0 (devp drv) /\
  IS_ERR (sample_device_create
            (MKDEV (MAJOR (major drv)) (find_slot 0 (devp drv) 0)) 200)
  = false /\
  exists drv',
    kgsl_register_device sample_device_create 200 drv = (0, drv') /\
    fst (kgsl_get_minor 1 drv') = 200 /\
    fst (kgsl_get_minor 0 drv') = 100.
Proof.
  cbv zeta.
  assert (H1 : In 0 (devp (set_devp [100; 0] sample_driver)))
    by (right; left; reflexivity).
  split; [exact H1|]. split; [reflexivity|].
  destruct (kgsl_register_device_takes_lowest_free_minor
              sample_device_create 200 (set_devp [100; 0] sample_driver)
              H1 eq_refl)
    as (drv' & Hrun & _ & _ & _ & Hnew & Hold & _).
  exists drv'. split; [exact Hrun|]. split; [exact Hnew|].
  rewrite Hold; [reflexivity | discriminate].
Defined.

Lemma kgsl_register_device_failure_restores_table_witness :
  let drv := set_devp [100; 0] sample_driver in
  let dev := MKDEV (MAJOR (major drv)) (find_slot 0 (devp drv) 0) in
  (~ In 0 (devp drv) \/ IS_ERR (sample_device_create dev 300) = true) /\
  exists drv',
    kgsl_register_device sample_device_create 300 drv = (- ENOMEM, drv') /\
    devp drv' = [100; 0] /\
    dev_of drv' 300 = 4294967296 - ENOMEM.
Proof.
  cbv zeta.
  assert (H : ~ In 0 (devp (set_devp [100; 0] sample_driver)) \/
              IS_ERR (sample_device_create
                        (MKDEV (MAJOR (major (set_devp [100; 0]
                                                       sample_driver)))
                               (find_slot 0
                                  (devp (set_devp [100; 0] sample_driver))
                                  0)) 300) = true)
    by (right; reflexivity).
  split; [exact H|].
  destruct (kgsl_register_device_failure_restores_table
              sample_device_create 300 (set_devp [100; 0] sample_driver) H)
    as (r & drv' & evs & Hrun & Hdevp & _ & Hdev & _ & _ & Hr).
  cbn in Hr. destruct Hr as [Hr _]. subst r.
  exists drv'. split; [exact Hrun|]. split; [exact Hdevp|].
  rewrite Hdev. reflexivity.
Defined.

Lemma kgsl_unregister_device_undoes_register_witness :
  let drv := set_devp [100; 0] sample_driver in
  200 <> 0 /\
  ~ In 200 (devp drv) /\
  kgsl_unregister_device 200 drv = set_devlock false drv /\
  exists drv1,
    kgsl_register_device sample_device_create 200 drv = (0, drv1) /\
    devp drv1 = [100; 200] /\
    devp (kgsl_unregister_device 200 drv1) = [100; 0].
Proof.
  cbv zeta.
  assert (H1 : 200 <> 0) by discriminate.
  assert (H2 : ~ In 200 (devp (set_devp [100; 0] sample_driver))).
  { intros [H|[H|[]]]; discriminate. }
  split; [exact H1|]. split; [exact H2|].
  destruct (kgsl_unregister_device_undoes_register sample_device_create 200
              (set_devp [100; 0] sample_driver) H1 H2) as [Hnop Hpair].
  split; [exact Hnop|].
  destruct (Hpair (or_intror (or_introl eq_refl)) eq_refl)
    as (drv1 & Hrun & _ & Hback & _).
  exists drv1. split; [exact Hrun|]. split; [|exact Hback].
  assert (E : kgsl_register_device sample_device_create 200
                (set_devp [100; 0] sample_driver)
              = (0, snd (kgsl_register_device sample_device_create 200
                           (set_devp [100; 0] sample_driver))))
    by reflexivity.
  rewrite E in Hrun. injection Hrun as Hd. rewrite <- Hd. reflexivity.
Defined.

Section PagetableFacts.

Variable mmu : Type.
Variable device_setup_pt : Z -> Z -> mmu -> mmu * Z.
Variable device_cleanup_pt : Z -> Z -> mmu -> mmu * Z.

Lemma cleanup_pt_loop_calls (pt : Z) (slots : list Z) (m : mmu) :
  snd (cleanup_pt_loop mmu device_cleanup_pt pt slots m)
  = map (fun device => CleanupPt device pt) (registered slots).
Proof.
  revert m. induction slots as [|device rest IH]; intros m; [reflexivity|].
  cbn [cleanup_pt_loop registered filter].
  destruct (negb (device =? 0)).
  - specialize (IH (fst (device_cleanup_pt device pt m))).
    destruct (cleanup_pt_loop mmu device_cleanup_pt pt rest
                (fst (device_cleanup_pt device pt m))) as [m' calls].
    cbn [snd map] in *. rewrite IH. reflexivity.
  - apply IH.
Qed.

Lemma registered_app (a b : list Z) :
  registered (a ++ b) = registered a ++ registered b.
Proof. unfold registered. apply filter_app. Qed.

Lemma registered_rev (a : list Z) :
  registered (rev a) = rev (registered a).
Proof.
  induction a as [|x a IH]; [reflexivity|].
  cbn [rev]. rewrite registered_app, IH. unfold registered at 2 3.
  cbn [filter]. destruct (negb (x =? 0)); cbn [rev app].
  - reflexivity.
  - rewrite app_nil_r. reflexivity.
Qed.

Lemma registered_cons (device : Z) (slots : list Z) :
  registered (device :: slots)
  = if negb (device =? 0) then device :: registered slots
    else registered slots.
Proof. reflexivity. Qed.

(* The loop of kgsl_setup_pt from any slot on *)
Lemma setup_pt_loop_calls (pt : Z) (slots : list Z) :
  forall (visited : list Z) (m : mmu),
    let r := setup_pt_loop mmu device_setup_pt device_cleanup_pt pt 0
                           visited slots m in
    let status := fst (fst r) in
    let calls := snd r in
    if status =? 0 then
      calls = map (fun device => SetupPt device pt) (registered slots)
    else
      exists before failing after,
        slots = before ++ failing :: after /\
        failing <> 0 /\
        calls
        = map (fun device => SetupPt device pt)
              (registered before ++ [failing])
            ++ map (fun device => CleanupPt device pt)
                   (failing :: rev (registered before)
                      ++ registered visited).
Proof.
  induction slots as [|device rest IH]; intros visited m; [reflexivity|].
  cbn [setup_pt_loop]. cbv zeta.
  destruct (negb (device =? 0)) eqn:Ed.
  - destruct (device_setup_pt device pt m) as [m1 status1] eqn:Es.
    destruct (status1 =? 0) eqn:E0; cbn [negb].
    + apply Z.eqb_eq in E0. subst status1.
      specialize (IH (device :: visited) m1). cbv zeta in IH.
      destruct (setup_pt_loop mmu device_setup_pt device_cleanup_pt pt 0
                  (device :: visited) rest m1) as [[status m2] calls].
      cbn [fst snd] in *.
      destruct (status =? 0).
      * rewrite IH, registered_cons, Ed. reflexivity.
      * destruct IH as (before & failing & after & Hs & Hf & Hc).
        exists (device :: before), failing, after.
        split; [rewrite Hs; reflexivity|]. split; [exact Hf|].
        rewrite Hc, !registered_cons, Ed. cbn [map app rev].
        rewrite <- !app_assoc. reflexivity.
    + pose proof (cleanup_pt_loop_calls pt (device :: visited) m1) as Hc.
      destruct (cleanup_pt_loop mmu device_cleanup_pt pt (device :: visited)
                  m1) as [m2 calls].
      cbn [fst snd] in *. rewrite E0.
      exists [], device, rest. split; [reflexivity|].
      split; [apply negb_true_iff, Z.eqb_neq in Ed; exact Ed|].
      rewrite Hc, registered_cons, Ed. reflexivity.
  - specialize (IH (device :: visited) m). cbv zeta in IH.
    destruct (setup_pt_loop mmu device_setup_pt device_cleanup_pt pt 0
                (device :: visited) rest m) as [[status m2] calls].
    cbn [fst snd] in *.
    destruct (status =? 0).
    + rewrite IH, registered_cons, Ed. reflexivity.
    + destruct IH as (before & failing & after & Hs & Hf & Hc).
      exists (device :: before), failing, after.
      split; [rewrite Hs; reflexivity|]. split; [exact Hf|].
      rewrite Hc, !registered_cons, Ed. reflexivity.
Qed.

(** X17.  [kgsl_setup_pt] asks the registered devices, in the order of
    the minors, to set up the page table.  When all succeed it returns 0
    and has asked each of them once and made no other call, and a
    following [kgsl_cleanup_pt] asks the same devices to clean up, in the
    same order, and returns 0.  When one fails it asks no device behind
    that one, and asks the devices it has asked to set up, the failing one
    included, to clean up, in the reverse order. *)
Theorem kgsl_setup_pt_cleans_up_in_reverse (pt : Z) (devp : list Z)
  (m : mmu) :
  let r := kgsl_setup_pt mmu device_setup_pt device_cleanup_pt pt devp m in
  let status := fst (fst r) in
  let calls := snd r in
  if status =? 0 then
    calls = map (fun device => SetupPt device pt) (registered devp) /\
    forall m',
      kgsl_cleanup_pt mmu device_cleanup_pt pt devp m'
      = (0, fst (cleanup_pt_loop mmu device_cleanup_pt pt devp m'),
         map (fun device => CleanupPt device pt) (registered devp))
  else
    exists before failing after,
      devp = before ++ failing :: after /\
      failing <> 0 /\
      calls
      = map (fun device => SetupPt device pt)
            (registered before ++ [failing])
          ++ map (fun device => CleanupPt device pt)
                 (rev (registered before ++ [failing])).
Proof.
  cbv zeta. unfold kgsl_setup_pt.
  pose proof (setup_pt_loop_calls pt devp [] m) as H. cbv zeta in H.
  destruct (fst (fst (setup_pt_loop mmu device_setup_pt device_cleanup_pt pt
                        0 [] devp m)) =? 0).
  - split; [exact H|]. intros m'. unfold kgsl_cleanup_pt.
    pose proof (cleanup_pt_loop_calls pt devp m') as Hc.
    destruct (cleanup_pt_loop mmu device_cleanup_pt pt devp m')
      as [m2 calls]. cbn [fst snd] in *. rewrite Hc. reflexivity.
  - destruct H as (before & failing & after & Hs & Hf & Hc).
    exists before, failing, after. split; [exact Hs|]. split; [exact Hf|].
    rewrite Hc. rewrite rev_app_distr. cbn [rev app registered filter].
    rewrite app_nil_r. reflexivity.
Qed.

End PagetableFacts.

Section ResumeFacts.

Context (P : platform).

Local Abbreviation device_at_switch := (device_at_switch P).

Ltac world_step :=
  cbn [w_dev w_hw w_proc w_user w_kzalloc w_trace].

(* kgsl_resume_device in closed form *)
Lemma kgsl_resume_device_run (status : Z) (w : world P) :
  let d := w_dev w in
  let started := device_start (ftbl P) (w_hw w) 0 in
  let resumed := device_resume_context (ftbl P) (fst started) in
  kgsl_resume_device P status w
  = if kgsl_state_eqb (state d) KGSL_STATE_SUSPEND then
      if snd started =? 0 then
        Ok (inr (snd resumed))
           (mk_world
              (set_mutex false
                 (set_requested_state KGSL_STATE_NONE
                    (complete_all_hwaccess_gate
                       (set_state KGSL_STATE_ACTIVE
                          (set_requested_state KGSL_STATE_ACTIVE
                             (set_mutex true d))))))
              (fst resumed) (w_proc w) (w_user w) (w_kzalloc w)
              (w_trace w
                 ++ [EvLog "resume start" []; EvFtbl (DEVICE_START 0);
                     EvLog "state -> ACTIVE, device %d" [dev_id d];
                     EvFtbl DEVICE_RESUME_CONTEXT; EvLog "resume end" []]))
      else
        Ok (inl (snd started))
           (mk_world
              (set_mutex false
                 (set_state KGSL_STATE_INIT
                    (set_requested_state KGSL_STATE_ACTIVE
                       (set_mutex true d))))
              (fst started) (w_proc w) (w_user w) (w_kzalloc w)
              (w_trace w
                 ++ [EvLog "resume start" []; EvFtbl (DEVICE_START 0);
                     EvLog "resume failed, device %d" [dev_id d]]))
    else Ok (inr status) (passed_over P w).
Proof.
  destruct w as [d h p u k t]. cbv zeta.
  cbn [w_dev w_hw w_proc w_user w_kzalloc w_trace].
  unfold kgsl_resume_device.
  unfold bind at 1. unfold emit at 1. world_step.
  unfold bind at 1. unfold mutex_lock, modify_dev at 1. world_step.
  unfold bind at 1. unfold get_dev at 1. world_step.
  replace (state (set_mutex true d)) with (state d)
    by (destruct d; reflexivity).
  replace (dev_id (set_mutex true d)) with (dev_id d)
    by (destruct d; reflexivity).
  destruct (kgsl_state_eqb (state d) KGSL_STATE_SUSPEND).
  - unfold bind at 1. unfold bind at 1. unfold modify_dev at 1. world_step.
    unfold bind at 1. rewrite call_ftbl_run. world_step.
    destruct (snd (device_start (ftbl P) h 0) =? 0).
    + unfold bind at 1. unfold modify_dev at 1. world_step.
      unfold bind at 1. unfold emit at 1. world_step.
      unfold bind at 1. rewrite call_ftbl_run. world_step.
      unfold bind at 1. unfold modify_dev at 1. world_step.
      unfold ret at 1.
      unfold bind at 1. unfold modify_dev at 1. world_step.
      unfold bind at 1. unfold mutex_unlock, modify_dev at 1. world_step.
      unfold bind, emit, ret. world_step.
      rewrite <- !app_assoc. destruct d; reflexivity.
    + unfold bind at 1. unfold emit at 1. world_step.
      unfold bind at 1. unfold modify_dev at 1. world_step.
      unfold bind, mutex_unlock, modify_dev, ret. world_step.
      rewrite <- !app_assoc. destruct d; reflexivity.
  - unfold ret at 1.
    unfold bind at 1. unfold modify_dev at 1. world_step.
    unfold bind at 1. unfold mutex_unlock, modify_dev at 1. world_step.
    unfold bind at 1. unfold emit at 1. world_step.
    unfold bind, emit, ret, passed_over. world_step.
    rewrite <- !app_assoc.
    destruct d; reflexivity.
Qed.

Lemma kgsl_resume_loop_none_suspended (status : Z)
  (devp : list (option (world P))) :
  Forall (fun slot => match slot with
                      | Some w => state (w_dev w) <> KGSL_STATE_SUSPEND
                      | None => True
                      end) devp ->
  kgsl_resume_loop P status devp
  = Ok status (map (option_map (passed_over P)) devp).
Proof.
  intros Hall. induction Hall as [|slot rest Hslot Hrest IH]; [reflexivity|].
  cbn [kgsl_resume_loop map]. destruct slot as [w|].
  - rewrite kgsl_resume_device_run. cbv zeta.
    replace (kgsl_state_eqb (state (w_dev w)) KGSL_STATE_SUSPEND) with false
      by (destruct (state (w_dev w)); try reflexivity; contradiction).
    rewrite IH. reflexivity.
  - rewrite IH. reflexivity.
Qed.

(** X18.  [kgsl_resume] when no registered device is in the state
    [Suspend]: the function returns -EINVAL; it calls no backend operation
    and leaves the state of every device as it is, clearing the requested
    state and releasing the mutex.  So it is after a [kgsl_suspend] that
    found the only device in the state [Init]: the suspend returns 0, the
    resume that follows -EINVAL. *)
Theorem kgsl_resume_without_suspended_device
  (devp : list (option (world P))) :
  Forall (fun slot => match slot with
                      | Some w => state (w_dev w) <> KGSL_STATE_SUSPEND
                      | None => True
                      end) devp ->
  kgsl_resume P devp = Ok (- EINVAL) (map (option_map (passed_over P)) devp) /\
  Forall (fun slot => match slot with
                      | Some w' => ftbl_calls (w_trace (passed_over P w'))
                                   = ftbl_calls (w_trace w') /\
                                   state (w_dev (passed_over P w'))
                                   = state (w_dev w') /\
                                   w_hw (passed_over P w') = w_hw w'
                      | None => True
                      end) devp /\
  (forall w,
     devp = [Some w] ->
     state (device_at_switch (w_dev w)) = KGSL_STATE_INIT ->
     exists w1,
       kgsl_suspend P [Some w] = Ok 0 [Some w1] /\
       kgsl_resume P [Some w1] = Ok (- EINVAL) [Some (passed_over P w1)]).
Proof.
  intros Hall. split; [|split].
  - apply kgsl_resume_loop_none_suspended. exact Hall.
  - apply Forall_forall. intros slot _. destruct slot as [w'|]; [|exact I].
    unfold passed_over. cbn [w_trace w_dev w_hw].
    rewrite ftbl_calls_app. cbn [ftbl_calls flat_map app].
    rewrite app_nil_r. destruct (w_dev w'). repeat split.
  - intros w _ Hinit.
    destruct (kgsl_suspend_device_closed_form P w)
      as (r & evs & w1 & Hs & _ & _ & Hcase).
    cbv zeta in Hcase. fold (device_at_switch (w_dev w)) in Hcase.
    rewrite Hinit in Hcase. destruct Hcase as (Hr & _ & Hd). subst r.
    exists w1. split.
    + cbn [kgsl_suspend]. rewrite Hs. reflexivity.
    + apply kgsl_resume_loop_none_suspended.
      constructor; [|constructor]. rewrite Hd.
      destruct (device_at_switch (w_dev w)). cbn in *. rewrite Hinit.
      discriminate.
Qed.

(** X19.  [kgsl_resume] after [kgsl_suspend], for one registered device
    that the suspend found in [Active], [Nap] or [Sleep].  The suspend
    returns 0 and the device is in [Suspend] with its hardware-access gate
    closed.  The resume asks the backend to start.  When the start
    succeeds it asks the backend to restore the context and returns what
    that returned; the device is [Active], whichever of the three states it
    was in before, its requested state is cleared, the gate is open,
    [nap_allowed] is as it was before the suspend, and the mutex is
    released.  When the start fails the resume returns its error at once:
    the device is in [Init], the context is not restored, the gate stays
    closed, the requested state stays [Active], and the mutex is
    released. *)
Theorem kgsl_resume_after_suspend (w : world P) :
  let ds := device_at_switch (w_dev w) in
  state ds = KGSL_STATE_ACTIVE \/ state ds = KGSL_STATE_NAP
  \/ state ds = KGSL_STATE_SLEEP ->
  exists w1,
    kgsl_suspend P [Some w] = Ok 0 [Some w1] /\
    state (w_dev w1) = KGSL_STATE_SUSPEND /\
    hwaccess_gate (w_dev w1) = 0 /\
    let started := device_start (ftbl P) (w_hw w1) 0 in
    let resumed := device_resume_context (ftbl P) (fst started) in
    exists r evs w2,
      kgsl_resume P [Some w1] = Ok r [Some w2] /\
      w_trace w2 = w_trace w1 ++ evs /\
      mutex (w_dev w2) = false /\
      nap_allowed (w_dev w2) = nap_allowed (w_dev w) /\
      if snd started =? 0 then
        r = snd resumed /\
        w_hw w2 = fst resumed /\
        ftbl_calls evs = [DEVICE_START 0; DEVICE_RESUME_CONTEXT] /\
        state (w_dev w2) = KGSL_STATE_ACTIVE /\
        requested_state (w_dev w2) = KGSL_STATE_NONE /\
        0 < hwaccess_gate (w_dev w2)
      else
        r = snd started /\
        w_hw w2 = fst started /\
        ftbl_calls evs = [DEVICE_START 0] /\
        state (w_dev w2) = KGSL_STATE_INIT /\
        requested_state (w_dev w2) = KGSL_STATE_ACTIVE /\
        hwaccess_gate (w_dev w2) = 0.
Proof.
  intros ds Hstate.
  destruct (kgsl_suspend_device_closed_form P w)
    as (r0 & evs0 & w1 & Hs & _ & _ & Hcase).
  cbv zeta in Hcase. fold (device_at_switch (w_dev w)) in Hcase.
  fold ds in Hcase.
  assert (Hw1 : r0 = None /\
                w_dev w1
                = set_mutex false
                    (set_nap_allowed (nap_allowed (w_dev w))
                       (set_requested_state KGSL_STATE_NONE
                          (set_state KGSL_STATE_SUSPEND
                             (set_hwaccess_gate 0 ds))))).
  { destruct Hstate as [H|[H|H]]; rewrite H in Hcase;
      destruct Hcase as (Hr & _ & Hd); split; assumption. }
  clear Hcase. destruct Hw1 as [Hr0 Hd1]. subst r0.
  exists w1. split; [cbn [kgsl_suspend]; rewrite Hs; reflexivity|].
  split; [rewrite Hd1; destruct ds; reflexivity|].
  split; [rewrite Hd1; destruct ds; reflexivity|].
  cbv zeta. unfold kgsl_resume. cbn [kgsl_resume_loop].
  rewrite kgsl_resume_device_run. cbv zeta.
  replace (kgsl_state_eqb (state (w_dev w1)) KGSL_STATE_SUSPEND) with true
    by (rewrite Hd1; destruct ds; reflexivity).
  destruct (snd (device_start (ftbl P) (w_hw w1) 0) =? 0).
  - do 3 eexists. split; [reflexivity|].
    cbn [w_dev w_hw w_trace]. split; [reflexivity|].
    rewrite Hd1. destruct ds. cbn. repeat split.
  - do 3 eexists. split; [reflexivity|].
    cbn [w_dev w_hw w_trace]. split; [reflexivity|].
    rewrite Hd1. destruct ds. cbn. repeat split.
Qed.

End ResumeFacts.

Lemma kgsl_resume_without_suspended_device_witness :
  let w := sample_world
             (set_mutex false (set_state KGSL_STATE_INIT
                                         (sample_device [] []))) 0 0 [] in
  Forall (fun slot => match slot with
                      | Some w => state (w_dev w) <> KGSL_STATE_SUSPEND
                      | None => True
                      end) [None; Some w] /\
  kgsl_resume sample_platform [None; Some w]
  = Ok (- EINVAL) [None; Some (passed_over sample_platform w)] /\
  state (w_dev (passed_over sample_platform w)) = KGSL_STATE_INIT.
Proof.
  cbv zeta.
  set (w := sample_world
              (set_mutex false (set_state KGSL_STATE_INIT
                                          (sample_device [] []))) 0 0 []).
  assert (H : Forall (fun slot => match slot with
                                  | Some w => state (w_dev w)
                                              <> KGSL_STATE_SUSPEND
                                  | None => True
                                  end) [None; Some w]).
  { constructor; [exact I|]. constructor; [discriminate|constructor]. }
  split; [exact H|].
  split; [|reflexivity].
  exact (proj1 (kgsl_resume_without_suspended_device sample_platform
                  [None; Some w] H)).
Defined.

Lemma kgsl_resume_after_suspend_witness :
  let w := sample_world (set_mutex false (sample_device [] [])) 0 0 [] in
  let ds := device_at_switch sample_platform (w_dev w) in
  (state ds = KGSL_STATE_ACTIVE \/ state ds = KGSL_STATE_NAP
   \/ state ds = KGSL_STATE_SLEEP) /\
  exists w1 w2,
    kgsl_suspend sample_platform [Some w] = Ok 0 [Some w1] /\
    state (w_dev w1) = KGSL_STATE_SUSPEND /\
    kgsl_resume sample_platform [Some w1] = Ok 0 [Some w2] /\
    state (w_dev w2) = KGSL_STATE_ACTIVE.
Proof.
  cbv zeta.
  set (w := sample_world (set_mutex false (sample_device [] [])) 0 0 []).
  assert (H : state (device_at_switch sample_platform (w_dev w))
              = KGSL_STATE_ACTIVE \/
              state (device_at_switch sample_platform (w_dev w))
              = KGSL_STATE_NAP \/
              state (device_at_switch sample_platform (w_dev w))
              = KGSL_STATE_SLEEP) by (left; reflexivity).
  split; [exact H|].
  destruct (kgsl_resume_after_suspend sample_platform w H)
    as (w1 & Hs & Hst & _ & r & evs & w2 & Hr & _ & _ & _ & Hcase).
  cbn [sample_platform ftbl sample_ftbl device_start snd fst Z.eqb] in Hcase.
  destruct Hcase as (Hres & _ & _ & Hact & _).
  exists w1, w2. split; [exact Hs|]. split; [exact Hst|].
  split; [|exact Hact].
  rewrite Hr. rewrite Hres. reflexivity.
Defined.

Section MmapFacts.

Variable pgprot_noncached : Z -> Z.
Variable remap_pfn_range : vm_area_struct -> Z -> Z -> Z -> Z -> Z.

(** X20.  [kgsl_mmap] maps nothing but the memstore of the device, in
    full and read-only.  [remap_pfn_range] is called exactly when the
    offset of the area is the physical address of the memstore, the area is
    not writable and its size is the size of the memstore; it is called
    once, on the whole area, with caching turned off, and its result is
    the result of the function.  A writable area at that offset is refused
    with -EPERM, any other area with -EINVAL, and the area is then left as
    it was.  The device mutex is released on every path. *)
Theorem kgsl_mmap_maps_only_the_memstore (memstore : kgsl_memdesc)
  (d : kgsl_device) (vma : vm_area_struct) :
  let r := kgsl_mmap pgprot_noncached remap_pfn_range memstore d vma in
  let result := fst (fst (fst r)) in
  let vma' := snd (fst (fst r)) in
  let calls := snd r in
  let size := u32 (vm_end vma - vm_start vma) in
  let at_memstore :=
    u32 (Z.shiftl (vm_pgoff vma) PAGE_SHIFT) =? md_physaddr memstore in
  let writable := negb (Z.land (vm_flags vma) VM_WRITE =? 0) in
  snd (fst r) = set_mutex false d /\
  if at_memstore && negb writable && (md_size memstore =? size) then
    vma' = mk_vma (vm_start vma) (vm_end vma) (vm_pgoff vma) (vm_flags vma)
                  (pgprot_noncached (vm_page_prot vma)) /\
    result = remap_pfn_range vma' (vm_start vma) (vm_pgoff vma) size
                             (vm_page_prot vma') /\
    exists log,
      calls = RemapPfnRange vma' (vm_start vma) (vm_pgoff vma) size
                            (vm_page_prot vma') :: log /\
      forall c, In c log -> exists fmt args, c = MmapLog fmt args
  else
    vma' = vma /\
    result = (if at_memstore && writable then - EPERM else - EINVAL) /\
    forall c, In c calls -> exists fmt args, c = MmapLog fmt args.
Proof.
  cbv zeta. unfold kgsl_mmap.
  destruct (u32 (Z.shiftl (vm_pgoff vma) PAGE_SHIFT) =? md_physaddr memstore).
  - destruct (Z.land (vm_flags vma) VM_WRITE =? 0); cbn [negb andb].
    + destruct (md_size memstore =? u32 (vm_end vma - vm_start vma));
        cbn [negb].
      * cbn [vm_start vm_end vm_pgoff vm_flags vm_page_prot].
        destruct (remap_pfn_range _ _ _ _ _ =? 0); cbn [negb fst snd].
        -- destruct d. split; [reflexivity|]. split; [reflexivity|].
           split; [reflexivity|]. exists []. split; [reflexivity|].
           intros c [].
        -- destruct d. split; [reflexivity|]. split; [reflexivity|].
           split; [reflexivity|]. eexists. split; [reflexivity|].
           intros c [Hc|[]]. subst c. do 2 eexists. reflexivity.
      * cbn [fst snd]. destruct d. split; [reflexivity|].
        split; [reflexivity|]. split; [reflexivity|].
        intros c [Hc|[]]. subst c. do 2 eexists. reflexivity.
    + cbn [fst snd]. destruct d. split; [reflexivity|].
      split; [reflexivity|]. split; [reflexivity|]. intros c [].
  - cbn [fst snd andb]. destruct d. split; [reflexivity|].
    split; [reflexivity|]. split; [reflexivity|]. intros c [].
Qed.

End MmapFacts.

Section FlushFacts.

Context (P : platform).

Variable __va : Z -> Z.
Variable KGSL_MEMFLAGS_CACHE_CLEAN : Z.

Lemma find_mem_list_update_same (gpuaddr : Z) (entry' : kgsl_mem_entry)
  (l : list kgsl_mem_entry) :
  md_gpuaddr (memdesc entry') = gpuaddr ->
  find (fun e => md_gpuaddr (memdesc e) =? gpuaddr) l <> None ->
  find (fun e => md_gpuaddr (memdesc e) =? gpuaddr)
       (mem_list_update gpuaddr entry' l) = Some entry'.
Proof.
  intros Hg. induction l as [|entry rest IH]; intros Hf.
  - exfalso. apply Hf. reflexivity.
  - cbn [find mem_list_update] in *.
    destruct (md_gpuaddr (memdesc entry) =? gpuaddr) eqn:E.
    + cbn [find]. rewrite Hg, Z.eqb_refl. reflexivity.
    + cbn [find]. rewrite E. apply IH. exact Hf.
Qed.

Lemma find_mem_list_update_other (a gpuaddr : Z) (entry' : kgsl_mem_entry)
  (l : list kgsl_mem_entry) :
  md_gpuaddr (memdesc entry') = gpuaddr ->
  a <> gpuaddr ->
  find (fun e => md_gpuaddr (memdesc e) =? a)
       (mem_list_update gpuaddr entry' l)
  = find (fun e => md_gpuaddr (memdesc e) =? a) l.
Proof.
  intros Hg Ha. induction l as [|entry rest IH]; [reflexivity|].
  cbn [find mem_list_update].
  destruct (md_gpuaddr (memdesc entry) =? gpuaddr) eqn:E.
  - apply Z.eqb_eq in E. cbn [find]. rewrite Hg, E.
    replace (gpuaddr =? a) with false
      by (symmetry; apply Z.eqb_neq; congruence).
    reflexivity.
  - cbn [find]. rewrite IH. reflexivity.
Qed.

Lemma find_gpuaddr (gpuaddr : Z) (entry : kgsl_mem_entry)
  (l : list kgsl_mem_entry) :
  find (fun e => md_gpuaddr (memdesc e) =? gpuaddr) l = Some entry ->
  md_gpuaddr (memdesc entry) = gpuaddr.
Proof.
  intros H. apply find_some in H. apply Z.eqb_eq. apply H.
Qed.

Lemma cache_bits_cleared (flags mask : Z) :
  is_u32 mask ->
  Z.land (Z.land flags (Z.lxor UINT_MAX mask)) mask = 0.
Proof.
  intros Hm. apply Z.bits_inj'. intros n Hn.
  rewrite !Z.land_spec, Z.lxor_spec, Z.bits_0.
  destruct (Z.testbit mask n) eqn:Em; [|apply andb_false_r].
  assert (Hlt : n < 32).
  { destruct (Z_lt_ge_dec n 32) as [Hlt|Hge]; [exact Hlt|].
    exfalso.
    assert (Hs : mask mod 2 ^ 32 = mask)
      by (apply Z.mod_small; unfold is_u32, UINT_MAX in Hm; lia).
    rewrite <- Hs, Z.mod_pow2_bits_high in Em by lia. discriminate. }
  change UINT_MAX with (Z.ones 32). rewrite Z.ones_spec_low by lia.
  cbn [xorb negb]. rewrite andb_false_r. reflexivity.
Qed.

(** X21.  [kgsl_ioctl_sharedmem_flush_cache] on the base address of a
    region of the process whose host pointer is set, or can be set from
    the region.  The call returns 0 with [mem_lock] released, cleans the
    host range of the region once, and counts one flush on the unsigned
    counter of the process, which wraps to 0 behind [2^32 - 1].  Afterwards
    [kgsl_sharedmem_find] at that address gives the region with every
    cache flag cleared and the host pointer kept, and it gives what it
    gave before at every other address. *)
Theorem kgsl_ioctl_sharedmem_flush_cache_marks_region_clean
  (dev_priv : Z) (param : kgsl_sharedmem_free) (s : flush_world P)
  (entry : kgsl_mem_entry) :
  let gpuaddr := sf_gpuaddr param in
  let resolved :=
    if md_hostptr (memdesc entry) =? 0
    then resolve_hostptr P __va gpuaddr entry else entry in
  fw_mmu_enabled P s = true ->
  kgsl_sharedmem_find (w_proc (fw_world P s)) gpuaddr = Some entry ->
  md_hostptr (memdesc resolved) <> 0 ->
  is_u32 (KGSL_MEMFLAGS_CACHE_MASK P) ->
  let r := kgsl_ioctl_sharedmem_flush_cache P __va KGSL_MEMFLAGS_CACHE_CLEAN
             dev_priv param s in
  let s' := snd r in
  fst r = 0 /\
  fw_mem_lock P s' = false /\
  fw_flushes P s' = u32 (fw_flushes P s + 1) /\
  w_trace (fw_world P s')
  = w_trace (fw_world P s)
    ++ [EvCacheRangeOp (md_hostptr (memdesc resolved))
          (md_size (memdesc resolved))
          (Z.lor KGSL_MEMFLAGS_CACHE_CLEAN (KGSL_MEMFLAGS_HOSTADDR P))] /\
  (exists entry',
     kgsl_sharedmem_find (w_proc (fw_world P s')) gpuaddr = Some entry' /\
     flag_set (md_priv (memdesc entry')) (KGSL_MEMFLAGS_CACHE_MASK P)
     = false /\
     md_hostptr (memdesc entry') = md_hostptr (memdesc resolved) /\
     md_size (memdesc entry') = md_size (memdesc resolved)) /\
  (forall a, a <> gpuaddr ->
     kgsl_sharedmem_find (w_proc (fw_world P s')) a
     = kgsl_sharedmem_find (w_proc (fw_world P s)) a).
Proof.
  intros gpuaddr resolved Hen Hfind Hptr Hmask.
  destruct s as [w en lk fl]. destruct w as [d h p u kz tr].
  destruct p as [pid0 refcnt0 pt0 ml].
  cbn [fw_mmu_enabled fw_world w_proc] in Hen, Hfind. subst en.
  unfold kgsl_sharedmem_find in *. cbn [mem_list] in Hfind.
  assert (Hg : md_gpuaddr (memdesc entry) = gpuaddr)
    by (exact (find_gpuaddr _ _ _ Hfind)).
  assert (Hgr : md_gpuaddr (memdesc resolved) = gpuaddr).
  { unfold resolved. destruct (md_hostptr (memdesc entry) =? 0);
      [|exact Hg].
    unfold resolve_hostptr.
    destruct (kgsl_gpuaddr_to_vaddr P __va (memdesc entry) gpuaddr).
    exact Hg. }
  assert (Hgc : md_gpuaddr (memdesc (clear_cache_flags P resolved))
                = gpuaddr) by exact Hgr.
  cbv zeta. unfold kgsl_ioctl_sharedmem_flush_cache.
  cbn [fw_mmu_enabled negb set_fw_mem_lock fw_world w_proc mem_list].
  fold gpuaddr. unfold kgsl_sharedmem_find. cbn [mem_list].
  rewrite Hfind. fold resolved.
  replace (md_hostptr (memdesc resolved) =? 0) with false
    by (symmetry; apply Z.eqb_neq; exact Hptr).
  unfold fw_store_entry, fw_emit, set_fw_flushes, set_fw_mem_lock,
    set_fw_world, set_mem_list.
  cbn [fst snd fw_world fw_mmu_enabled fw_mem_lock fw_flushes w_dev w_hw
       w_proc w_user w_kzalloc w_trace mem_list pid refcnt pagetable].
  split; [reflexivity|]. split; [reflexivity|]. split; [reflexivity|].
  split; [reflexivity|].
  assert (Hmid :
    find (fun e => md_gpuaddr (memdesc e) =? gpuaddr)
         (mem_list_update gpuaddr resolved ml) <> None).
  { rewrite (find_mem_list_update_same gpuaddr resolved ml Hgr)
      by (rewrite Hfind; discriminate).
    discriminate. }
  split.
  - exists (clear_cache_flags P resolved). split.
    + apply find_mem_list_update_same; [exact Hgc | exact Hmid].
    + split; [|split; reflexivity].
      unfold flag_set, clear_cache_flags. cbn [memdesc md_priv].
      rewrite cache_bits_cleared by exact Hmask. reflexivity.
  - intros a Ha.
    rewrite (find_mem_list_update_other a gpuaddr _ _ Hgc Ha).
    apply (find_mem_list_update_other a gpuaddr _ _ Hgr Ha).
Qed.

(** X22.  [kgsl_ioctl_sharedmem_flush_cache] on the base address of a
    region that has no host pointer and gets none from
    [kgsl_gpuaddr_to_vaddr], because its size is 0 or because nothing
    backs it.  The call logs the address and returns 0, and it returns
    through the label after [spin_unlock]: [mem_lock] is still held.
    No cache operation is made, no flush is counted, and the size of the
    region is now 0. *)
Theorem kgsl_ioctl_sharedmem_flush_cache_unbacked_region_keeps_lock
  (dev_priv : Z) (param : kgsl_sharedmem_free) (s : flush_world P)
  (entry : kgsl_mem_entry) :
  let gpuaddr := sf_gpuaddr param in
  fw_mmu_enabled P s = true ->
  kgsl_sharedmem_find (w_proc (fw_world P s)) gpuaddr = Some entry ->
  md_hostptr (memdesc entry) = 0 ->
  md_size (memdesc entry) <= 0
  \/ memdesc_ptr P __va (memdesc entry) = 0 ->
  let r := kgsl_ioctl_sharedmem_flush_cache P __va KGSL_MEMFLAGS_CACHE_CLEAN
             dev_priv param s in
  let s' := snd r in
  fst r = 0 /\
  fw_mem_lock P s' = true /\
  fw_flushes P s' = fw_flushes P s /\
  w_trace (fw_world P s')
  = w_trace (fw_world P s)
    ++ [EvLog "invalid hostptr with gpuaddr %08x" [gpuaddr]] /\
  exists entry',
    kgsl_sharedmem_find (w_proc (fw_world P s')) gpuaddr = Some entry' /\
    md_hostptr (memdesc entry') = 0 /\
    md_size (memdesc entry') = 0 /\
    md_priv (memdesc entry') = md_priv (memdesc entry).
Proof.
  intros gpuaddr Hen Hfind Hptr Hback.
  destruct s as [w en lk fl]. destruct w as [d h p u kz tr].
  destruct p as [pid0 refcnt0 pt0 ml].
  cbn [fw_mmu_enabled fw_world w_proc] in Hen, Hfind. subst en.
  unfold kgsl_sharedmem_find in *. cbn [mem_list] in Hfind.
  assert (Hg : md_gpuaddr (memdesc entry) = gpuaddr)
    by (exact (find_gpuaddr _ _ _ Hfind)).
  assert (Hv : kgsl_gpuaddr_to_vaddr P __va (memdesc entry) gpuaddr
               = (0, 0)).
  { unfold kgsl_gpuaddr_to_vaddr. rewrite Hg, Z.sub_diag.
    change (u32 0) with 0.
    destruct Hback as [Hs|Hb].
    - replace (md_size (memdesc entry) <=? 0) with true
        by (symmetry; apply Z.leb_le; exact Hs).
      reflexivity.
    - rewrite Hb. destruct (md_size (memdesc entry) <=? 0); reflexivity. }
  cbv zeta. unfold kgsl_ioctl_sharedmem_flush_cache.
  cbn [fw_mmu_enabled negb set_fw_mem_lock fw_world w_proc mem_list].
  fold gpuaddr. unfold kgsl_sharedmem_find. cbn [mem_list].
  rewrite Hfind, Hptr. cbn [Z.eqb]. unfold resolve_hostptr. rewrite Hv.
  cbn [memdesc md_hostptr Z.eqb].
  unfold fw_store_entry, fw_emit, set_fw_flushes, set_fw_mem_lock,
    set_fw_world, set_mem_list.
  cbn [fst snd fw_world fw_mmu_enabled fw_mem_lock fw_flushes w_dev w_hw
       w_proc w_user w_kzalloc w_trace mem_list pid refcnt pagetable].
  split; [reflexivity|]. split; [reflexivity|]. split; [reflexivity|].
  split; [reflexivity|].
  eexists. split.
  - apply find_mem_list_update_same; [exact Hg|].
    rewrite Hfind. discriminate.
  - split; [reflexivity|]. split; reflexivity.
Qed.

End FlushFacts.

Lemma kgsl_ioctl_sharedmem_flush_cache_marks_region_clean_witness :
  let s := sample_flush_world [sample_entry 4096 8192 0 7] in
  let param := mk_sharedmem_free 4096 in
  let r := kgsl_ioctl_sharedmem_flush_cache sample_platform sample_va 1
             0 param s in
  fw_mmu_enabled sample_platform s = true /\
  kgsl_sharedmem_find (w_proc (fw_world sample_platform s)) 4096
  = Some (sample_entry 4096 8192 0 7) /\
  md_hostptr (memdesc (resolve_hostptr sample_platform sample_va 4096
                         (sample_entry 4096 8192 0 7))) <> 0 /\
  is_u32 (KGSL_MEMFLAGS_CACHE_MASK sample_platform) /\
  fst r = 0 /\
  fw_mem_lock sample_platform (snd r) = false /\
  fw_flushes sample_platform (snd r) = 1.
Proof.
  cbv zeta.
  assert (H1 : fw_mmu_enabled sample_platform
                 (sample_flush_world [sample_entry 4096 8192 0 7]) = true)
    by reflexivity.
  assert (H2 : kgsl_sharedmem_find
                 (w_proc (fw_world sample_platform
                            (sample_flush_world
                               [sample_entry 4096 8192 0 7])))
                 (sf_gpuaddr (mk_sharedmem_free 4096))
               = Some (sample_entry 4096 8192 0 7)) by reflexivity.
  assert (H3 : md_hostptr
                 (memdesc (resolve_hostptr sample_platform sample_va 4096
                             (sample_entry 4096 8192 0 7))) <> 0)
    by (vm_compute; discriminate).
  assert (H4 : is_u32 (KGSL_MEMFLAGS_CACHE_MASK sample_platform))
    by (unfold is_u32, UINT_MAX; simpl; lia).
  split; [exact H1|]. split; [exact H2|]. split; [exact H3|].
  split; [exact H4|].
  destruct (kgsl_ioctl_sharedmem_flush_cache_marks_region_clean
              sample_platform sample_va 1 0 (mk_sharedmem_free 4096)
              (sample_flush_world [sample_entry 4096 8192 0 7])
              (sample_entry 4096 8192 0 7) H1 H2 H3 H4)
    as (Hr & Hl & Hf & _).
  split; [exact Hr|]. split; [exact Hl|]. exact Hf.
Defined.

Lemma kgsl_ioctl_sharedmem_flush_cache_unbacked_region_keeps_lock_witness :
  let s := sample_flush_world [sample_entry 4096 0 0 7] in
  let param := mk_sharedmem_free 4096 in
  let r := kgsl_ioctl_sharedmem_flush_cache sample_platform sample_va 1
             0 param s in
  fw_mmu_enabled sample_platform s = true /\
  kgsl_sharedmem_find (w_proc (fw_world sample_platform s)) 4096
  = Some (sample_entry 4096 0 0 7) /\
  md_hostptr (memdesc (sample_entry 4096 0 0 7)) = 0 /\
  (md_size (memdesc (sample_entry 4096 0 0 7)) <= 0
   \/ memdesc_ptr sample_platform sample_va
        (memdesc (sample_entry 4096 0 0 7)) = 0) /\
  fst r = 0 /\
  fw_mem_lock sample_platform (snd r) = true.
Proof.
  cbv zeta.
  assert (H1 : fw_mmu_enabled sample_platform
                 (sample_flush_world [sample_entry 4096 0 0 7]) = true)
    by reflexivity.
  assert (H2 : kgsl_sharedmem_find
                 (w_proc (fw_world sample_platform
                            (sample_flush_world [sample_entry 4096 0 0 7])))
                 (sf_gpuaddr (mk_sharedmem_free 4096))
               = Some (sample_entry 4096 0 0 7)) by reflexivity.
  assert (H3 : md_hostptr (memdesc (sample_entry 4096 0 0 7)) = 0)
    by reflexivity.
  assert (H4 : md_size (memdesc (sample_entry 4096 0 0 7)) <= 0
               \/ memdesc_ptr sample_platform sample_va
                    (memdesc (sample_entry 4096 0 0 7)) = 0)
    by (left; simpl; lia).
  split; [exact H1|]. split; [exact H2|]. split; [exact H3|].
  split; [exact H4|].
  destruct (kgsl_ioctl_sharedmem_flush_cache_unbacked_region_keeps_lock
              sample_platform sample_va 1 0 (mk_sharedmem_free 4096)
              (sample_flush_world [sample_entry 4096 0 0 7])
              (sample_entry 4096 0 0 7) H1 H2 H3 H4)
    as (Hr & Hl & _).
  split; [exact Hr|]. exact Hl.
Defined.
